(** * NayaSutra: wallet identity and authorization

    A shallow embedding of the wallet subsystem of the repository:

    - [ADD_WALLET_VERIFICATION.sql]: the columns added to [profiles] (with the
      UNIQUE constraint on [wallet_address]), the table [wallet_audit_log]
      (with its two foreign keys into [profiles]), the function
      [verify_wallet_authorization] and the trigger [log_wallet_change];
    - the admin wallet management service: [adminRegisterUserWithWallet],
      [adminUpdateUserWallet], [adminVerifyWallet];
    - the wallet verification service: [verifyWalletAuthorization];
    - the handlers of the admin console: [handleRegisterUser],
      [handleUpdateWallet], [handleToggleVerification].

    Modelling decisions.

    - Strings are [string]s of 8-bit characters.  [toLowerCase] maps the
      letters A-Z and leaves every other character alone, which is what
      JavaScript does on ASCII text (wallet addresses are ASCII).
    - UUIDs are the strings the client sends and the store returns.
    - The store is sequential: a table is the list of its rows in insertion
      order, a statement runs to completion, a failing statement leaves the
      tables untouched.  [LIMIT 1] without ORDER BY may return any of
      the matching rows; the model returns the first one of the list, and
      every statement below about a query that several rows can match holds
      for whichever of them is returned.
    - Everything the code obtains from outside is a field of [env]: the
      session ([supabase.auth.getUser()], [auth.uid()]), the two clocks, the
      identifiers the identity provider and the store generate, and, for every
      call whose failure the code handles or discards, whether that call
      fails.  Plain [select] queries are answered from the store.
    - Nothing in the modelled calls throws, so the [catch] blocks of the
      service functions have no counterpart. *)

From Stdlib Require Import String Ascii List Bool Arith Lia.
Import ListNotations.
Open Scope string_scope.
Open Scope list_scope.
Open Scope nat_scope.

(* ------------------------------------------------------------------------- *)
(** ** Strings *)

(** JavaScript truthiness of a string: only the empty string is falsy. *)
Definition truthy (s : string) : bool :=
  match s with EmptyString => false | String _ _ => true end.

Definition is_upper (c : ascii) : bool :=
  (65 <=? nat_of_ascii c) && (nat_of_ascii c <=? 90).

Definition lower_char (c : ascii) : ascii :=
  if is_upper c then ascii_of_nat (nat_of_ascii c + 32) else c.

(** [String.prototype.toLowerCase]. *)
Fixpoint toLowerCase (s : string) : string :=
  match s with
  | EmptyString => EmptyString
  | String c s' => String (lower_char c) (toLowerCase s')
  end.

Fixpoint forall_chars (f : ascii -> bool) (s : string) : bool :=
  match s with
  | EmptyString => true
  | String c s' => f c && forall_chars f s'
  end.

Definition is_digit (c : ascii) : bool :=
  (48 <=? nat_of_ascii c) && (nat_of_ascii c <=? 57).

(** The character class [[a-fA-F0-9]]. *)
Definition is_hex (c : ascii) : bool :=
  ((97 <=? nat_of_ascii c) && (nat_of_ascii c <=? 102))
  || ((65 <=? nat_of_ascii c) && (nat_of_ascii c <=? 70))
  || is_digit c.

(** The character class [[a-f0-9]]. *)
Definition is_lower_hex (c : ascii) : bool :=
  ((97 <=? nat_of_ascii c) && (nat_of_ascii c <=? 102)) || is_digit c.

(** [s.match(/^0x[a-fA-F0-9]{40}$/)], as a boolean.  Without the [m] flag
    [$] matches at the very end of the input only. *)
Definition wallet_format_ok (s : string) : bool :=
  match s with
  | String "0" (String "x" digits) =>
      (String.length digits =? 40) && forall_chars is_hex digits
  | _ => false
  end.

(** The canonical stored form: [0x] and 40 lower-case hexadecimal digits. *)
Definition canonical (s : string) : bool :=
  match s with
  | String "0" (String "x" digits) =>
      (String.length digits =? 40) && forall_chars is_lower_hex digits
  | _ => false
  end.

(** SQL [LIKE]: [%] matches any sequence, [_] any one character, a backslash
    takes the next pattern character literally.  A pattern that ends in a
    lone backslash matches nothing here; PostgreSQL raises an error when the
    matcher reaches it, and no text matches such a pattern either way. *)
Fixpoint like_match (pattern text : string) : bool :=
  match pattern with
  | EmptyString => negb (truthy text)
  | String c pattern' =>
      if Ascii.eqb c "%" then
        (fix skip (t : string) : bool :=
           like_match pattern' t
           || match t with
              | EmptyString => false
              | String _ t' => skip t'
              end) text
      else if Ascii.eqb c "_" then
        match text with
        | EmptyString => false
        | String _ text' => like_match pattern' text'
        end
      else if Ascii.eqb c "\" then
        match pattern' with
        | EmptyString => false
        | String e pattern'' =>
            match text with
            | EmptyString => false
            | String d text' => Ascii.eqb e d && like_match pattern'' text'
            end
        end
      else
        match text with
        | EmptyString => false
        | String d text' => Ascii.eqb c d && like_match pattern' text'
        end
  end.

(** [text ILIKE pattern]: [LIKE] after case folding of both sides. *)
Definition ilike (text pattern : string) : bool :=
  like_match (toLowerCase pattern) (toLowerCase text).

Definition opt_string_eqb (a b : option string) : bool :=
  match a, b with
  | None, None => true
  | Some x, Some y => String.eqb x y
  | _, _ => false
  end.

(** All members pairwise different. *)
Fixpoint distinct (l : list string) : bool :=
  match l with
  | [] => true
  | x :: r => negb (existsb (String.eqb x) r) && distinct r
  end.

(* ------------------------------------------------------------------------- *)
(** ** The tables *)

Inductive user_role_category : Set :=
  judiciary | lawyer | clerk | police | public_party | admin.

(** [role_category::TEXT]. *)
Definition role_text (r : user_role_category) : string :=
  match r with
  | judiciary => "judiciary"
  | lawyer => "lawyer"
  | clerk => "clerk"
  | police => "police"
  | public_party => "public_party"
  | admin => "admin"
  end.

(** A row of [public.profiles], with the columns the subsystem touches.
    [is_wallet_verified] is BOOLEAN DEFAULT false; the code writes [true] or
    [false] into it and never NULL. *)
Record profile : Set := {
  id : string;
  user_id : string;
  email : string;
  full_name : string;
  role_category : user_role_category;
  phone : option string;
  wallet_address : option string;
  is_wallet_verified : bool;
  wallet_verified_at : option string
}.

Inductive audit_action : Set :=
  wallet_added | wallet_changed | wallet_verified | wallet_unverified
| role_assigned.

(** A row of [public.wallet_audit_log]; the generated primary key is left
    out, a row is identified by its place in the log. *)
Record audit_entry : Set := {
  profile_id : string;
  action : audit_action;
  old_value : option string;
  new_value : option string;
  changed_by : option string;
  changed_at : string
}.

(** The identity provider ([auth.users]) and the calls made to it. *)
Record auth_user : Set := { auth_id : string; auth_email : string }.

Inductive auth_call : Set :=
| createUser (email_ : string)
| deleteUser (uid : string).

(** Tables hold their rows in insertion order, [auth_calls] in call order. *)
Record world : Set := {
  profiles : list profile;
  wallet_audit_log : list audit_entry;
  auth_users : list auth_user;
  auth_calls : list auth_call
}.

(** What one operation obtains from outside. *)
Record env : Set := {
  currentAuthUser : option string;   (* session user: getUser(), auth.uid() *)
  now : string;                      (* new Date().toISOString() *)
  db_now : string;                   (* now() of the store *)
  new_user_id : string;              (* id given by the identity provider *)
  new_profile_id : string;           (* id generated for a profiles row *)
  authError : option string;         (* auth.admin.createUser fails *)
  profileError : option string;      (* insert into profiles fails *)
  deleteUserError : option string;   (* auth.admin.deleteUser fails *)
  auditError : option string;        (* insert into wallet_audit_log fails *)
  updateError : option string;       (* update of profiles fails *)
  rpcError : option string           (* rpc verify_wallet_authorization fails *)
}.

Definition set_profiles (w : world) (ps : list profile) : world :=
  {| profiles := ps;
     wallet_audit_log := wallet_audit_log w;
     auth_users := auth_users w;
     auth_calls := auth_calls w |}.

Definition set_audit_log (w : world) (l : list audit_entry) : world :=
  {| profiles := profiles w;
     wallet_audit_log := l;
     auth_users := auth_users w;
     auth_calls := auth_calls w |}.

Definition set_auth (w : world) (us : list auth_user) (cs : list auth_call)
  : world :=
  {| profiles := profiles w;
     wallet_audit_log := wallet_audit_log w;
     auth_users := us;
     auth_calls := cs |}.

(** [.maybeSingle()]: the row when exactly one matches, [null] when none
    does and also (with an error the callers do not read) when several do. *)
Definition maybeSingle {A : Type} (rows : list A) : option A :=
  match rows with
  | [x] => Some x
  | _ => None
  end.

Definition has_id (ps : list profile) (i : string) : bool :=
  existsb (fun p => String.eqb (id p) i) ps.

(** The non-null values of a column, in row order. *)
Definition column (g : profile -> option string) (ps : list profile)
  : list string :=
  flat_map (fun p => match g p with
                     | Some a => [a]
                     | None => []
                     end) ps.

Definition wallets (ps : list profile) : list string :=
  column wallet_address ps.

Definition emails (ps : list profile) : list string :=
  column (fun p => Some (email p)) ps.

(** [.eq("wallet_address", a)]; a NULL never compares equal. *)
Definition wallet_is (a : string) (p : profile) : bool :=
  opt_string_eqb (wallet_address p) (Some a).

(** The foreign keys of [wallet_audit_log]: [profile_id] NOT NULL REFERENCES
    profiles(id), [changed_by] REFERENCES profiles(id) and nullable. *)
Definition audit_row_ok (ps : list profile) (a : audit_entry) : bool :=
  has_id ps (profile_id a)
  && match changed_by a with
     | None => true
     | Some u => has_id ps u
     end.

(** [insert into profiles]: the primary key and UNIQUE(wallet_address) are
    checked by the store.  The store keeps the column free of duplicates, so
    testing the whole column after the statement tests the new value against
    the rows that were there. *)
Definition insert_profile (e : env) (ps : list profile) (row : profile)
  : string + list profile :=
  match profileError e with
  | Some m => inl m
  | None =>
      if has_id ps (id row) then
        inl "duplicate key value violates unique constraint profiles_pkey"
      else if negb (distinct (wallets (ps ++ [row]))) then
        inl "duplicate key value violates unique constraint profiles_wallet_address_key"
      else inr (ps ++ [row])
  end.

(** [insert into wallet_audit_log] issued by the client. *)
Definition insert_audit (e : env) (w : world) (row : audit_entry)
  : option string * world :=
  match auditError e with
  | Some m => (Some m, w)
  | None =>
      if audit_row_ok (profiles w) row then
        (None, set_audit_log w (wallet_audit_log w ++ [row]))
      else
        (Some "insert on table wallet_audit_log violates foreign key constraint", w)
  end.

Definition bool_text (b : bool) : string := if b then "true" else "false".

(** The trigger function [log_wallet_change], for one updated row: the rows
    it inserts into [wallet_audit_log], in order.  [uid] is [auth.uid()]. *)
Definition log_wallet_change (uid : option string) (t : string)
  (OLD NEW : profile) : list audit_entry :=
  (if opt_string_eqb (wallet_address OLD) (wallet_address NEW) then []
   else [ {| profile_id := id NEW;
             action := wallet_changed;
             old_value := wallet_address OLD;
             new_value := wallet_address NEW;
             changed_by := uid;
             changed_at := t |} ])
  ++
  (if Bool.eqb (is_wallet_verified OLD) (is_wallet_verified NEW) then []
   else [ {| profile_id := id NEW;
             action := if is_wallet_verified NEW then wallet_verified
                       else wallet_unverified;
             old_value := Some (bool_text (is_wallet_verified OLD));
             new_value := Some (bool_text (is_wallet_verified NEW));
             changed_by := uid;
             changed_at := t |} ]).

(** [update profiles set ... where sel]: every selected row is rewritten by
    [set], the trigger [log_wallet_changes_trigger] runs AFTER UPDATE FOR EACH
    ROW inside the statement; a violated constraint, also one met by the
    trigger's own inserts, fails the whole statement. *)
Definition update_profiles (e : env) (w : world)
  (sel : profile -> bool) (set : profile -> profile) : string + world :=
  match updateError e with
  | Some m => inl m
  | None =>
      let ps' := map (fun p => if sel p then set p else p) (profiles w) in
      let logged :=
        flat_map (fun p => if sel p
                           then log_wallet_change (currentAuthUser e)
                                  (db_now e) p (set p)
                           else []) (profiles w) in
      if negb (distinct (wallets ps')) then
        inl "duplicate key value violates unique constraint profiles_wallet_address_key"
      else if negb (forallb (audit_row_ok ps') logged) then
        inl "insert on table wallet_audit_log violates foreign key constraint"
      else
        inr (set_audit_log (set_profiles w ps')
               (wallet_audit_log w ++ logged))
  end.

(** The SQL function [verify_wallet_authorization]: the rows it returns, with
    the columns (is_authorized, profile_id, full_name, role_category).  SQL
    fixes no order for [LIMIT 1]; [firstn 1] is one of the answers the store
    can give, and the only one when at most one row matches. *)
Definition verify_wallet_authorization (ps : list profile)
  (p_wallet_address p_role_category : string)
  : list (bool * string * string * user_role_category) :=
  firstn 1
    (map (fun p =>
            (opt_string_eqb (Some p_wallet_address) (wallet_address p)
             && String.eqb (role_text (role_category p)) p_role_category
             && is_wallet_verified p,
             id p, full_name p, role_category p))
       (filter (fun p => match wallet_address p with
                         | Some a => ilike a p_wallet_address
                         | None => false
                         end) ps)).

(* ------------------------------------------------------------------------- *)
(** ** The admin wallet management service *)

Module UserRegistration.
Record t : Set := {
  email : string;
  fullName : string;
  walletAddress : string;
  roleCategory : user_role_category;
  phone : option string
}.
End UserRegistration.

Module WalletUpdateRequest.
Record t : Set := {
  profileId : string;
  newWalletAddress : string;
  reason : string
}.
End WalletUpdateRequest.

(** [{ success, profileId?, error? }]. *)
Record result : Set := {
  success : bool;
  profileId : option string;
  error : option string
}.

Definition failure (msg : string) : result :=
  {| success := false; profileId := None; error := Some msg |}.

Definition succeeded (pid : option string) : result :=
  {| success := true; profileId := pid; error := None |}.

(** [x || null] on an optional string. *)
Definition or_null (x : option string) : option string :=
  match x with
  | Some s => if truthy s then Some s else None
  | None => None
  end.

(** [adminProfile?.role_category !== "admin" &&
     adminProfile?.role_category !== "judiciary"], negated. *)
Definition may_administer (adminProfile : option profile) : bool :=
  match adminProfile with
  | Some p =>
      match role_category p with
      | admin | judiciary => true
      | _ => false
      end
  | None => false
  end.

(** The first lines of the register and update functions: the session user
    and the role of its profile.  [inr uid] is the authenticated caller. *)
Definition validate_admin_access (e : env) (w : world) (denied : string)
  : result + string :=
  match currentAuthUser e with
  | None => inl (failure "Not authenticated")
  | Some uid =>
      if negb (truthy uid) then inl (failure "Not authenticated")
      else
        let adminProfile :=
          maybeSingle
            (filter (fun p => String.eqb (user_id p) uid) (profiles w)) in
        if may_administer adminProfile then inr uid
        else inl (failure denied)
  end.

Definition auth_createUser (e : env) (w : world) (mail : string) : world :=
  match authError e with
  | Some _ => set_auth w (auth_users w) (auth_calls w ++ [createUser mail])
  | None =>
      set_auth w
        (auth_users w ++ [ {| auth_id := new_user_id e; auth_email := mail |} ])
        (auth_calls w ++ [createUser mail])
  end.

Definition auth_deleteUser (e : env) (w : world) (uid : string) : world :=
  match deleteUserError e with
  | Some _ => set_auth w (auth_users w) (auth_calls w ++ [deleteUser uid])
  | None =>
      set_auth w
        (filter (fun u => negb (String.eqb (auth_id u) uid)) (auth_users w))
        (auth_calls w ++ [deleteUser uid])
  end.

(** The row [adminRegisterUserWithWallet] inserts into [profiles]. *)
Definition registered_profile (e : env) (registration : UserRegistration.t)
  : profile :=
  {| id := new_profile_id e;
     user_id := new_user_id e;
     email := UserRegistration.email registration;
     full_name := UserRegistration.fullName registration;
     role_category := UserRegistration.roleCategory registration;
     phone := or_null (UserRegistration.phone registration);
     wallet_address :=
       Some (toLowerCase (UserRegistration.walletAddress registration));
     is_wallet_verified := true;
     wallet_verified_at := Some (now e) |}.

(** The two existence checks of the registration: is the wallet, is the
    email already held by a row? *)
Definition registration_conflict (w : world)
  (registration : UserRegistration.t) : option result :=
  let normalizedWallet :=
    toLowerCase (UserRegistration.walletAddress registration) in
  match maybeSingle (filter (wallet_is normalizedWallet) (profiles w)) with
  | Some _ => Some (failure "This wallet address is already registered")
  | None =>
      match maybeSingle
              (filter (fun p => String.eqb (email p)
                                  (UserRegistration.email registration))
                 (profiles w)) with
      | Some _ => Some (failure "This email is already registered")
      | None => None
      end
  end.

Definition adminRegisterUserWithWallet (e : env) (w : world)
  (registration : UserRegistration.t) : world * result :=
  match validate_admin_access e w
          "Unauthorized: Only admins can register users" with
  | inl r => (w, r)
  | inr uid =>
      let normalizedWallet :=
        toLowerCase (UserRegistration.walletAddress registration) in
      match registration_conflict w registration with
      | Some r => (w, r)
      | None =>
      let w1 := auth_createUser e w (UserRegistration.email registration) in
      match authError e with
      | Some m =>
          (w1, failure (String.append "Failed to create auth user: " m))
      | None =>
      let row := registered_profile e registration in
      match insert_profile e (profiles w1) row with
      | inl m =>
          (auth_deleteUser e w1 (new_user_id e),
           failure (String.append "Failed to create profile: " m))
      | inr ps' =>
          let w2 := set_profiles w1 ps' in
          let w3 :=
            snd (insert_audit e w2
                   {| profile_id := id row;
                      action := wallet_added;
                      old_value := None;
                      new_value := Some normalizedWallet;
                      changed_by := Some uid;
                      changed_at := db_now e |}) in
          (w3, succeeded (Some (id row)))
      end end end
  end.

(** The assignment of [adminUpdateUserWallet]'s update statement. *)
Definition rebind (a t : string) (p : profile) : profile :=
  {| id := id p;
     user_id := user_id p;
     email := email p;
     full_name := full_name p;
     role_category := role_category p;
     phone := phone p;
     wallet_address := Some a;
     is_wallet_verified := true;
     wallet_verified_at := Some t |}.

Definition adminUpdateUserWallet (e : env) (w : world)
  (request : WalletUpdateRequest.t) : world * result :=
  match validate_admin_access e w
          "Unauthorized: Only admins can update wallets" with
  | inl r => (w, r)
  | inr uid =>
      let pid := WalletUpdateRequest.profileId request in
      let normalizedWallet :=
        toLowerCase (WalletUpdateRequest.newWalletAddress request) in
      match maybeSingle
              (filter (fun p => String.eqb (id p) pid) (profiles w)) with
      | None => (w, failure "Profile not found")
      | Some prof =>
      match maybeSingle
              (filter (fun p => wallet_is normalizedWallet p
                                && negb (String.eqb (id p) pid))
                 (profiles w)) with
      | Some _ => (w, failure "New wallet address is already in use")
      | None =>
      match update_profiles e w (fun p => String.eqb (id p) pid)
              (rebind normalizedWallet (now e)) with
      | inl m => (w, failure (String.append "Failed to update wallet: " m))
      | inr w1 =>
          let w2 :=
            snd (insert_audit e w1
                   {| profile_id := pid;
                      action := wallet_changed;
                      old_value := or_null (wallet_address prof);
                      new_value := Some normalizedWallet;
                      changed_by := Some uid;
                      changed_at := db_now e |}) in
          (w2, succeeded None)
      end end end
  end.

(** The assignment of [adminVerifyWallet]'s update statement. *)
Definition set_verification (verify : bool) (t : string) (p : profile)
  : profile :=
  {| id := id p;
     user_id := user_id p;
     email := email p;
     full_name := full_name p;
     role_category := role_category p;
     phone := phone p;
     wallet_address := wallet_address p;
     is_wallet_verified := verify;
     wallet_verified_at := if verify then Some t else None |}.

Definition adminVerifyWallet (e : env) (w : world)
  (profileId_ : string) (verify : bool) : world * result :=
  match update_profiles e w (fun p => String.eqb (id p) profileId_)
          (set_verification verify (now e)) with
  | inl m => (w, failure m)
  | inr w1 => (w1, succeeded None)
  end.

(* ------------------------------------------------------------------------- *)
(** ** The wallet verification service *)

Module WalletAuthResponse.
Record t : Set := {
  isAuthorized : bool;
  profileId : option string;
  fullName : option string;
  roleCategory : option string;
  error : option string
}.
End WalletAuthResponse.

Definition denied (msg : string) : WalletAuthResponse.t :=
  {| WalletAuthResponse.isAuthorized := false;
     WalletAuthResponse.profileId := None;
     WalletAuthResponse.fullName := None;
     WalletAuthResponse.roleCategory := None;
     WalletAuthResponse.error := Some msg |}.

Definition verifyWalletAuthorization (e : env) (w : world)
  (walletAddress roleCategory : string) : WalletAuthResponse.t :=
  if negb (truthy walletAddress) || negb (truthy roleCategory) then
    denied "Missing wallet address or role"
  else
    match rpcError e with
    | Some m => denied m
    | None =>
        match verify_wallet_authorization (profiles w)
                (toLowerCase walletAddress) roleCategory with
        | [] => denied "Wallet not found or not authorized for this role"
        | (is_authorized, pid, name, role) :: _ =>
            {| WalletAuthResponse.isAuthorized := is_authorized;
               WalletAuthResponse.profileId := Some pid;
               WalletAuthResponse.fullName := Some name;
               WalletAuthResponse.roleCategory := Some (role_text role);
               WalletAuthResponse.error := None |}
        end
    end.

(* ------------------------------------------------------------------------- *)
(** ** The admin console *)

Module registerForm.
Record t : Set := {
  email : string;
  fullName : string;
  walletAddress : string;
  roleCategory : user_role_category;
  phone : string
}.
End registerForm.

Module updateForm.
Record t : Set := {
  profileId : string;
  newWalletAddress : string;
  reason : string
}.
End updateForm.

Module verifyDialog.
Record t : Set := { userId : string; currentStatus : bool }.
End verifyDialog.

(** What the handler shows; the text of a success toast is not modelled. *)
Inductive toast : Set :=
| toast_error (msg : string)
| toast_success.

(** [x || fallback] on strings. *)
Definition or_else (x fallback : string) : string :=
  if truthy x then x else fallback.

Definition or_message (x : option string) (fallback : string) : string :=
  match or_null x with
  | Some s => s
  | None => fallback
  end.

(** The argument [handleRegisterUser] passes to the service. *)
Definition submitted_registration (f : registerForm.t) : UserRegistration.t :=
  {| UserRegistration.email := registerForm.email f;
     UserRegistration.fullName := registerForm.fullName f;
     UserRegistration.walletAddress := registerForm.walletAddress f;
     UserRegistration.roleCategory := registerForm.roleCategory f;
     UserRegistration.phone :=
       if truthy (registerForm.phone f)
       then Some (registerForm.phone f) else None |}.

Definition handleRegisterUser (e : env) (w : world) (f : registerForm.t)
  : world * toast :=
  if negb (truthy (registerForm.email f))
     || negb (truthy (registerForm.fullName f))
     || negb (truthy (registerForm.walletAddress f)) then
    (w, toast_error "Please fill in all required fields")
  else if negb (wallet_format_ok (registerForm.walletAddress f)) then
    (w, toast_error
          "Invalid wallet address format (should be 0x followed by 40 hex characters)")
  else
    let (w', r) :=
      adminRegisterUserWithWallet e w (submitted_registration f) in
    if success r then (w', toast_success)
    else (w', toast_error (or_message (error r) "Failed to register user")).

(** The argument [handleUpdateWallet] passes to the service. *)
Definition submitted_update (f : updateForm.t) : WalletUpdateRequest.t :=
  {| WalletUpdateRequest.profileId := updateForm.profileId f;
     WalletUpdateRequest.newWalletAddress := updateForm.newWalletAddress f;
     WalletUpdateRequest.reason :=
       or_else (updateForm.reason f) "Admin updated" |}.

Definition handleUpdateWallet (e : env) (w : world) (f : updateForm.t)
  : world * toast :=
  if negb (truthy (updateForm.profileId f))
     || negb (truthy (updateForm.newWalletAddress f)) then
    (w, toast_error "Please fill in all required fields")
  else if negb (wallet_format_ok (updateForm.newWalletAddress f)) then
    (w, toast_error "Invalid wallet address format")
  else
    let (w', r) := adminUpdateUserWallet e w (submitted_update f) in
    if success r then (w', toast_success)
    else (w', toast_error (or_message (error r) "Failed to update wallet")).

Definition handleToggleVerification (e : env) (w : world) (d : verifyDialog.t)
  : world * toast :=
  let newStatus := negb (verifyDialog.currentStatus d) in
  let (w', r) := adminVerifyWallet e w (verifyDialog.userId d) newStatus in
  if success r then (w', toast_success)
  else (w', toast_error (or_message (error r) "Failed to update verification")).

(* ------------------------------------------------------------------------- *)
(** ** Operations, runs and invariants *)

(** The operations of the service, by the names the specification uses. *)
Inductive op : Set :=
| register (registration : UserRegistration.t)
| updateWallet (request : WalletUpdateRequest.t)
| setVerified (profileId_ : string) (verified : bool).

Definition perform (e : env) (w : world) (o : op) : world * result :=
  match o with
  | register registration => adminRegisterUserWithWallet e w registration
  | updateWallet request => adminUpdateUserWallet e w request
  | setVerified i v => adminVerifyWallet e w i v
  end.

(** The states a run of service calls goes through, starting in [w0]. *)
Inductive reachable (w0 : world) : world -> Prop :=
| reach_start : reachable w0 w0
| reach_perform (w : world) (e : env) (o : op) :
    reachable w0 w -> reachable w0 (fst (perform e w o)).

(** The same for the console, whose handlers are the boundary at which the
    administrator's input enters. *)
Inductive click : Set :=
| clickRegister (f : registerForm.t)
| clickUpdate (f : updateForm.t)
| clickToggle (d : verifyDialog.t).

Definition handle (e : env) (w : world) (c : click) : world * toast :=
  match c with
  | clickRegister f => handleRegisterUser e w f
  | clickUpdate f => handleUpdateWallet e w f
  | clickToggle d => handleToggleVerification e w d
  end.

Inductive console_reachable (w0 : world) : world -> Prop :=
| console_start : console_reachable w0 w0
| console_click (w : world) (e : env) (c : click) :
    console_reachable w0 w -> console_reachable w0 (fst (handle e w c)).

(** [p] and [q] are two different rows of the table. *)
Definition two_rows (ps : list profile) (p q : profile) : Prop :=
  exists i j, i <> j /\ nth_error ps i = Some p /\ nth_error ps j = Some q.

(** Invariant (a): no two rows hold the same non-null wallet address. *)
Definition wallet_uniqueness (w : world) : Prop :=
  forall p q a, two_rows (profiles w) p q ->
    wallet_address p = Some a -> wallet_address q <> Some a.

(** Invariant (b): no two rows hold the same email. *)
Definition email_uniqueness (w : world) : Prop :=
  forall p q, two_rows (profiles w) p q -> email p <> email q.

(** Invariant (c), for one row. *)
Definition verification_consistent (p : profile) : Prop :=
  is_wallet_verified p = true <-> wallet_verified_at p <> None.

(** Invariant (d), for one row. *)
Definition wallet_canonical (p : profile) : Prop :=
  forall a, wallet_address p = Some a -> canonical a = true.

Definition all_profiles (P : profile -> Prop) (w : world) : Prop :=
  Forall P (profiles w).

(** The boundary's normalization of a wallet address: the console's format
    test ([handleRegisterUser], [handleUpdateWallet]) followed by the
    service's [toLowerCase]; [None] is a rejected address. *)
Definition normalize (a : string) : option string :=
  if wallet_format_ok a then Some (toLowerCase a) else None.

(** A character that [LIKE] takes literally. *)
Definition plain (c : ascii) : bool :=
  negb (Ascii.eqb c "%") && negb (Ascii.eqb c "_") && negb (Ascii.eqb c "\").

(** The entries of a log with a given action, for a given profile. *)
Definition entries_of (act : audit_action) (pid : string)
  (l : list audit_entry) : list audit_entry :=
  filter (fun a => String.eqb (profile_id a) pid
                   && match action a, act with
                      | wallet_added, wallet_added
                      | wallet_changed, wallet_changed
                      | wallet_verified, wallet_verified
                      | wallet_unverified, wallet_unverified
                      | role_assigned, role_assigned => true
                      | _, _ => false
                      end) l.

(** The condition under which a wallet is to be authorized for a role. *)
Definition granted (w : world) (a r : string) : Prop :=
  exists p, In p (profiles w)
            /\ wallet_address p = Some (toLowerCase a)
            /\ role_text (role_category p) = r
            /\ is_wallet_verified p = true.

(** The same outside world, except for the fate of one call. *)
Definition with_auditError (e : env) (m : option string) : env :=
  {| currentAuthUser := currentAuthUser e;
     now := now e;
     db_now := db_now e;
     new_user_id := new_user_id e;
     new_profile_id := new_profile_id e;
     authError := authError e;
     profileError := profileError e;
     deleteUserError := deleteUserError e;
     auditError := m;
     updateError := updateError e;
     rpcError := rpcError e |}.

Definition with_profileError (e : env) (m : option string) : env :=
  {| currentAuthUser := currentAuthUser e;
     now := now e;
     db_now := db_now e;
     new_user_id := new_user_id e;
     new_profile_id := new_profile_id e;
     authError := authError e;
     profileError := m;
     deleteUserError := deleteUserError e;
     auditError := auditError e;
     updateError := updateError e;
     rpcError := rpcError e |}.

(* ------------------------------------------------------------------------- *)
(** ** A small court, to run the functions on *)

(** An administrator whose profile id is also its id at the identity
    provider. *)
Definition registrar : profile :=
  {| id := "admin-1";
     user_id := "admin-1";
     email := "registrar@court.example";
     full_name := "Registrar";
     role_category := admin;
     phone := None;
     wallet_address := None;
     is_wallet_verified := false;
     wallet_verified_at := None |}.

(** A judge as the registration creates profiles: the profile id and the id
    at the identity provider are two identifiers. *)
Definition judge : profile :=
  {| id := "p-judge";
     user_id := "u-judge";
     email := "judge@court.example";
     full_name := "Judge";
     role_category := judiciary;
     phone := None;
     wallet_address := Some "0x00000000000000000000000000000000000000aa";
     is_wallet_verified := true;
     wallet_verified_at := Some "2024-01-01T00:00:00.000Z" |}.

Definition advocate : profile :=
  {| id := "p-adv";
     user_id := "u-adv";
     email := "a@x.com";
     full_name := "Advocate";
     role_category := lawyer;
     phone := None;
     wallet_address := Some "0xabcdef0123456789abcdef0123456789abcdef01";
     is_wallet_verified := true;
     wallet_verified_at := Some "2024-01-01T00:00:00.000Z" |}.

Definition court : world :=
  {| profiles := [registrar; judge; advocate];
     wallet_audit_log := [];
     auth_users :=
       [ {| auth_id := "admin-1"; auth_email := "registrar@court.example" |};
         {| auth_id := "u-judge"; auth_email := "judge@court.example" |};
         {| auth_id := "u-adv"; auth_email := "a@x.com" |} ];
     auth_calls := [] |}.

(** An outside world in which every call goes through, for a session. *)
Definition session (uid : option string) : env :=
  {| currentAuthUser := uid;
     now := "2024-02-01T10:00:00.000Z";
     db_now := "2024-02-01 10:00:00+00";
     new_user_id := "u-new";
     new_profile_id := "p-new";
     authError := None;
     profileError := None;
     deleteUserError := None;
     auditError := None;
     updateError := None;
     rpcError := None |}.

Definition newcomer : UserRegistration.t :=
  {| UserRegistration.email := "c@x.com";
     UserRegistration.fullName := "Clerk";
     UserRegistration.walletAddress :=
       "0x1111111111111111111111111111111111111111";
     UserRegistration.roleCategory := clerk;
     UserRegistration.phone := None |}.

(** The first example scenario of the specification: a court with the
    registrar only, and the registration of a lawyer. *)
Definition chambers : world :=
  {| profiles := [registrar];
     wallet_audit_log := [];
     auth_users :=
       [ {| auth_id := "admin-1"; auth_email := "registrar@court.example" |} ];
     auth_calls := [] |}.

Definition first_lawyer (mail : string) : UserRegistration.t :=
  {| UserRegistration.email := mail;
     UserRegistration.fullName := "Advocate";
     UserRegistration.walletAddress :=
       "0xABCDEF0123456789ABCDEF0123456789ABCDEF01";
     UserRegistration.roleCategory := lawyer;
     UserRegistration.phone := None |}.

(** The registration form, filled in with an address in upper case. *)
Definition newcomer_form : registerForm.t :=
  {| registerForm.email := "c@x.com";
     registerForm.fullName := "Clerk";
     registerForm.walletAddress :=
       "0x1111111111111111111111111111111111111ABC";
     registerForm.roleCategory := clerk;
     registerForm.phone := "" |}.

Definition new_wallet_for_advocate : WalletUpdateRequest.t :=
  {| WalletUpdateRequest.profileId := "p-adv";
     WalletUpdateRequest.newWalletAddress :=
       "0x2222222222222222222222222222222222222222";
     WalletUpdateRequest.reason := "Admin updated" |}.

(* ------------------------------------------------------------------------- *)
(** ** Lookups, the free-standing audit insert and the page guard *)

Module FoundUser.
(** The columns [adminSearchUserByWallet] selects. *)
Record t : Set := {
  id : string;
  email : string;
  full_name : string;
  role_category : user_role_category;
  wallet_address : option string;
  is_wallet_verified : bool
}.
End FoundUser.

Module WalletStatus.
(** The columns [getWalletStatus] selects. *)
Record t : Set := {
  id : string;
  full_name : string;
  role_category : user_role_category;
  wallet_address : option string;
  is_wallet_verified : bool
}.
End WalletStatus.

Definition found_user (p : profile) : FoundUser.t :=
  {| FoundUser.id := id p;
     FoundUser.email := email p;
     FoundUser.full_name := full_name p;
     FoundUser.role_category := role_category p;
     FoundUser.wallet_address := wallet_address p;
     FoundUser.is_wallet_verified := is_wallet_verified p |}.

Definition wallet_status (p : profile) : WalletStatus.t :=
  {| WalletStatus.id := id p;
     WalletStatus.full_name := full_name p;
     WalletStatus.role_category := role_category p;
     WalletStatus.wallet_address := wallet_address p;
     WalletStatus.is_wallet_verified := is_wallet_verified p |}.

(** [adminSearchUserByWallet]: [null] when no row or several rows hold the
    lower-cased address. *)
Definition adminSearchUserByWallet (w : world) (walletAddress : string)
  : option FoundUser.t :=
  option_map found_user
    (maybeSingle (filter (wallet_is (toLowerCase walletAddress)) (profiles w))).

(** [getWalletStatus], the same query of the wallet verification service. *)
Definition getWalletStatus (w : world) (walletAddress : string)
  : option WalletStatus.t :=
  option_map wallet_status
    (maybeSingle (filter (wallet_is (toLowerCase walletAddress)) (profiles w))).

(** [logWalletAction]: an audit entry written on its own, with [changed_by]
    null; the result tells whether the insert went through. *)
Definition logWalletAction (e : env) (w : world) (profileId_ : string)
  (act : audit_action) (oldValue newValue : option string) : world * bool :=
  match insert_audit e w
          {| profile_id := profileId_;
             action := act;
             old_value := or_null oldValue;
             new_value := or_null newValue;
             changed_by := None;
             changed_at := db_now e |} with
  | (Some _, w') => (w', false)
  | (None, w') => (w', true)
  end.

(** What [AdminWalletPage] renders for the signed-in profile. *)
Inductive page : Set := AccessDenied | Console.

Definition AdminWalletPage (signed_in : option profile) : page :=
  match signed_in with
  | None => AccessDenied
  | Some p =>
      match role_category p with
      | judiciary => Console
      | _ => AccessDenied
      end
  end.

(* ------------------------------------------------------------------------- *)
(** ** The case service *)

Module cases.
(** A row of the table [cases], with the columns the service reads and
    writes. *)
Record row : Set := {
  id : string;
  case_number : string;
  unique_identifier : string;
  title : string;
  description : option string;
  case_type : string;
  status : string;
  party_a_name : string;
  party_b_name : string;
  court_name : option string;
  created_at : string;
  updated_at : string
}.
End cases.

Module CaseFile.
(** The case as the front end holds it. *)
Record t : Set := {
  id : string;
  caseNumber : string;
  title : string;
  description : string;
  caseType : string;
  courtName : option string;
  partyA : string;
  partyB : string;
  status : string;
  evidenceCount : nat;
  createdAt : string;
  updatedAt : string
}.
End CaseFile.

Module NewCase.
(** The argument of [createCase]: a case without the generated fields. *)
Record t : Set := {
  caseNumber : string;
  title : string;
  description : option string;
  caseType : string;
  courtName : option string;
  partyA : option string;
  partyB : option string
}.
End NewCase.

(** What the store answers to one call of the case service. *)
Record case_env : Set := {
  new_case_id : string;              (* generated id of an inserted row *)
  case_created_at : string;          (* generated created_at *)
  case_updated_at : string;          (* generated updated_at *)
  insertError : option string;       (* insert into cases fails *)
  selectError : option string;       (* select from cases fails *)
  deleteError : option string        (* delete from cases fails *)
}.

(** [x || ''] on an optional string. *)
Definition or_empty (x : option string) : string :=
  match x with
  | Some s => s
  | None => ""
  end.

(** The mapping "from database format to frontend format", the same in
    every function of the service. *)
Definition to_case_file (c : cases.row) : CaseFile.t :=
  {| CaseFile.id := cases.id c;
     CaseFile.caseNumber := cases.case_number c;
     CaseFile.title := cases.title c;
     CaseFile.description := or_empty (cases.description c);
     CaseFile.caseType := cases.case_type c;
     CaseFile.courtName := or_null (cases.court_name c);
     CaseFile.partyA := cases.party_a_name c;
     CaseFile.partyB := cases.party_b_name c;
     CaseFile.status := "open";
     CaseFile.evidenceCount := 0;
     CaseFile.createdAt := cases.created_at c;
     CaseFile.updatedAt := cases.updated_at c |}.

(** The row [createCase] sends, completed with the generated columns. *)
Definition new_case_row (e : case_env) (data : NewCase.t) : cases.row :=
  {| cases.id := new_case_id e;
     cases.case_number := NewCase.caseNumber data;
     cases.unique_identifier := NewCase.caseNumber data;
     cases.title := NewCase.title data;
     cases.description := or_null (NewCase.description data);
     cases.case_type :=
       if String.eqb (NewCase.caseType data) "civil"
          || String.eqb (NewCase.caseType data) "criminal"
       then NewCase.caseType data else "civil";
     cases.status := "pending";
     cases.party_a_name := or_empty (NewCase.partyA data);
     cases.party_b_name := or_empty (NewCase.partyB data);
     cases.court_name := or_null (NewCase.courtName data);
     cases.created_at := case_created_at e;
     cases.updated_at := case_updated_at e |}.

(** [createCase]; [inl] is the message of the error it throws. *)
Definition createCase (e : case_env) (cs : list cases.row) (data : NewCase.t)
  : list cases.row * (string + CaseFile.t) :=
  if negb (truthy (NewCase.caseNumber data))
     || negb (truthy (NewCase.title data))
     || negb (truthy (or_empty (NewCase.courtName data))) then
    (cs, inl "Missing required case fields")
  else
    match insertError e with
    | Some m => (cs, inl (String.append "Failed to create case: " m))
    | None =>
        (cs ++ [new_case_row e data],
         inr (to_case_file (new_case_row e data)))
    end.

(** [getCaseById]; [inl] is the message of the error it throws, [inr None]
    is [undefined].  [.single()] fails unless exactly one row matches. *)
Definition getCaseById (e : case_env) (cs : list cases.row) (i : string)
  : string + option CaseFile.t :=
  if negb (truthy i) then inl "Case ID is required"
  else
    match selectError e with
    | Some _ => inr None
    | None =>
        match filter (fun c => String.eqb (cases.id c) i) cs with
        | [c] => inr (Some (to_case_file c))
        | _ => inr None
        end
    end.

(** [deleteCase]; [inl] is the message of the error it throws. *)
Definition deleteCase (e : case_env) (cs : list cases.row) (i : string)
  : list cases.row * (string + bool) :=
  match deleteError e with
  | Some m => (cs, inl (String.append "Failed to delete case: " m))
  | None =>
      (filter (fun c => negb (String.eqb (cases.id c) i)) cs, inr true)
  end.

(** A docket with one case, a store that answers every call, and a case to
    file. *)
Definition docket : list cases.row :=
  [ {| cases.id := "case-1";
       cases.case_number := "CR-2024-001";
       cases.unique_identifier := "CR-2024-001";
       cases.title := "State v. Rao";
       cases.description := None;
       cases.case_type := "criminal";
       cases.status := "pending";
       cases.party_a_name := "State";
       cases.party_b_name := "Rao";
       cases.court_name := Some "District Court";
       cases.created_at := "2024-01-05 09:00:00+00";
       cases.updated_at := "2024-01-05 09:00:00+00" |} ].

Definition clerk_desk : case_env :=
  {| new_case_id := "case-2";
     case_created_at := "2024-02-01 10:00:00+00";
     case_updated_at := "2024-02-01 10:00:00+00";
     insertError := None;
     selectError := None;
     deleteError := None |}.

Definition land_dispute : NewCase.t :=
  {| NewCase.caseNumber := "CV-2024-017";
     NewCase.title := "Mehta v. Shah";
     NewCase.description := Some "Boundary of a plot";
     NewCase.caseType := "property";
     NewCase.courtName := Some "High Court";
     NewCase.partyA := Some "Mehta";
     NewCase.partyB := None |}.

(* ------------------------------------------------------------------------- *)
(** ** Calls that reach the service without passing through the console *)

(** A registration whose address is not in the wallet format. *)
Definition malformed_clerk : UserRegistration.t :=
  {| UserRegistration.email := "m@x.com";
     UserRegistration.fullName := "Malformed";
     UserRegistration.walletAddress := "Not-A-Wallet";
     UserRegistration.roleCategory := clerk;
     UserRegistration.phone := None |}.

(** A registration whose address contains the escape character of [LIKE]. *)
Definition escaped_clerk : UserRegistration.t :=
  {| UserRegistration.email := "e@x.com";
     UserRegistration.fullName := "Escaped";
     UserRegistration.walletAddress := "0x\a";
     UserRegistration.roleCategory := clerk;
     UserRegistration.phone := None |}.

(** The court after the registrar has called the service with each. *)
Definition court_with_malformed : world :=
  fst (perform (session (Some "admin-1")) court (register malformed_clerk)).

Definition court_with_escaped : world :=
  fst (perform (session (Some "admin-1")) court (register escaped_clerk)).

(* ------------------------------------------------------------------------- *)
(** ** Characters and strings *)

Ltac each_char c :=
  destruct c as [[] [] [] [] [] [] [] []]; vm_compute; congruence.

Lemma lower_char_idem (c : ascii) : lower_char (lower_char c) = lower_char c.
Proof. each_char c. Qed.

Lemma lower_char_not_upper (c : ascii) : is_upper (lower_char c) = false.
Proof. each_char c. Qed.

Lemma hex_lower (c : ascii) :
  is_hex c = true -> is_lower_hex (lower_char c) = true.
Proof. each_char c. Qed.

Lemma lower_hex_fixed (c : ascii) : is_lower_hex c = true -> lower_char c = c.
Proof. each_char c. Qed.

Lemma lower_hex_hex (c : ascii) : is_lower_hex c = true -> is_hex c = true.
Proof. each_char c. Qed.

Lemma lower_hex_plain (c : ascii) : is_lower_hex c = true -> plain c = true.
Proof. each_char c. Qed.

Lemma toLowerCase_idem (s : string) :
  toLowerCase (toLowerCase s) = toLowerCase s.
Proof.
  induction s as [|c s IH]; simpl.
  - reflexivity.
  - now rewrite lower_char_idem, IH.
Qed.

Lemma toLowerCase_no_upper (s : string) :
  forall_chars (fun c => negb (is_upper c)) (toLowerCase s) = true.
Proof.
  induction s as [|c s IH]; simpl.
  - reflexivity.
  - now rewrite lower_char_not_upper, IH.
Qed.

Lemma toLowerCase_length (s : string) :
  String.length (toLowerCase s) = String.length s.
Proof. induction s as [|c s IH]; simpl; congruence. Qed.

Lemma forall_chars_impl (f g : ascii -> bool) (s : string) :
  (forall c, f c = true -> g c = true) ->
  forall_chars f s = true -> forall_chars g s = true.
Proof.
  intros Hfg. induction s as [|c s IH]; simpl; intros H.
  - reflexivity.
  - apply andb_true_iff in H as [Hc Hs].
    now rewrite (Hfg _ Hc), (IH Hs).
Qed.

Lemma hex_digits_lower (s : string) :
  forall_chars is_hex s = true ->
  forall_chars is_lower_hex (toLowerCase s) = true.
Proof.
  induction s as [|c s IH]; simpl; intros H.
  - reflexivity.
  - apply andb_true_iff in H as [Hc Hs].
    now rewrite (hex_lower _ Hc), (IH Hs).
Qed.

Lemma lower_hex_digits_fixed (s : string) :
  forall_chars is_lower_hex s = true -> toLowerCase s = s.
Proof.
  induction s as [|c s IH]; simpl; intros H.
  - reflexivity.
  - apply andb_true_iff in H as [Hc Hs].
    now rewrite (lower_hex_fixed _ Hc), (IH Hs).
Qed.

(** What the two format tests say, read off the string. *)
Lemma wallet_format_ok_inv (s : string) :
  wallet_format_ok s = true ->
  exists digits, s = String "0" (String "x" digits)
                 /\ String.length digits = 40
                 /\ forall_chars is_hex digits = true.
Proof.
  unfold wallet_format_ok. intros H.
  destruct s as [|c0 [|c1 digits]]; try discriminate.
  - destruct c0 as [[] [] [] [] [] [] [] []]; discriminate.
  - destruct c0 as [[] [] [] [] [] [] [] []]; try discriminate.
    destruct c1 as [[] [] [] [] [] [] [] []]; try discriminate.
    apply andb_true_iff in H as [Hl Hh]. apply Nat.eqb_eq in Hl.
    exists digits. auto.
Qed.

Lemma canonical_inv (s : string) :
  canonical s = true ->
  exists digits, s = String "0" (String "x" digits)
                 /\ String.length digits = 40
                 /\ forall_chars is_lower_hex digits = true.
Proof.
  unfold canonical. intros H.
  destruct s as [|c0 [|c1 digits]]; try discriminate.
  - destruct c0 as [[] [] [] [] [] [] [] []]; discriminate.
  - destruct c0 as [[] [] [] [] [] [] [] []]; try discriminate.
    destruct c1 as [[] [] [] [] [] [] [] []]; try discriminate.
    apply andb_true_iff in H as [Hl Hh]. apply Nat.eqb_eq in Hl.
    exists digits. auto.
Qed.

Lemma format_ok_lower_canonical (s : string) :
  wallet_format_ok s = true -> canonical (toLowerCase s) = true.
Proof.
  intros H. destruct (wallet_format_ok_inv s H) as (d & -> & Hl & Hh).
  cbn. rewrite toLowerCase_length, Hl, (hex_digits_lower _ Hh). reflexivity.
Qed.

Lemma canonical_format_ok (s : string) :
  canonical s = true -> wallet_format_ok s = true.
Proof.
  intros H. destruct (canonical_inv s H) as (d & -> & Hl & Hh).
  cbn. rewrite Hl, (forall_chars_impl _ _ _ lower_hex_hex Hh). reflexivity.
Qed.

Lemma canonical_lower_fixed (s : string) :
  canonical s = true -> toLowerCase s = s.
Proof.
  intros H. destruct (canonical_inv s H) as (d & -> & Hl & Hh).
  cbn. now rewrite (lower_hex_digits_fixed _ Hh).
Qed.

Lemma canonical_plain (s : string) :
  canonical s = true -> forall_chars plain s = true.
Proof.
  intros H. destruct (canonical_inv s H) as (d & -> & Hl & Hh).
  cbn. apply (forall_chars_impl _ _ _ lower_hex_plain Hh).
Qed.

Lemma canonical_truthy (s : string) : canonical s = true -> truthy s = true.
Proof. destruct s; [discriminate | reflexivity]. Qed.

(** A pattern without [%], [_] and backslash matches itself only. *)
Lemma like_match_plain (p : string) :
  forall_chars plain p = true ->
  forall t, like_match p t = String.eqb p t.
Proof.
  induction p as [|c p IH]; intros Hp t.
  - destruct t; reflexivity.
  - simpl in Hp. apply andb_true_iff in Hp as [Hc Hp'].
    unfold plain in Hc.
    apply andb_true_iff in Hc as [Hc Hc3].
    apply andb_true_iff in Hc as [Hc1 Hc2].
    apply negb_true_iff in Hc1, Hc2, Hc3.
    cbn [like_match]. rewrite Hc1, Hc2, Hc3.
    destruct t as [|d t]; cbn [String.eqb].
    + reflexivity.
    + rewrite (IH Hp' t). destruct (Ascii.eqb c d); reflexivity.
Qed.

Lemma ilike_canonical (stored p : string) :
  canonical stored = true -> canonical p = true ->
  ilike stored p = String.eqb stored p.
Proof.
  intros Hs Hp. unfold ilike.
  rewrite (canonical_lower_fixed _ Hs), (canonical_lower_fixed _ Hp).
  rewrite (like_match_plain _ (canonical_plain _ Hp)).
  apply String.eqb_sym.
Qed.

Lemma role_text_truthy (r : user_role_category) : truthy (role_text r) = true.
Proof. destruct r; reflexivity. Qed.

(* ------------------------------------------------------------------------- *)
(** ** Columns and uniqueness *)

Lemma opt_string_eqb_eq (a b : option string) :
  opt_string_eqb a b = true <-> a = b.
Proof.
  destruct a as [x|], b as [y|]; simpl; try (split; congruence).
  rewrite String.eqb_eq. split; congruence.
Qed.

Lemma existsb_eqb_In (x : string) (l : list string) :
  existsb (String.eqb x) l = true <-> In x l.
Proof.
  rewrite existsb_exists. split.
  - intros (y & Hy & Hxy). apply String.eqb_eq in Hxy. now subst.
  - intros H. exists x. split; [assumption | apply String.eqb_refl].
Qed.

Lemma distinct_NoDup (l : list string) : distinct l = true <-> NoDup l.
Proof.
  induction l as [|x l IH]; simpl.
  - split; [constructor | reflexivity].
  - rewrite andb_true_iff, negb_true_iff, IH. split.
    + intros [Hx Hl]. constructor; [|assumption].
      intros Hin. apply existsb_eqb_In in Hin. congruence.
    + intros H. inversion H as [|? ? Hx Hl]; subst. split; [|assumption].
      destruct (existsb (String.eqb x) l) eqn:E; [|reflexivity].
      apply existsb_eqb_In in E. contradiction.
Qed.

Section Column.
Variable g : profile -> option string.

Lemma column_cons (x : profile) (ps : list profile) :
  column g (x :: ps)
  = match g x with Some a => [a] | None => [] end ++ column g ps.
Proof. reflexivity. Qed.

Lemma column_app (ps qs : list profile) :
  column g (ps ++ qs) = column g ps ++ column g qs.
Proof. unfold column. apply flat_map_app. Qed.

Lemma in_column (a : string) (ps : list profile) :
  In a (column g ps) <-> exists q, In q ps /\ g q = Some a.
Proof.
  unfold column. rewrite in_flat_map. split.
  - intros (q & Hq & Ha). exists q. split; [assumption|].
    destruct (g q) as [b|]; simpl in Ha; [|contradiction].
    destruct Ha as [->|[]]. reflexivity.
  - intros (q & Hq & Ha). exists q. split; [assumption|].
    rewrite Ha. now left.
Qed.

Lemma two_rows_tail (x : profile) (ps : list profile) (p q : profile) :
  two_rows ps p q -> two_rows (x :: ps) p q.
Proof.
  intros (i & j & Hij & Hi & Hj). exists (S i), (S j).
  repeat split; simpl; auto.
Qed.

Lemma two_rows_head (x : profile) (ps : list profile) (q : profile) :
  In q ps -> two_rows (x :: ps) x q /\ two_rows (x :: ps) q x.
Proof.
  intros Hq. apply In_nth_error in Hq as [j Hj].
  split; [exists 0, (S j) | exists (S j), 0]; repeat split; simpl; auto.
Qed.

Lemma two_rows_cons_inv (x : profile) (ps : list profile) (p q : profile) :
  two_rows (x :: ps) p q ->
  (p = x /\ In q ps) \/ (q = x /\ In p ps) \/ two_rows ps p q.
Proof.
  intros (i & j & Hij & Hi & Hj).
  destruct i as [|i], j as [|j]; simpl in Hi, Hj.
  - congruence.
  - left. split; [congruence | eapply nth_error_In; eassumption].
  - right; left. split; [congruence | eapply nth_error_In; eassumption].
  - right; right. exists i, j. repeat split; auto.
Qed.

(** The rows are pairwise different in the column exactly when the list
    of its values has no duplicate. *)
Lemma NoDup_column (ps : list profile) :
  NoDup (column g ps)
  <-> (forall p q a, two_rows ps p q -> g p = Some a -> g q <> Some a).
Proof.
  induction ps as [|x ps IH].
  - split; [|constructor].
    intros _ p q a (i & j & _ & Hi & _). destruct i; discriminate.
  - rewrite column_cons. split.
    + intros Hnd p q a Hpq Hp Hq.
      assert (Htail : NoDup (column g ps)).
      { destruct (g x); [now inversion Hnd | assumption]. }
      assert (Hhead : forall r, In r ps -> g x = Some a -> g r <> Some a).
      { intros r Hr Hx Hra. rewrite Hx in Hnd. simpl in Hnd.
        inversion Hnd as [|? ? Hnotin _]; subst. apply Hnotin.
        apply in_column. eauto. }
      destruct (two_rows_cons_inv _ _ _ _ Hpq)
        as [[-> Hin]|[[-> Hin]|Hps]].
      * exact (Hhead q Hin Hp Hq).
      * exact (Hhead p Hin Hq Hp).
      * exact (proj1 IH Htail p q a Hps Hp Hq).
    + intros Hpair.
      assert (Htail : NoDup (column g ps)).
      { apply IH. intros p q a Hpq. apply Hpair.
        now apply two_rows_tail. }
      destruct (g x) as [a|] eqn:Hx; simpl; [|assumption].
      constructor; [|assumption].
      intros Hin. apply in_column in Hin as (q & Hq & Hqa).
      destruct (two_rows_head x ps q Hq) as [Hxq _].
      exact (Hpair x q a Hxq Hx Hqa).
Qed.

(** With a duplicate-free column, an equality test on it selects the one
    row that holds the value. *)
Lemma filter_unique_row (ps : list profile) (p0 : profile) (a : string) :
  NoDup (column g ps) -> In p0 ps -> g p0 = Some a ->
  filter (fun q => opt_string_eqb (g q) (Some a)) ps = [p0].
Proof.
  induction ps as [|x ps IH]; intros Hnd Hin Ha; [contradiction|].
  rewrite column_cons in Hnd. simpl.
  destruct Hin as [->|Hin].
  - rewrite Ha in *. simpl in *. rewrite String.eqb_refl. f_equal.
    inversion Hnd as [|? ? Hnotin _]; subst.
    clear IH Hnd. induction ps as [|y ps IHps]; [reflexivity|].
    simpl. destruct (opt_string_eqb (g y) (Some a)) eqn:E.
    + exfalso. apply Hnotin. apply opt_string_eqb_eq in E.
      apply in_column. exists y. split; [now left | assumption].
    + apply IHps. intros H. apply Hnotin.
      rewrite column_cons. apply in_or_app. now right.
  - destruct (opt_string_eqb (g x) (Some a)) eqn:E.
    + exfalso. apply opt_string_eqb_eq in E. rewrite E in Hnd.
      simpl in Hnd. inversion Hnd as [|? ? Hnotin _]; subst.
      apply Hnotin. apply in_column. eauto.
    + apply IH; auto. destruct (g x); [now inversion Hnd | assumption].
Qed.

(** No row holds the value: the equality test selects nothing. *)
Lemma filter_absent (ps : list profile) (a : string) :
  ~ In a (column g ps) ->
  filter (fun q => opt_string_eqb (g q) (Some a)) ps = [].
Proof.
  induction ps as [|x ps IH]; intros Hn; [reflexivity|].
  simpl. destruct (opt_string_eqb (g x) (Some a)) eqn:E.
  - exfalso. apply Hn. apply opt_string_eqb_eq in E.
    apply in_column. exists x. split; [now left | assumption].
  - apply IH. intros H. apply Hn. rewrite column_cons.
    apply in_or_app. now right.
Qed.
End Column.

Lemma wallet_uniqueness_NoDup (w : world) :
  wallet_uniqueness w <-> NoDup (wallets (profiles w)).
Proof. symmetry. apply NoDup_column. Qed.

Lemma email_uniqueness_NoDup (w : world) :
  email_uniqueness w <-> NoDup (emails (profiles w)).
Proof.
  unfold emails. rewrite NoDup_column. unfold email_uniqueness. split.
  - intros H p q a Hpq Hp Hq. apply (H p q Hpq). congruence.
  - intros H p q Hpq Heq. apply (H p q (email p) Hpq); congruence.
Qed.

(* ------------------------------------------------------------------------- *)
(** ** The authorization query *)

(** Whatever the table holds, a positive answer comes from a row with the
    lower-cased wallet, the requested role and a verified wallet. *)
Lemma authorized_sound (e : env) (w : world) (a r : string) :
  WalletAuthResponse.isAuthorized (verifyWalletAuthorization e w a r) = true ->
  granted w a r.
Proof.
  unfold verifyWalletAuthorization.
  destruct (negb (truthy a) || negb (truthy r)); [discriminate|].
  destruct (rpcError e); [discriminate|].
  unfold verify_wallet_authorization.
  destruct (filter _ (profiles w)) as [|p rest] eqn:F; [discriminate|].
  cbn. intros H.
  apply andb_true_iff in H as [H Hv]. apply andb_true_iff in H as [Hw Hr].
  exists p. repeat split.
  - assert (Hin : In p (p :: rest)) by now left.
    rewrite <- F in Hin. now apply filter_In in Hin.
  - destruct (wallet_address p) as [b|]; [|discriminate].
    apply String.eqb_eq in Hw. congruence.
  - now apply String.eqb_eq.
  - assumption.
Qed.

Lemma toLowerCase_truthy (a : string) :
  truthy (toLowerCase a) = true -> truthy a = true.
Proof. destruct a; [discriminate | reflexivity]. Qed.

(** On a table whose wallets are canonical and pairwise different, the row
    that holds the wallet is the one the query returns. *)
Lemma authorized_complete (e : env) (w : world) (a r : string) (p : profile) :
  rpcError e = None ->
  all_profiles wallet_canonical w ->
  wallet_uniqueness w ->
  In p (profiles w) ->
  wallet_address p = Some (toLowerCase a) ->
  role_text (role_category p) = r ->
  is_wallet_verified p = true ->
  verifyWalletAuthorization e w a r
  = {| WalletAuthResponse.isAuthorized := true;
       WalletAuthResponse.profileId := Some (id p);
       WalletAuthResponse.fullName := Some (full_name p);
       WalletAuthResponse.roleCategory := Some r;
       WalletAuthResponse.error := None |}.
Proof.
  intros Hrpc Hcan Huniq Hin Hw Hr Hv.
  assert (Hca : canonical (toLowerCase a) = true).
  { unfold all_profiles in Hcan. rewrite Forall_forall in Hcan.
    exact (Hcan p Hin _ Hw). }
  unfold verifyWalletAuthorization.
  rewrite (toLowerCase_truthy a (canonical_truthy _ Hca)).
  rewrite <- Hr, role_text_truthy, Hrpc. cbn [negb orb].
  unfold verify_wallet_authorization.
  rewrite (filter_ext_in _
             (fun q => opt_string_eqb (wallet_address q)
                         (Some (toLowerCase a)))).
  - rewrite (filter_unique_row wallet_address (profiles w) p (toLowerCase a));
      [| now apply wallet_uniqueness_NoDup | assumption | assumption].
    cbn. rewrite Hw, Hv. cbn. now rewrite !String.eqb_refl.
  - intros q Hq. destruct (wallet_address q) as [b|] eqn:Hb; [|reflexivity].
    apply ilike_canonical; [|assumption].
    unfold all_profiles in Hcan. rewrite Forall_forall in Hcan.
    exact (Hcan q Hq _ Hb).
Qed.

(** [C1] On a store that satisfies the data model's invariants (wallets in
    canonical form, no wallet held twice) and answers the query, the
    authorization query returns authorized = true exactly when a profile
    exists whose stored wallet is the lower-cased input, whose role is the
    requested one and whose wallet is verified; in every other case (no
    profile holds the wallet, the role differs, the wallet is unverified) it
    returns authorized = false. *)
Theorem authorization_correct (e : env) (w : world) (a r : string) :
  rpcError e = None ->
  all_profiles wallet_canonical w ->
  wallet_uniqueness w ->
  (WalletAuthResponse.isAuthorized (verifyWalletAuthorization e w a r) = true
   <-> granted w a r)
  /\ (WalletAuthResponse.isAuthorized (verifyWalletAuthorization e w a r)
      = false
      <-> ~ granted w a r).
Proof.
  intros Hrpc Hcan Huniq.
  assert (Hiff : WalletAuthResponse.isAuthorized
                   (verifyWalletAuthorization e w a r) = true
                 <-> granted w a r).
  { split.
    - apply authorized_sound.
    - intros (p & Hin & Hw & Hr & Hv).
      now rewrite (authorized_complete e w a r p). }
  split; [exact Hiff|].
  rewrite <- Hiff.
  destruct (WalletAuthResponse.isAuthorized _); split; congruence.
Qed.

(* ------------------------------------------------------------------------- *)
(** ** What the statements of the store do *)

Lemma insert_profile_inr (e : env) (ps ps' : list profile) (row : profile) :
  insert_profile e ps row = inr ps' ->
  ps' = ps ++ [row]
  /\ profileError e = None
  /\ has_id ps (id row) = false
  /\ distinct (wallets ps') = true.
Proof.
  unfold insert_profile. intros H.
  destruct (profileError e); [discriminate|].
  destruct (has_id ps (id row)); [discriminate|].
  destruct (distinct (wallets (ps ++ [row]))) eqn:D; [|discriminate].
  injection H as <-. auto.
Qed.

Lemma insert_audit_profiles (e : env) (w : world) (row : audit_entry) :
  profiles (snd (insert_audit e w row)) = profiles w.
Proof.
  unfold insert_audit.
  destruct (auditError e); [reflexivity|].
  destruct (audit_row_ok (profiles w) row); reflexivity.
Qed.

Lemma insert_audit_auth (e : env) (w : world) (row : audit_entry) :
  auth_users (snd (insert_audit e w row)) = auth_users w
  /\ auth_calls (snd (insert_audit e w row)) = auth_calls w.
Proof.
  unfold insert_audit.
  destruct (auditError e); [auto|].
  destruct (audit_row_ok (profiles w) row); auto.
Qed.

Lemma insert_audit_log (e : env) (w : world) (row : audit_entry) :
  wallet_audit_log (snd (insert_audit e w row))
  = if match auditError e with Some _ => false | None => true end
       && audit_row_ok (profiles w) row
    then wallet_audit_log w ++ [row]
    else wallet_audit_log w.
Proof.
  unfold insert_audit.
  destruct (auditError e); [reflexivity|].
  destruct (audit_row_ok (profiles w) row); reflexivity.
Qed.

(** The effect of an update statement that went through. *)
Lemma update_profiles_inr (e : env) (w w' : world)
  (sel : profile -> bool) (set : profile -> profile) :
  update_profiles e w sel set = inr w' ->
  updateError e = None
  /\ profiles w' = map (fun p => if sel p then set p else p) (profiles w)
  /\ distinct (wallets (profiles w')) = true
  /\ wallet_audit_log w'
     = wallet_audit_log w
       ++ flat_map (fun p => if sel p
                             then log_wallet_change (currentAuthUser e)
                                    (db_now e) p (set p)
                             else []) (profiles w)
  /\ auth_users w' = auth_users w
  /\ auth_calls w' = auth_calls w.
Proof.
  unfold update_profiles. intros H.
  destruct (updateError e); [discriminate|].
  destruct (distinct (wallets (map _ (profiles w)))) eqn:D;
    [|discriminate].
  destruct (forallb _ _); [|discriminate].
  injection H as <-. cbn. auto 10.
Qed.

Lemma Forall_update (P : profile -> Prop)
  (sel : profile -> bool) (set : profile -> profile) (ps : list profile) :
  (forall p, P p -> P (set p)) ->
  Forall P ps -> Forall P (map (fun p => if sel p then set p else p) ps).
Proof.
  intros Hset H. induction H as [|x ps Hx _ IH]; simpl; constructor; auto.
  destruct (sel x); auto.
Qed.

Lemma column_update (g : profile -> option string)
  (sel : profile -> bool) (set : profile -> profile) (ps : list profile) :
  (forall p, g (set p) = g p) ->
  column g (map (fun p => if sel p then set p else p) ps) = column g ps.
Proof.
  intros Hset. induction ps as [|x ps IH]; [reflexivity|].
  simpl map. rewrite !column_cons, IH.
  destruct (sel x); [now rewrite Hset | reflexivity].
Qed.

(* ------------------------------------------------------------------------- *)
(** ** What the service functions do to the table of profiles *)

Lemma validate_admin_access_inr (e : env) (w : world) (msg uid : string) :
  validate_admin_access e w msg = inr uid ->
  currentAuthUser e = Some uid
  /\ truthy uid = true
  /\ exists p, maybeSingle
                 (filter (fun p => String.eqb (user_id p) uid) (profiles w))
               = Some p
               /\ (role_category p = admin \/ role_category p = judiciary).
Proof.
  unfold validate_admin_access. intros H.
  destruct (currentAuthUser e) as [u|]; [|discriminate].
  destruct (truthy u) eqn:T; [|discriminate]. cbn [negb] in H.
  destruct (maybeSingle _) as [p|] eqn:M; [|discriminate].
  cbn [may_administer] in H.
  destruct (role_category p) eqn:R; try discriminate;
    injection H as <-; repeat split; eauto.
Qed.

(** Registration leaves the table alone or appends the registered row;
    it reports success in the second case only. *)
Lemma register_profiles (e : env) (w : world) (r : UserRegistration.t) :
  let out := adminRegisterUserWithWallet e w r in
  (profiles (fst out) = profiles w /\ success (snd out) = false)
  \/ (profiles (fst out) = profiles w ++ [registered_profile e r]
      /\ success (snd out) = true
      /\ distinct (wallets (profiles (fst out))) = true
      /\ maybeSingle
           (filter (fun p => String.eqb (email p) (UserRegistration.email r))
              (profiles w)) = None).
Proof.
  unfold adminRegisterUserWithWallet.
  destruct (validate_admin_access _ _ _) as [res|uid] eqn:V.
  - left. unfold validate_admin_access in V.
    destruct (currentAuthUser e); [|injection V as <-; auto].
    destruct (negb (truthy s)); [injection V as <-; auto|].
    destruct (may_administer _); [discriminate | injection V as <-; auto].
  - destruct (registration_conflict w r) as [res|] eqn:C.
    { left. unfold registration_conflict in C.
      destruct (maybeSingle (filter (wallet_is _) _));
        [injection C as <-; auto|].
      destruct (maybeSingle (filter _ _)); [injection C as <-; auto|].
      discriminate. }
    assert (M : maybeSingle
                  (filter (fun p => String.eqb (email p)
                                      (UserRegistration.email r))
                     (profiles w)) = None).
    { unfold registration_conflict in C.
      destruct (maybeSingle (filter (wallet_is _) _)); [discriminate|].
      destruct (maybeSingle (filter _ _)); [discriminate | reflexivity]. }
    unfold auth_createUser.
    destruct (authError e); [left; auto|].
    cbn [profiles set_auth].
    destruct (insert_profile _ _ _) as [m|ps'] eqn:I.
    + left. unfold auth_deleteUser.
      destruct (deleteUserError e); auto.
    + right. apply insert_profile_inr in I as (-> & _ & _ & D).
      cbn [fst snd]. rewrite insert_audit_profiles. cbn. auto.
Qed.

(** A wallet update leaves the table alone or rewrites the rows with the
    requested id by [rebind]; it reports success in the second case only. *)
Lemma update_wallet_profiles (e : env) (w : world)
  (r : WalletUpdateRequest.t) :
  let out := adminUpdateUserWallet e w r in
  (profiles (fst out) = profiles w /\ success (snd out) = false)
  \/ (profiles (fst out)
      = map (fun p =>
               if String.eqb (id p) (WalletUpdateRequest.profileId r)
               then rebind
                      (toLowerCase (WalletUpdateRequest.newWalletAddress r))
                      (now e) p
               else p) (profiles w)
      /\ success (snd out) = true
      /\ distinct (wallets (profiles (fst out))) = true).
Proof.
  unfold adminUpdateUserWallet.
  destruct (validate_admin_access _ _ _) as [res|uid] eqn:V.
  - left. unfold validate_admin_access in V.
    destruct (currentAuthUser e); [|injection V as <-; auto].
    destruct (negb (truthy s)); [injection V as <-; auto|].
    destruct (may_administer _); [discriminate | injection V as <-; auto].
  - destruct (maybeSingle (filter _ _)) as [prof|]; [|left; auto].
    destruct (maybeSingle (filter _ _)); [left; auto|].
    destruct (update_profiles _ _ _ _) as [m|w1] eqn:U; [left; auto|].
    right. apply update_profiles_inr in U as (_ & Hp & D & _).
    cbn [fst snd]. rewrite insert_audit_profiles. rewrite <- Hp. auto.
Qed.

(** A verification toggle leaves the table alone or rewrites the rows with
    the given id by [set_verification]. *)
Lemma verify_wallet_profiles (e : env) (w : world) (i : string) (v : bool) :
  let out := adminVerifyWallet e w i v in
  (profiles (fst out) = profiles w /\ success (snd out) = false)
  \/ (profiles (fst out)
      = map (fun p => if String.eqb (id p) i
                      then set_verification v (now e) p else p) (profiles w)
      /\ success (snd out) = true
      /\ distinct (wallets (profiles (fst out))) = true).
Proof.
  unfold adminVerifyWallet.
  destruct (update_profiles _ _ _ _) as [m|w1] eqn:U; [left; auto|].
  right. apply update_profiles_inr in U as (_ & Hp & D & _).
  cbn [fst snd]. auto.
Qed.

(* ------------------------------------------------------------------------- *)
(** ** Uniqueness of wallets and emails *)

(** The email pre-check of the registration, on a table without duplicate
    emails: it passes only for an email no row holds. *)
Lemma email_check_fresh (ps : list profile) (x : string) :
  NoDup (emails ps) ->
  maybeSingle (filter (fun p => String.eqb (email p) x) ps) = None ->
  ~ In x (emails ps).
Proof.
  intros Hnd Hcheck Hin.
  apply in_column in Hin as (q & Hq & Hqx).
  pose proof (filter_unique_row (fun p => Some (email p)) ps q x Hnd Hq Hqx)
    as Hf.
  cbn [opt_string_eqb] in Hf. rewrite Hf in Hcheck. discriminate.
Qed.

Lemma perform_wallet_uniqueness (e : env) (w : world) (o : op) :
  wallet_uniqueness w -> wallet_uniqueness (fst (perform e w o)).
Proof.
  intros H. rewrite wallet_uniqueness_NoDup in *.
  destruct o as [r|r|i v]; cbn [perform].
  - destruct (register_profiles e w r) as [[-> _]|(_ & _ & D & _)];
      [assumption | now apply distinct_NoDup].
  - destruct (update_wallet_profiles e w r) as [[-> _]|(_ & _ & D)];
      [assumption | now apply distinct_NoDup].
  - destruct (verify_wallet_profiles e w i v) as [[-> _]|(_ & _ & D)];
      [assumption | now apply distinct_NoDup].
Qed.

Lemma perform_email_uniqueness (e : env) (w : world) (o : op) :
  email_uniqueness w -> email_uniqueness (fst (perform e w o)).
Proof.
  intros H. rewrite email_uniqueness_NoDup in *.
  destruct o as [r|r|i v]; cbn [perform].
  - destruct (register_profiles e w r) as [[-> _]|(-> & _ & _ & Hcheck)];
      [assumption|].
    unfold emails. rewrite column_app. apply NoDup_app.
    + exact H.
    + cbn. constructor; [intros [] | constructor].
    + intros a Ha [<-|[]]. revert Ha. now apply email_check_fresh.
  - destruct (update_wallet_profiles e w r) as [[-> _]|(-> & _)];
      [assumption|].
    unfold emails. now rewrite column_update.
  - destruct (verify_wallet_profiles e w i v) as [[-> _]|(-> & _)];
      [assumption|].
    unfold emails. now rewrite column_update.
Qed.

(** [C2] Along every run of register and updateWallet calls (and
    verification toggles) that starts in a state without duplicate wallets and
    emails, no state has two different profiles with the same non-null
    wallet address, and none has two different profiles with the same
    email. *)
Theorem uniqueness_at_every_point (w0 w : world) :
  wallet_uniqueness w0 -> email_uniqueness w0 ->
  reachable w0 w ->
  wallet_uniqueness w /\ email_uniqueness w.
Proof.
  intros Hw He Hreach.
  induction Hreach as [|w e o _ [IHw IHe]].
  - split; assumption.
  - split.
    + now apply perform_wallet_uniqueness.
    + now apply perform_email_uniqueness.
Qed.

(* ------------------------------------------------------------------------- *)
(** ** Verification flag and verification time *)

Lemma registered_profile_consistent (e : env) (r : UserRegistration.t) :
  verification_consistent (registered_profile e r).
Proof. split; [discriminate | reflexivity]. Qed.

Lemma rebind_consistent (a t : string) (p : profile) :
  verification_consistent (rebind a t p).
Proof. split; [discriminate | reflexivity]. Qed.

Lemma set_verification_consistent (v : bool) (t : string) (p : profile) :
  verification_consistent (set_verification v t p).
Proof.
  unfold verification_consistent. destruct v; cbn.
  - split; [discriminate | reflexivity].
  - split; [discriminate | congruence].
Qed.

Lemma perform_verification_consistent (e : env) (w : world) (o : op) :
  all_profiles verification_consistent w ->
  all_profiles verification_consistent (fst (perform e w o)).
Proof.
  unfold all_profiles. intros H.
  destruct o as [r|r|i v]; cbn [perform].
  - destruct (register_profiles e w r) as [[-> _]|(-> & _)]; [assumption|].
    apply Forall_app. split; [assumption|].
    constructor; [apply registered_profile_consistent | constructor].
  - destruct (update_wallet_profiles e w r) as [[-> _]|(-> & _)];
      [assumption|].
    apply Forall_update; [|assumption].
    intros p _. apply rebind_consistent.
  - destruct (verify_wallet_profiles e w i v) as [[-> _]|(-> & _)];
      [assumption|].
    apply Forall_update; [|assumption].
    intros p _. apply set_verification_consistent.
Qed.

(** [C6] In every state reachable by register, updateWallet and setVerified
    from a state in which every profile has isWalletVerified true exactly
    when walletVerifiedAt is non-null, every profile still has that
    property: each of the three operations preserves the equivalence. *)
Theorem verification_invariant (w0 w : world) :
  all_profiles verification_consistent w0 ->
  reachable w0 w ->
  forall p, In p (profiles w) ->
    (is_wallet_verified p = true <-> wallet_verified_at p <> None).
Proof.
  intros H0 Hreach.
  assert (Hall : all_profiles verification_consistent w).
  { induction Hreach as [|w e o _ IH]; [assumption|].
    now apply perform_verification_consistent. }
  intros p Hp. unfold all_profiles in Hall. rewrite Forall_forall in Hall.
  exact (Hall p Hp).
Qed.

(* ------------------------------------------------------------------------- *)
(** ** The format test at the boundary *)

(** A handler either shows an error and leaves the world alone, or hands a
    well-formed address to the service. *)
Lemma handleRegisterUser_cases (e : env) (w : world) (f : registerForm.t) :
  (exists msg, handleRegisterUser e w f = (w, toast_error msg))
  \/ (wallet_format_ok (registerForm.walletAddress f) = true
      /\ fst (handleRegisterUser e w f)
         = fst (adminRegisterUserWithWallet e w (submitted_registration f))
      /\ (snd (handleRegisterUser e w f) = toast_success
          <-> success (snd (adminRegisterUserWithWallet e w
                              (submitted_registration f))) = true)).
Proof.
  unfold handleRegisterUser.
  destruct (negb (truthy (registerForm.email f))
            || negb (truthy (registerForm.fullName f))
            || negb (truthy (registerForm.walletAddress f)));
    [left; eexists; reflexivity|].
  destruct (wallet_format_ok (registerForm.walletAddress f));
    [|left; eexists; reflexivity].
  right. cbn [negb].
  destruct (adminRegisterUserWithWallet e w _) as [w' r].
  cbn [fst snd]. destruct (success r); cbn [fst snd];
    repeat split; congruence.
Qed.

Lemma handleUpdateWallet_cases (e : env) (w : world) (f : updateForm.t) :
  (exists msg, handleUpdateWallet e w f = (w, toast_error msg))
  \/ (wallet_format_ok (updateForm.newWalletAddress f) = true
      /\ fst (handleUpdateWallet e w f)
         = fst (adminUpdateUserWallet e w (submitted_update f))
      /\ (snd (handleUpdateWallet e w f) = toast_success
          <-> success (snd (adminUpdateUserWallet e w (submitted_update f)))
              = true)).
Proof.
  unfold handleUpdateWallet.
  destruct (negb (truthy (updateForm.profileId f))
            || negb (truthy (updateForm.newWalletAddress f)));
    [left; eexists; reflexivity|].
  destruct (wallet_format_ok (updateForm.newWalletAddress f));
    [|left; eexists; reflexivity].
  right. cbn [negb].
  destruct (adminUpdateUserWallet e w _) as [w' r].
  cbn [fst snd]. destruct (success r); cbn [fst snd];
    repeat split; congruence.
Qed.

Lemma handleToggleVerification_fst (e : env) (w : world) (d : verifyDialog.t) :
  fst (handleToggleVerification e w d)
  = fst (adminVerifyWallet e w (verifyDialog.userId d)
           (negb (verifyDialog.currentStatus d))).
Proof.
  unfold handleToggleVerification.
  destruct (adminVerifyWallet e w _ _) as [w' r].
  destruct (success r); reflexivity.
Qed.

(** A malformed address never reaches the service: the handler shows an
    error and the world, the call log of the identity provider included, is
    the one it started in. *)
Lemma handleRegisterUser_rejects (e : env) (w : world) (f : registerForm.t) :
  wallet_format_ok (registerForm.walletAddress f) = false ->
  exists msg, handleRegisterUser e w f = (w, toast_error msg).
Proof.
  intros H. destruct (handleRegisterUser_cases e w f) as [Hr|[Hok _]];
    [assumption | congruence].
Qed.

Lemma handleUpdateWallet_rejects (e : env) (w : world) (f : updateForm.t) :
  wallet_format_ok (updateForm.newWalletAddress f) = false ->
  exists msg, handleUpdateWallet e w f = (w, toast_error msg).
Proof.
  intros H. destruct (handleUpdateWallet_cases e w f) as [Hr|[Hok _]];
    [assumption | congruence].
Qed.

Lemma handle_wallet_canonical (e : env) (w : world) (c : click) :
  all_profiles wallet_canonical w ->
  all_profiles wallet_canonical (fst (handle e w c)).
Proof.
  unfold all_profiles. intros H.
  destruct c as [f|f|d]; cbn [handle].
  - destruct (handleRegisterUser_cases e w f) as [[msg ->]|(Hok & -> & _)];
      [assumption|].
    destruct (register_profiles e w (submitted_registration f))
      as [[-> _]|(-> & _)]; [assumption|].
    apply Forall_app. split; [assumption|].
    constructor; [|constructor].
    intros a Ha. cbn in Ha. injection Ha as <-.
    now apply format_ok_lower_canonical.
  - destruct (handleUpdateWallet_cases e w f) as [[msg ->]|(Hok & -> & _)];
      [assumption|].
    destruct (update_wallet_profiles e w (submitted_update f))
      as [[-> _]|(-> & _)]; [assumption|].
    apply Forall_update; [|assumption].
    intros p _ a Ha. cbn in Ha. injection Ha as <-.
    now apply format_ok_lower_canonical.
  - rewrite handleToggleVerification_fst.
    destruct (verify_wallet_profiles e w (verifyDialog.userId d)
                (negb (verifyDialog.currentStatus d)))
      as [[-> _]|(-> & _)]; [assumption|].
    apply Forall_update; [|assumption].
    intros p Hp a Ha. apply (Hp a Ha).
Qed.

(** [C7] In every state the console reaches from a state whose wallets are
    canonical, a non-null walletAddress is 0x followed by 40 lower-case
    hexadecimal digits; the register and updateWallet handlers test the
    format first and, for a malformed address, show an error and leave the
    world as it was, so that no mutation stores a non-canonical address. *)
Theorem canonical_wallets_at_the_boundary (w0 w : world) :
  all_profiles wallet_canonical w0 ->
  console_reachable w0 w ->
  (forall p a, In p (profiles w) -> wallet_address p = Some a ->
               canonical a = true)
  /\ (forall e f, wallet_format_ok (registerForm.walletAddress f) = false ->
        exists msg, handleRegisterUser e w f = (w, toast_error msg))
  /\ (forall e f, wallet_format_ok (updateForm.newWalletAddress f) = false ->
        exists msg, handleUpdateWallet e w f = (w, toast_error msg)).
Proof.
  intros H0 Hreach. split; [|split].
  - assert (Hall : all_profiles wallet_canonical w).
    { induction Hreach as [|w e c _ IH]; [assumption|].
      now apply handle_wallet_canonical. }
    intros p a Hp. unfold all_profiles in Hall.
    rewrite Forall_forall in Hall. exact (Hall p Hp a).
  - intros e f. apply handleRegisterUser_rejects.
  - intros e f. apply handleUpdateWallet_rejects.
Qed.

(* ------------------------------------------------------------------------- *)
(** ** Normalization *)

Lemma normalize_Some (a b : string) :
  normalize a = Some b ->
  wallet_format_ok a = true /\ b = toLowerCase a /\ canonical b = true.
Proof.
  unfold normalize. destruct (wallet_format_ok a) eqn:F; [|discriminate].
  intros H. injection H as <-. auto using format_ok_lower_canonical.
Qed.

Lemma normalize_canonical (b : string) :
  canonical b = true -> normalize b = Some b.
Proof.
  intros H. unfold normalize.
  now rewrite (canonical_format_ok _ H), (canonical_lower_fixed _ H).
Qed.

(** The address a successful registration stores is [normalize] of the
    address typed into the form. *)
Lemma handleRegisterUser_stores_normalized
  (e : env) (w : world) (f : registerForm.t) :
  snd (handleRegisterUser e w f) = toast_success ->
  exists p, In p (profiles (fst (handleRegisterUser e w f)))
            /\ id p = new_profile_id e
            /\ wallet_address p = normalize (registerForm.walletAddress f).
Proof.
  intros Hs.
  destruct (handleRegisterUser_cases e w f) as [[msg Hr]|(Hok & -> & Hiff)].
  - rewrite Hr in Hs. discriminate.
  - apply Hiff in Hs.
    destruct (register_profiles e w (submitted_registration f))
      as [[_ Hf]|(-> & _)]; [congruence|].
    exists (registered_profile e (submitted_registration f)).
    split; [apply in_or_app; right; now left|].
    split; [reflexivity|].
    unfold normalize. now rewrite Hok.
Qed.

(** After a successful wallet update every row with the requested id holds
    [normalize] of the address typed into the form. *)
Lemma handleUpdateWallet_stores_normalized
  (e : env) (w : world) (f : updateForm.t) :
  snd (handleUpdateWallet e w f) = toast_success ->
  forall p, In p (profiles (fst (handleUpdateWallet e w f))) ->
            id p = updateForm.profileId f ->
            wallet_address p = normalize (updateForm.newWalletAddress f).
Proof.
  intros Hs p Hp Hid.
  destruct (handleUpdateWallet_cases e w f) as [[msg Hr]|(Hok & Hfst & Hiff)].
  - rewrite Hr in Hs. discriminate.
  - apply Hiff in Hs. rewrite Hfst in Hp.
    destruct (update_wallet_profiles e w (submitted_update f))
      as [[_ Hf]|(Hmap & _)]; [congruence|].
    rewrite Hmap in Hp. apply in_map_iff in Hp as (q & <- & _).
    unfold normalize. rewrite Hok.
    destruct (String.eqb (id q) _) eqn:E.
    + reflexivity.
    + exfalso. apply String.eqb_neq in E. apply E. exact Hid.
Qed.

(** [C9] Wallet normalization is idempotent: normalizing a normalized
    address gives it back, for the lower-casing alone and for the whole
    normalization with its format test; its output has no upper-case letter;
    and it rejects every string that is not 0x followed by 40 hexadecimal
    digits, in [normalize] and in both console handlers, which then leave the
    world as it was. *)
Theorem normalize_idempotent_lowercase_strict (a : string) :
  toLowerCase (toLowerCase a) = toLowerCase a
  /\ match normalize a with
     | Some b => normalize b
     | None => None
     end = normalize a
  /\ forall_chars (fun c => negb (is_upper c)) (toLowerCase a) = true
  /\ (forall b, normalize a = Some b ->
        b = toLowerCase a /\ canonical b = true)
  /\ (wallet_format_ok a = false ->
        normalize a = None
        /\ (forall e w f, registerForm.walletAddress f = a ->
              exists msg, handleRegisterUser e w f = (w, toast_error msg))
        /\ (forall e w f, updateForm.newWalletAddress f = a ->
              exists msg, handleUpdateWallet e w f = (w, toast_error msg))).
Proof.
  split; [apply toLowerCase_idem|].
  split.
  { destruct (normalize a) as [b|] eqn:N; [|reflexivity].
    apply normalize_Some in N as (_ & _ & Hc).
    now apply normalize_canonical. }
  split; [apply toLowerCase_no_upper|].
  split.
  { intros b N. now apply normalize_Some in N as (_ & ? & ?). }
  intros Hbad. split; [|split].
  - unfold normalize. now rewrite Hbad.
  - intros e w f <-. now apply handleRegisterUser_rejects.
  - intros e w f <-. now apply handleUpdateWallet_rejects.
Qed.

(* ------------------------------------------------------------------------- *)
(** ** Registration: compensation and the audit entry *)

(** [C5] When the identity has been created and the insertion of the profile
    fails, the registration calls the identity provider a second time to
    delete that identity, returns a failure, and leaves the table of profiles
    as it was: no row refers to the identity (which, being new, no row
    referred to before); unless the deletion itself fails, the identity is
    gone from the identity provider as well. *)
Theorem registration_compensates
  (e : env) (w : world) (r : UserRegistration.t) (uid m : string) :
  validate_admin_access e w "Unauthorized: Only admins can register users"
  = inr uid ->
  registration_conflict w r = None ->
  authError e = None ->
  insert_profile e (profiles w) (registered_profile e r) = inl m ->
  (forall p, In p (profiles w) -> user_id p <> new_user_id e) ->
  auth_calls (fst (adminRegisterUserWithWallet e w r))
  = auth_calls w
    ++ [createUser (UserRegistration.email r); deleteUser (new_user_id e)]
  /\ snd (adminRegisterUserWithWallet e w r)
     = failure (String.append "Failed to create profile: " m)
  /\ profiles (fst (adminRegisterUserWithWallet e w r)) = profiles w
  /\ (forall p, In p (profiles (fst (adminRegisterUserWithWallet e w r))) ->
        user_id p <> new_user_id e)
  /\ (deleteUserError e = None ->
      forall u, In u (auth_users (fst (adminRegisterUserWithWallet e w r))) ->
        auth_id u <> new_user_id e).
Proof.
  intros Hadmin Hfree Hauth Hins Hnew.
  unfold adminRegisterUserWithWallet.
  rewrite Hadmin, Hfree, Hauth.
  unfold auth_createUser. rewrite Hauth. cbn [profiles set_auth].
  rewrite Hins. cbn [fst snd].
  unfold auth_deleteUser.
  destruct (deleteUserError e) as [d|] eqn:D; cbn.
  - repeat split; auto.
    + now rewrite <- app_assoc.
    + discriminate.
  - repeat split; auto.
    + now rewrite <- app_assoc.
    + intros _ u Hu. apply filter_In in Hu as [_ Hne].
      apply negb_true_iff in Hne. now apply String.eqb_neq.
Qed.

(** The result of a registration, and what it does to the profiles, are the
    same whatever happens to the insertion of the audit entry. *)
Lemma register_result_ignores_audit
  (e : env) (w : world) (r : UserRegistration.t) (m : option string) :
  snd (adminRegisterUserWithWallet (with_auditError e m) w r)
  = snd (adminRegisterUserWithWallet e w r)
  /\ profiles (fst (adminRegisterUserWithWallet (with_auditError e m) w r))
     = profiles (fst (adminRegisterUserWithWallet e w r)).
Proof.
  unfold adminRegisterUserWithWallet.
  change (validate_admin_access (with_auditError e m) w)
    with (validate_admin_access e w).
  destruct (validate_admin_access e w _) as [res|uid]; [auto|].
  destruct (registration_conflict w r); [auto|].
  change (authError (with_auditError e m)) with (authError e).
  change (auth_createUser (with_auditError e m) w)
    with (auth_createUser e w).
  destruct (authError e); [auto|].
  change (registered_profile (with_auditError e m) r)
    with (registered_profile e r).
  change (insert_profile (with_auditError e m))
    with (insert_profile e).
  destruct (insert_profile e _ _) as [msg|ps'].
  - split; [reflexivity|].
    unfold auth_deleteUser.
    change (deleteUserError (with_auditError e m)) with (deleteUserError e).
    destruct (deleteUserError e); reflexivity.
  - cbn [fst snd]. now rewrite !insert_audit_profiles.
Qed.

(** A registration appends to the audit log by its own insert only, and
    that insert names the session's user as [changed_by]. *)
Lemma register_audit_log (e : env) (w : world) (r : UserRegistration.t) :
  wallet_audit_log (fst (adminRegisterUserWithWallet e w r))
  = wallet_audit_log w
  \/ (auditError e = None
      /\ success (snd (adminRegisterUserWithWallet e w r)) = true
      /\ wallet_audit_log (fst (adminRegisterUserWithWallet e w r))
         = wallet_audit_log w
           ++ [ {| profile_id := new_profile_id e;
                   action := wallet_added;
                   old_value := None;
                   new_value :=
                     Some (toLowerCase (UserRegistration.walletAddress r));
                   changed_by := currentAuthUser e;
                   changed_at := db_now e |} ]).
Proof.
  unfold adminRegisterUserWithWallet.
  destruct (validate_admin_access e w _) as [res|uid] eqn:V; [auto|].
  apply validate_admin_access_inr in V as (Hsession & _).
  destruct (registration_conflict w r); [auto|].
  unfold auth_createUser.
  destruct (authError e); [auto|].
  cbn [profiles set_auth].
  destruct (insert_profile e _ _) as [msg|ps'].
  - left. unfold auth_deleteUser. destruct (deleteUserError e); reflexivity.
  - cbn [fst snd]. rewrite insert_audit_log.
    destruct (auditError e); [auto|]. cbn [andb].
    destruct (audit_row_ok _ _); [|auto].
    right. rewrite Hsession. cbn. auto.
Qed.

(** [C10] The registration never looks at the result of the insert into the
    audit log.  For a caller who passes the admin check, a wallet and an
    email that are free, an identity provider that creates the identity and
    a store that inserts the profile, the registration reports success with
    the new profile's id and has stored the profile, whatever happens to the
    insert of the wallet_added entry; when that insert fails, the audit log
    is exactly what it was before. *)
Theorem register_succeeds_without_audit_entry
  (e : env) (w : world) (r : UserRegistration.t) (uid m : string)
  (ps' : list profile) :
  validate_admin_access e w "Unauthorized: Only admins can register users"
  = inr uid ->
  registration_conflict w r = None ->
  authError e = None ->
  insert_profile e (profiles w) (registered_profile e r) = inr ps' ->
  (forall outcome,
      snd (adminRegisterUserWithWallet (with_auditError e outcome) w r)
      = succeeded (Some (new_profile_id e))
      /\ profiles
           (fst (adminRegisterUserWithWallet (with_auditError e outcome) w r))
         = profiles w ++ [registered_profile e r])
  /\ wallet_audit_log
       (fst (adminRegisterUserWithWallet (with_auditError e (Some m)) w r))
     = wallet_audit_log w.
Proof.
  intros Hadmin Hfree Hauth Hins.
  assert (Hrun : forall outcome,
             adminRegisterUserWithWallet (with_auditError e outcome) w r
             = (snd (insert_audit (with_auditError e outcome)
                       (set_profiles
                          (auth_createUser e w (UserRegistration.email r))
                          ps')
                       {| profile_id := new_profile_id e;
                          action := wallet_added;
                          old_value := None;
                          new_value :=
                            Some (toLowerCase
                                    (UserRegistration.walletAddress r));
                          changed_by := Some uid;
                          changed_at := db_now e |}),
                succeeded (Some (new_profile_id e)))).
  { intros outcome. unfold adminRegisterUserWithWallet.
    change (validate_admin_access (with_auditError e outcome) w)
      with (validate_admin_access e w).
    rewrite Hadmin, Hfree.
    change (authError (with_auditError e outcome)) with (authError e).
    change (auth_createUser (with_auditError e outcome) w)
      with (auth_createUser e w).
    rewrite Hauth.
    change (registered_profile (with_auditError e outcome) r)
      with (registered_profile e r).
    change (insert_profile (with_auditError e outcome))
      with (insert_profile e).
    replace (profiles (auth_createUser e w (UserRegistration.email r)))
      with (profiles w)
      by (unfold auth_createUser; now rewrite Hauth).
    rewrite Hins. reflexivity. }
  apply insert_profile_inr in Hins as (-> & _).
  split.
  - intros outcome. rewrite Hrun. cbn [fst snd].
    rewrite insert_audit_profiles. split; reflexivity.
  - rewrite (Hrun (Some m)). cbn [fst snd].
    rewrite insert_audit_log. cbn.
    unfold auth_createUser. now rewrite Hauth.
Qed.

(* ------------------------------------------------------------------------- *)
(** ** The audit log *)

(** The trigger writes nothing for a row whose wallet and verification flag
    are what they were. *)
Lemma log_wallet_change_unchanged (uid : option string) (t : string)
  (OLD NEW : profile) :
  wallet_address NEW = wallet_address OLD ->
  is_wallet_verified NEW = is_wallet_verified OLD ->
  log_wallet_change uid t OLD NEW = [].
Proof.
  intros Hw Hv. unfold log_wallet_change. rewrite Hw, Hv.
  rewrite (proj2 (opt_string_eqb_eq _ _) eq_refl), Bool.eqb_reflx.
  reflexivity.
Qed.

(** Setting the verification flag to the value every addressed row already
    has appends nothing to the audit log. *)
Lemma noop_toggle_logs_nothing (e : env) (w : world) (i : string) (v : bool) :
  (forall p, In p (profiles w) -> id p = i -> is_wallet_verified p = v) ->
  wallet_audit_log (fst (adminVerifyWallet e w i v)) = wallet_audit_log w.
Proof.
  intros Hsame. unfold adminVerifyWallet.
  destruct (update_profiles _ _ _ _) as [m|w1] eqn:U; [reflexivity|].
  apply update_profiles_inr in U as (_ & _ & _ & Hlog & _).
  cbn [fst]. rewrite Hlog.
  rewrite <- (app_nil_r (wallet_audit_log w)) at 2. f_equal.
  clear Hlog. revert Hsame. generalize (profiles w) as ps.
  induction ps as [|x ps IH]; intros Hsame; [reflexivity|].
  cbn [flat_map]. rewrite IH by (intros p Hp; apply Hsame; now right).
  rewrite app_nil_r.
  destruct (String.eqb (id x) i) eqn:E; [|reflexivity].
  apply String.eqb_eq in E.
  apply log_wallet_change_unchanged; [reflexivity|].
  cbn. symmetry. apply Hsame; [now left | assumption].
Qed.

(** [C3] The accepted rebinding of the advocate's wallet by the registrar is
    one wallet_changed transition, and the audit log receives two
    wallet_changed entries for it, with the same old and new value: one
    from the trigger inside the update statement, one from the insert the
    service issues after it. *)
Theorem wallet_change_is_logged_twice :
  success (snd (adminUpdateUserWallet (session (Some "admin-1")) court
                  new_wallet_for_advocate)) = true
  /\ entries_of wallet_changed "p-adv"
       (wallet_audit_log
          (fst (adminUpdateUserWallet (session (Some "admin-1")) court
                  new_wallet_for_advocate)))
     = [ {| profile_id := "p-adv";
            action := wallet_changed;
            old_value := Some "0xabcdef0123456789abcdef0123456789abcdef01";
            new_value := Some "0x2222222222222222222222222222222222222222";
            changed_by := Some "admin-1";
            changed_at := "2024-02-01 10:00:00+00" |};
         {| profile_id := "p-adv";
            action := wallet_changed;
            old_value := Some "0xabcdef0123456789abcdef0123456789abcdef01";
            new_value := Some "0x2222222222222222222222222222222222222222";
            changed_by := Some "admin-1";
            changed_at := "2024-02-01 10:00:00+00" |} ].
Proof. split; vm_compute; reflexivity. Qed.

Lemma update_unselected (sel : profile -> bool) (set : profile -> profile)
  (ps : list profile) :
  (forall p, In p ps -> sel p = false) ->
  map (fun p => if sel p then set p else p) ps = ps.
Proof.
  intros H. induction ps as [|x ps IH]; [reflexivity|].
  cbn [map]. rewrite (H x) by now left.
  f_equal. apply IH. intros p Hp. apply H. now right.
Qed.

Lemma flat_map_unselected {B : Type} (sel : profile -> bool)
  (f : profile -> list B) (ps : list profile) :
  (forall p, In p ps -> sel p = false) ->
  flat_map (fun p => if sel p then f p else []) ps = [].
Proof.
  intros H. induction ps as [|x ps IH]; [reflexivity|].
  cbn [flat_map]. rewrite (H x) by now left.
  apply IH. intros p Hp. apply H. now right.
Qed.

Lemma has_id_false (ps : list profile) (i : string) :
  has_id ps i = false -> forall p, In p ps -> String.eqb (id p) i = false.
Proof.
  unfold has_id. intros H p Hp.
  destruct (String.eqb (id p) i) eqn:E; [|reflexivity].
  rewrite <- H. symmetry. apply existsb_exists. eauto.
Qed.

Lemma has_id_In (ps : list profile) (p : profile) :
  In p ps -> has_id ps (id p) = true.
Proof.
  intros Hp. unfold has_id. apply existsb_exists.
  exists p. split; [assumption | apply String.eqb_refl].
Qed.

Lemma has_id_update (sel : profile -> bool) (set : profile -> profile)
  (ps : list profile) (i : string) :
  (forall p, id (set p) = id p) ->
  has_id (map (fun p => if sel p then set p else p) ps) i = has_id ps i.
Proof.
  intros Hset. unfold has_id. induction ps as [|x ps IH]; [reflexivity|].
  cbn [map existsb]. rewrite IH.
  destruct (sel x); [now rewrite Hset | reflexivity].
Qed.

(** For an id that no profile has, [adminVerifyWallet] reports success and
    changes nothing. *)
Lemma verify_unknown_id_reports_success
  (e : env) (w : world) (i : string) (v : bool) :
  updateError e = None ->
  distinct (wallets (profiles w)) = true ->
  has_id (profiles w) i = false ->
  snd (adminVerifyWallet e w i v) = succeeded None
  /\ profiles (fst (adminVerifyWallet e w i v)) = profiles w
  /\ wallet_audit_log (fst (adminVerifyWallet e w i v)) = wallet_audit_log w.
Proof.
  intros Hupd Hdist Hid.
  pose proof (has_id_false _ _ Hid) as Hsel.
  unfold adminVerifyWallet, update_profiles. rewrite Hupd.
  rewrite (update_unselected _ _ _ Hsel), (flat_map_unselected _ _ _ Hsel).
  rewrite Hdist. cbn. rewrite app_nil_r. auto.
Qed.

(** Without a session, and for any profile, [adminVerifyWallet] goes
    through whenever the store accepts the update. *)
Lemma verify_without_session_succeeds
  (e : env) (w : world) (i : string) (v : bool) :
  currentAuthUser e = None ->
  updateError e = None ->
  distinct (wallets (profiles w)) = true ->
  snd (adminVerifyWallet e w i v) = succeeded None
  /\ profiles (fst (adminVerifyWallet e w i v))
     = map (fun p => if String.eqb (id p) i
                     then set_verification v (now e) p else p) (profiles w).
Proof.
  intros Hanon Hupd Hdist.
  unfold adminVerifyWallet, update_profiles. rewrite Hupd, Hanon.
  unfold wallets. rewrite column_update by reflexivity.
  fold (wallets (profiles w)). rewrite Hdist. cbn [negb].
  match goal with
  | |- context [forallb ?f ?l] =>
      assert (Hfk : forallb f l = true)
  end.
  { apply forallb_forall. intros a Ha.
    apply in_flat_map in Ha as (p & Hp & Ha).
    destruct (String.eqb (id p) i); [|contradiction].
    unfold audit_row_ok. rewrite has_id_update by reflexivity.
    unfold log_wallet_change in Ha.
    apply in_app_or in Ha as [Ha|Ha].
    - destruct (opt_string_eqb _ _); [contradiction|].
      destruct Ha as [<-|[]]. cbn. now rewrite has_id_In.
    - destruct (Bool.eqb _ _); [contradiction|].
      destruct Ha as [<-|[]]. cbn. now rewrite has_id_In. }
  rewrite Hfk. cbn. auto.
Qed.

(** [C4] [adminVerifyWallet] checks neither the caller nor the profile.
    Called without a session it revokes the advocate's verification and
    reports success; called by the advocate (a lawyer) on the judge's profile
    it rewrites the judge's verification time and reports success; called
    for an id no profile has it changes nothing and reports success, not a
    not-found failure. *)
Theorem setVerified_checks_nothing :
  (snd (adminVerifyWallet (session None) court "p-adv" false)
   = succeeded None
   /\ map is_wallet_verified
        (profiles (fst (adminVerifyWallet (session None) court "p-adv" false)))
      = [false; true; false])
  /\ (snd (adminVerifyWallet (session (Some "u-adv")) court "p-judge" true)
      = succeeded None
      /\ map wallet_verified_at
           (profiles (fst (adminVerifyWallet (session (Some "u-adv")) court
                             "p-judge" true)))
         = [None; Some "2024-02-01T10:00:00.000Z";
            Some "2024-01-01T00:00:00.000Z"])
  /\ adminVerifyWallet (session (Some "admin-1")) court "no-such-profile" true
     = (court, succeeded None).
Proof. repeat split; vm_compute; reflexivity. Qed.

(** [C8] The entries name the acting user's id at the identity provider,
    not its profile id.  Every entry a registration appends has the
    session's user id as changed_by.  For the judge, whose profile id is
    p-judge and whose user id is u-judge, that value refers to no profile:
    the insert of the wallet_added entry violates the foreign key and is
    lost while the registration reports success, and a wallet update fails
    altogether on the entry the trigger tries to write. *)
Theorem changed_by_is_not_the_profile_id :
  (forall e w r a,
      In a (wallet_audit_log (fst (adminRegisterUserWithWallet e w r))) ->
      ~ In a (wallet_audit_log w) ->
      changed_by a = currentAuthUser e)
  /\ snd (adminRegisterUserWithWallet (session (Some "u-judge")) court newcomer)
     = succeeded (Some "p-new")
  /\ wallet_audit_log
       (fst (adminRegisterUserWithWallet (session (Some "u-judge")) court
               newcomer)) = []
  /\ adminUpdateUserWallet (session (Some "u-judge")) court
       new_wallet_for_advocate
     = (court,
        failure
          "Failed to update wallet: insert on table wallet_audit_log violates foreign key constraint").
Proof.
  split; [|repeat split; vm_compute; reflexivity].
  intros e w r a Hin Hnew.
  destruct (register_audit_log e w r) as [H|(_ & _ & H)];
    rewrite H in Hin; [contradiction|].
  apply in_app_or in Hin as [Hin|[<-|[]]]; [contradiction | reflexivity].
Qed.

(* ------------------------------------------------------------------------- *)
(** ** The theorems at work on the small court *)

Lemma court_wallet_uniqueness : wallet_uniqueness court.
Proof. apply wallet_uniqueness_NoDup, distinct_NoDup. reflexivity. Qed.

Lemma court_email_uniqueness : email_uniqueness court.
Proof. apply email_uniqueness_NoDup, distinct_NoDup. reflexivity. Qed.

Lemma court_wallet_canonical : all_profiles wallet_canonical court.
Proof.
  repeat constructor; intros a Ha; cbn in Ha;
    try discriminate; injection Ha as <-; reflexivity.
Qed.

Lemma court_verification_consistent :
  all_profiles verification_consistent court.
Proof.
  repeat constructor; cbn; congruence.
Qed.

(** The advocate logs in with the wallet typed in upper case. *)
Lemma authorization_correct_witness :
  (WalletAuthResponse.isAuthorized
     (verifyWalletAuthorization (session None) court
        "0xABCDEF0123456789ABCDEF0123456789ABCDEF01" "lawyer") = true
   <-> granted court "0xABCDEF0123456789ABCDEF0123456789ABCDEF01" "lawyer")
  /\ (WalletAuthResponse.isAuthorized
        (verifyWalletAuthorization (session None) court
           "0xABCDEF0123456789ABCDEF0123456789ABCDEF01" "lawyer") = false
      <-> ~ granted court "0xABCDEF0123456789ABCDEF0123456789ABCDEF01"
            "lawyer").
Proof.
  apply (authorization_correct (session None) court
           "0xABCDEF0123456789ABCDEF0123456789ABCDEF01" "lawyer").
  - reflexivity.
  - exact court_wallet_canonical.
  - exact court_wallet_uniqueness.
Defined.

(** The registrar registers the newcomer, then rebinds the advocate. *)
Lemma uniqueness_at_every_point_witness :
  wallet_uniqueness
    (fst (perform (session (Some "admin-1"))
            (fst (perform (session (Some "admin-1")) court
                    (register newcomer)))
            (updateWallet new_wallet_for_advocate)))
  /\ email_uniqueness
       (fst (perform (session (Some "admin-1"))
               (fst (perform (session (Some "admin-1")) court
                       (register newcomer)))
               (updateWallet new_wallet_for_advocate))).
Proof.
  apply (uniqueness_at_every_point court).
  - exact court_wallet_uniqueness.
  - exact court_email_uniqueness.
  - apply reach_perform, reach_perform, reach_start.
Defined.

(** The insertion of the newcomer's profile fails after the identity has
    been created. *)
Lemma registration_compensates_witness :
  auth_calls
    (fst (adminRegisterUserWithWallet
            (with_profileError (session (Some "admin-1"))
               (Some "connection lost")) court newcomer))
  = [createUser "c@x.com"; deleteUser "u-new"]
  /\ snd (adminRegisterUserWithWallet
            (with_profileError (session (Some "admin-1"))
               (Some "connection lost")) court newcomer)
     = failure "Failed to create profile: connection lost"
  /\ profiles
       (fst (adminRegisterUserWithWallet
               (with_profileError (session (Some "admin-1"))
                  (Some "connection lost")) court newcomer))
     = profiles court
  /\ (forall p,
        In p (profiles
                (fst (adminRegisterUserWithWallet
                        (with_profileError (session (Some "admin-1"))
                           (Some "connection lost")) court newcomer))) ->
        user_id p <> "u-new")
  /\ (deleteUserError
        (with_profileError (session (Some "admin-1"))
           (Some "connection lost")) = None ->
      forall u,
        In u (auth_users
                (fst (adminRegisterUserWithWallet
                        (with_profileError (session (Some "admin-1"))
                           (Some "connection lost")) court newcomer))) ->
        auth_id u <> "u-new").
Proof.
  apply (registration_compensates
           (with_profileError (session (Some "admin-1"))
              (Some "connection lost"))
           court newcomer "admin-1" "connection lost").
  - reflexivity.
  - reflexivity.
  - reflexivity.
  - reflexivity.
  - intros p [<-|[<-|[<-|[]]]]; discriminate.
Defined.

(** The registrar registers the newcomer, then the advocate is unverified. *)
Lemma verification_invariant_witness :
  all_profiles verification_consistent court
  /\ forall p,
       In p (profiles
               (fst (perform (session (Some "admin-1"))
                       (fst (perform (session (Some "admin-1")) court
                               (register newcomer)))
                       (setVerified "p-adv" false)))) ->
       (is_wallet_verified p = true <-> wallet_verified_at p <> None).
Proof.
  split; [exact court_verification_consistent|].
  apply (verification_invariant court).
  - exact court_verification_consistent.
  - apply reach_perform, reach_perform, reach_start.
Defined.

(** The registrar fills in the registration form with an address in upper
    case and submits it. *)
Lemma canonical_wallets_at_the_boundary_witness :
  (forall p a,
      In p (profiles
              (fst (handle (session (Some "admin-1")) court
                      (clickRegister newcomer_form)))) ->
      wallet_address p = Some a -> canonical a = true)
  /\ (forall e f,
        wallet_format_ok (registerForm.walletAddress f) = false ->
        exists msg,
          handleRegisterUser e
            (fst (handle (session (Some "admin-1")) court
                    (clickRegister newcomer_form))) f
          = (fst (handle (session (Some "admin-1")) court
                    (clickRegister newcomer_form)),
             toast_error msg))
  /\ (forall e f,
        wallet_format_ok (updateForm.newWalletAddress f) = false ->
        exists msg,
          handleUpdateWallet e
            (fst (handle (session (Some "admin-1")) court
                    (clickRegister newcomer_form))) f
          = (fst (handle (session (Some "admin-1")) court
                    (clickRegister newcomer_form)),
             toast_error msg)).
Proof.
  apply (canonical_wallets_at_the_boundary court).
  - exact court_wallet_canonical.
  - apply console_click, console_start.
Defined.

(* ------------------------------------------------------------------------- *)
(** ** The example scenarios of the specification *)

(** Registering the lawyer succeeds with a verified wallet, stored in lower
    case; the wallet is then authorized for the role lawyer and not for the
    role clerk. *)
Example scenario_register_then_authorize :
  snd (adminRegisterUserWithWallet (session (Some "admin-1")) chambers
         (first_lawyer "a@x.com"))
  = succeeded (Some "p-new")
  /\ map (fun p => (wallet_address p, is_wallet_verified p))
       (profiles
          (fst (adminRegisterUserWithWallet (session (Some "admin-1")) chambers
                  (first_lawyer "a@x.com"))))
     = [ (None, false);
         (Some "0xabcdef0123456789abcdef0123456789abcdef01", true) ]
  /\ WalletAuthResponse.isAuthorized
       (verifyWalletAuthorization (session None)
          (fst (adminRegisterUserWithWallet (session (Some "admin-1")) chambers
                  (first_lawyer "a@x.com")))
          "0xabcdef0123456789abcdef0123456789abcdef01" "lawyer") = true
  /\ WalletAuthResponse.isAuthorized
       (verifyWalletAuthorization (session None)
          (fst (adminRegisterUserWithWallet (session (Some "admin-1")) chambers
                  (first_lawyer "a@x.com")))
          "0xabcdef0123456789abcdef0123456789abcdef01" "clerk") = false.
Proof. repeat split; vm_compute; reflexivity. Qed.

(** A second registration with the same wallet and another email fails and
    creates no profile. *)
Example scenario_second_registration :
  adminRegisterUserWithWallet (session (Some "admin-1"))
    (fst (adminRegisterUserWithWallet (session (Some "admin-1")) chambers
            (first_lawyer "a@x.com")))
    (first_lawyer "b@x.com")
  = (fst (adminRegisterUserWithWallet (session (Some "admin-1")) chambers
            (first_lawyer "a@x.com")),
     failure "This wallet address is already registered").
Proof. vm_compute. reflexivity. Qed.

(** After the registrar has unverified the wallet, it is authorized no more. *)
Example scenario_unverify_then_authorize :
  WalletAuthResponse.isAuthorized
    (verifyWalletAuthorization (session None)
       (fst (adminVerifyWallet (session (Some "admin-1")) court "p-adv" false))
       "0xabcdef0123456789abcdef0123456789abcdef01" "lawyer") = false.
Proof. vm_compute. reflexivity. Qed.

(* ------------------------------------------------------------------------- *)
(** ** Refusals of the registration and of the wallet update *)

Lemma maybeSingle_Some {A : Type} (l : list A) (x : A) :
  maybeSingle l = Some x -> l = [x].
Proof.
  destruct l as [|y [|z l]]; try discriminate. intros H. now injection H as ->.
Qed.

Lemma validate_admin_access_inl (e : env) (w : world) (denied_ : string)
  (res : result) :
  validate_admin_access e w denied_ = inl res -> exists msg, res = failure msg.
Proof.
  unfold validate_admin_access. intros H.
  destruct (currentAuthUser e) as [uid|]; [|injection H as <-; eauto].
  destruct (negb (truthy uid)); [injection H as <-; eauto|].
  destruct (may_administer _); [discriminate | injection H as <-; eauto].
Qed.

Lemma registration_conflict_failure (w : world) (r : UserRegistration.t)
  (res : result) :
  registration_conflict w r = Some res -> exists msg, res = failure msg.
Proof.
  unfold registration_conflict. intros H.
  destruct (maybeSingle (filter (wallet_is _) _)); [injection H as <-; eauto|].
  destruct (maybeSingle (filter _ _)); [injection H as <-; eauto|].
  discriminate.
Qed.

(** Extra: the registration and the wallet update refuse every caller whose
    profile is neither admin nor judiciary (or who has no profile or no
    session): they return a failure and the world, the identity provider
    included, is what it was. *)
Theorem non_admin_is_refused (e : env) (w : world) :
  (forall p, In p (profiles w) -> currentAuthUser e = Some (user_id p) ->
             role_category p <> admin /\ role_category p <> judiciary) ->
  (forall r, exists msg,
      adminRegisterUserWithWallet e w r = (w, failure msg))
  /\ (forall rq, exists msg,
        adminUpdateUserWallet e w rq = (w, failure msg)).
Proof.
  intros Hrole.
  assert (Hdenied : forall denied_, exists msg,
             validate_admin_access e w denied_ = inl (failure msg)).
  { intros denied_. unfold validate_admin_access.
    destruct (currentAuthUser e) as [uid|] eqn:Hs; [|eauto].
    destruct (negb (truthy uid)); [eauto|].
    destruct (maybeSingle _) as [p|] eqn:M; [|cbn; eauto].
    apply maybeSingle_Some in M.
    assert (Hin : In p (filter (fun p => String.eqb (user_id p) uid)
                          (profiles w))) by (rewrite M; now left).
    apply filter_In in Hin as [Hin Huid]. apply String.eqb_eq in Huid.
    destruct (Hrole p Hin) as [Hna Hnj]; [congruence|].
    cbn. destruct (role_category p); try contradiction; eauto. }
  split.
  - intros r. unfold adminRegisterUserWithWallet.
    destruct (Hdenied "Unauthorized: Only admins can register users")
      as [msg ->]. eauto.
  - intros rq. unfold adminUpdateUserWallet.
    destruct (Hdenied "Unauthorized: Only admins can update wallets")
      as [msg ->]. eauto.
Qed.

Lemma non_admin_is_refused_witness :
  (forall r, exists msg,
      adminRegisterUserWithWallet (session (Some "u-adv")) court r
      = (court, failure msg))
  /\ (forall rq, exists msg,
        adminUpdateUserWallet (session (Some "u-adv")) court rq
        = (court, failure msg)).
Proof.
  apply (non_admin_is_refused (session (Some "u-adv")) court).
  intros p [<-|[<-|[<-|[]]]] H; try discriminate H.
  split; discriminate.
Defined.

(** Extra: on a table without duplicate wallets and emails, a registration
    whose lower-cased wallet or whose email is held by a profile fails,
    whoever calls, and changes nothing: no identity is created. *)
Theorem register_rejects_duplicates
  (e : env) (w : world) (r : UserRegistration.t) (p : profile) :
  wallet_uniqueness w ->
  email_uniqueness w ->
  In p (profiles w) ->
  wallet_address p = Some (toLowerCase (UserRegistration.walletAddress r))
  \/ email p = UserRegistration.email r ->
  exists msg, adminRegisterUserWithWallet e w r = (w, failure msg).
Proof.
  intros Hw He Hin Hdup.
  apply wallet_uniqueness_NoDup in Hw. apply email_uniqueness_NoDup in He.
  unfold adminRegisterUserWithWallet.
  destruct (validate_admin_access e w _) as [res|uid] eqn:V.
  { apply validate_admin_access_inl in V as [msg ->]. eauto. }
  assert (Hc : exists res, registration_conflict w r = Some res).
  { unfold registration_conflict.
    destruct (maybeSingle (filter (wallet_is _) _)) eqn:Mw; [eauto|].
    destruct Hdup as [Hwal|Hmail].
    - unfold wallet_is in Mw.
      rewrite (filter_unique_row wallet_address _ p _ Hw Hin Hwal) in Mw.
      discriminate.
    - pose proof (filter_unique_row (fun q => Some (email q)) _ p
                    (UserRegistration.email r) He Hin
                    (f_equal Some Hmail)) as Hf.
      cbn [opt_string_eqb] in Hf. rewrite Hf. cbn. eauto. }
  destruct Hc as [res Hc]. rewrite Hc.
  apply registration_conflict_failure in Hc as [msg ->]. eauto.
Qed.

Lemma register_rejects_duplicates_witness :
  exists msg,
    adminRegisterUserWithWallet (session (Some "admin-1")) court
      (first_lawyer "someone-else@x.com")
    = (court, failure msg).
Proof.
  apply (register_rejects_duplicates (session (Some "admin-1")) court
           (first_lawyer "someone-else@x.com") advocate).
  - apply wallet_uniqueness_NoDup, distinct_NoDup. reflexivity.
  - apply email_uniqueness_NoDup, distinct_NoDup. reflexivity.
  - cbn. auto.
  - left. reflexivity.
Defined.

Lemma filter_out_new_user (us : list auth_user) (x mail : string) :
  (forall u, In u us -> auth_id u <> x) ->
  filter (fun u => negb (String.eqb (auth_id u) x))
    (us ++ [ {| auth_id := x; auth_email := mail |} ]) = us.
Proof.
  intros Hfresh. rewrite filter_app. cbn. rewrite String.eqb_refl. cbn.
  rewrite app_nil_r. induction us as [|u us IH]; [reflexivity|].
  cbn. destruct (String.eqb (auth_id u) x) eqn:E.
  - apply String.eqb_eq in E. exfalso. apply (Hfresh u); [now left | exact E].
  - cbn. f_equal. apply IH. intros v Hv. apply Hfresh. now right.
Qed.

(** Extra: a registration that fails leaves the profiles and the audit log
    as they were, and the identity provider too, with one exception: the
    identity it created stays behind when, after a failed insertion of the
    profile, the compensating deletion fails as well. *)
Theorem failed_registration_footprint
  (e : env) (w : world) (r : UserRegistration.t) :
  (forall u, In u (auth_users w) -> auth_id u <> new_user_id e) ->
  success (snd (adminRegisterUserWithWallet e w r)) = false ->
  profiles (fst (adminRegisterUserWithWallet e w r)) = profiles w
  /\ wallet_audit_log (fst (adminRegisterUserWithWallet e w r))
     = wallet_audit_log w
  /\ (auth_users (fst (adminRegisterUserWithWallet e w r)) = auth_users w
      \/ (deleteUserError e <> None
          /\ auth_users (fst (adminRegisterUserWithWallet e w r))
             = auth_users w
               ++ [ {| auth_id := new_user_id e;
                       auth_email := UserRegistration.email r |} ])).
Proof.
  intros Hfresh. unfold adminRegisterUserWithWallet.
  destruct (validate_admin_access e w _) as [res|uid]; [auto|].
  destruct (registration_conflict w r); [auto|].
  unfold auth_createUser.
  destruct (authError e); [cbn; auto|].
  cbn [profiles set_auth].
  destruct (insert_profile e _ _) as [m|ps'].
  - intros _. unfold auth_deleteUser.
    destruct (deleteUserError e) as [d|] eqn:D; cbn.
    + repeat split; auto. right. split; [discriminate | reflexivity].
    + repeat split; auto. left. now apply filter_out_new_user.
  - cbn. discriminate.
Qed.

Lemma failed_registration_footprint_witness :
  profiles
    (fst (adminRegisterUserWithWallet
            (with_profileError (session (Some "admin-1"))
               (Some "connection lost")) court newcomer))
  = profiles court
  /\ wallet_audit_log
       (fst (adminRegisterUserWithWallet
               (with_profileError (session (Some "admin-1"))
                  (Some "connection lost")) court newcomer))
     = wallet_audit_log court
  /\ (auth_users
        (fst (adminRegisterUserWithWallet
                (with_profileError (session (Some "admin-1"))
                   (Some "connection lost")) court newcomer))
      = auth_users court
      \/ (deleteUserError
            (with_profileError (session (Some "admin-1"))
               (Some "connection lost")) <> None
          /\ auth_users
               (fst (adminRegisterUserWithWallet
                       (with_profileError (session (Some "admin-1"))
                          (Some "connection lost")) court newcomer))
             = auth_users court
               ++ [ {| auth_id := "u-new"; auth_email := "c@x.com" |} ])).
Proof.
  apply (failed_registration_footprint
           (with_profileError (session (Some "admin-1"))
              (Some "connection lost")) court newcomer).
  - intros u [<-|[<-|[<-|[]]]]; discriminate.
  - reflexivity.
Defined.

(* ------------------------------------------------------------------------- *)
(** ** Looking a wallet up *)

Lemma holder_lookup (w : world) (a : string) (p : profile) :
  NoDup (wallets (profiles w)) ->
  In p (profiles w) ->
  wallet_address p = Some (toLowerCase a) ->
  maybeSingle (filter (wallet_is (toLowerCase a)) (profiles w)) = Some p.
Proof.
  intros Hnd Hin Hw. unfold wallet_is.
  now rewrite (filter_unique_row wallet_address _ p _ Hnd Hin Hw).
Qed.

Lemma lookup_holder (w : world) (a : string) (p : profile) :
  maybeSingle (filter (wallet_is (toLowerCase a)) (profiles w)) = Some p ->
  In p (profiles w) /\ wallet_address p = Some (toLowerCase a).
Proof.
  intros M. apply maybeSingle_Some in M.
  assert (Hin : In p (filter (wallet_is (toLowerCase a)) (profiles w)))
    by (rewrite M; now left).
  apply filter_In in Hin as [Hin Hw]. split; [assumption|].
  now apply opt_string_eqb_eq in Hw.
Qed.

(** Extra: on a table without duplicate wallets, the search by wallet of
    the admin service and the status query of the verification service
    return a profile exactly when it holds the lower-cased address, so the
    case in which the address is typed does not matter; they return null
    exactly when no profile holds it. *)
Theorem wallet_lookup_correct (w : world) (a : string) :
  wallet_uniqueness w ->
  (forall u, adminSearchUserByWallet w a = Some u
             <-> exists p, In p (profiles w)
                           /\ wallet_address p = Some (toLowerCase a)
                           /\ u = found_user p)
  /\ (forall s, getWalletStatus w a = Some s
                <-> exists p, In p (profiles w)
                              /\ wallet_address p = Some (toLowerCase a)
                              /\ s = wallet_status p)
  /\ (adminSearchUserByWallet w a = None
      <-> forall p, In p (profiles w) ->
                    wallet_address p <> Some (toLowerCase a)).
Proof.
  intros Hu. apply wallet_uniqueness_NoDup in Hu.
  unfold adminSearchUserByWallet, getWalletStatus.
  split; [|split].
  - intros u. split.
    + destruct (maybeSingle _) as [p|] eqn:M; [|discriminate].
      intros H. injection H as <-. apply lookup_holder in M as [Hin Hw].
      eauto.
    + intros (p & Hin & Hw & ->). now rewrite (holder_lookup w a p).
  - intros s. split.
    + destruct (maybeSingle _) as [p|] eqn:M; [|discriminate].
      intros H. injection H as <-. apply lookup_holder in M as [Hin Hw].
      eauto.
    + intros (p & Hin & Hw & ->). now rewrite (holder_lookup w a p).
  - split.
    + intros H p Hin Hw. rewrite (holder_lookup w a p) in H by assumption.
      discriminate.
    + intros H. destruct (maybeSingle _) as [p|] eqn:M; [|reflexivity].
      apply lookup_holder in M as [Hin Hw]. now elim (H p Hin).
Qed.

Lemma wallet_lookup_correct_witness :
  (forall u,
      adminSearchUserByWallet court
        "0xABCDEF0123456789ABCDEF0123456789ABCDEF01" = Some u
      <-> exists p, In p (profiles court)
                    /\ wallet_address p
                       = Some (toLowerCase
                                 "0xABCDEF0123456789ABCDEF0123456789ABCDEF01")
                    /\ u = found_user p)
  /\ (forall s,
        getWalletStatus court
          "0xABCDEF0123456789ABCDEF0123456789ABCDEF01" = Some s
        <-> exists p, In p (profiles court)
                      /\ wallet_address p
                         = Some (toLowerCase
                                   "0xABCDEF0123456789ABCDEF0123456789ABCDEF01")
                      /\ s = wallet_status p)
  /\ (adminSearchUserByWallet court
        "0xABCDEF0123456789ABCDEF0123456789ABCDEF01" = None
      <-> forall p, In p (profiles court) ->
                    wallet_address p
                    <> Some (toLowerCase
                               "0xABCDEF0123456789ABCDEF0123456789ABCDEF01")).
Proof.
  apply (wallet_lookup_correct court).
  apply wallet_uniqueness_NoDup, distinct_NoDup. reflexivity.
Defined.

(** Extra: after a successful registration, a search for the registered
    address, in whatever case it is typed, finds the new profile: with the
    generated id, the submitted email, name and role, the address in lower
    case, and verified. *)
Theorem registered_wallet_is_found
  (e : env) (w : world) (r : UserRegistration.t) (a : string) :
  success (snd (adminRegisterUserWithWallet e w r)) = true ->
  toLowerCase a = toLowerCase (UserRegistration.walletAddress r) ->
  adminSearchUserByWallet (fst (adminRegisterUserWithWallet e w r)) a
  = Some {| FoundUser.id := new_profile_id e;
            FoundUser.email := UserRegistration.email r;
            FoundUser.full_name := UserRegistration.fullName r;
            FoundUser.role_category := UserRegistration.roleCategory r;
            FoundUser.wallet_address :=
              Some (toLowerCase (UserRegistration.walletAddress r));
            FoundUser.is_wallet_verified := true |}.
Proof.
  intros Hs Ha.
  destruct (register_profiles e w r) as [[_ Hf]|(Hp & _ & D & _)];
    [congruence|].
  unfold adminSearchUserByWallet.
  rewrite (holder_lookup _ a (registered_profile e r)).
  - reflexivity.
  - now apply distinct_NoDup.
  - rewrite Hp. apply in_or_app. right. now left.
  - cbn. now rewrite Ha.
Qed.

Lemma registered_wallet_is_found_witness :
  adminSearchUserByWallet
    (fst (adminRegisterUserWithWallet (session (Some "admin-1")) court
            newcomer))
    "0X1111111111111111111111111111111111111111"
  = Some {| FoundUser.id := "p-new";
            FoundUser.email := "c@x.com";
            FoundUser.full_name := "Clerk";
            FoundUser.role_category := clerk;
            FoundUser.wallet_address :=
              Some "0x1111111111111111111111111111111111111111";
            FoundUser.is_wallet_verified := true |}.
Proof.
  apply (registered_wallet_is_found (session (Some "admin-1")) court newcomer
           "0X1111111111111111111111111111111111111111").
  - reflexivity.
  - reflexivity.
Defined.

(** Extra: a wallet registered through the service with a well-formed
    address, on a table of canonical wallets, is authorized at once for the
    role it was registered with, in whatever case the address is presented;
    the answer carries the new profile's id, name and role. *)
Theorem registered_wallet_is_authorized
  (e e' : env) (w : world) (r : UserRegistration.t) (a : string) :
  all_profiles wallet_canonical w ->
  wallet_format_ok (UserRegistration.walletAddress r) = true ->
  success (snd (adminRegisterUserWithWallet e w r)) = true ->
  rpcError e' = None ->
  toLowerCase a = toLowerCase (UserRegistration.walletAddress r) ->
  verifyWalletAuthorization e' (fst (adminRegisterUserWithWallet e w r)) a
    (role_text (UserRegistration.roleCategory r))
  = {| WalletAuthResponse.isAuthorized := true;
       WalletAuthResponse.profileId := Some (new_profile_id e);
       WalletAuthResponse.fullName := Some (UserRegistration.fullName r);
       WalletAuthResponse.roleCategory :=
         Some (role_text (UserRegistration.roleCategory r));
       WalletAuthResponse.error := None |}.
Proof.
  intros Hcan Hok Hs Hrpc Ha.
  destruct (register_profiles e w r) as [[_ Hf]|(Hp & _ & D & _)];
    [congruence|].
  apply (authorized_complete e' _ a _ (registered_profile e r)).
  - assumption.
  - unfold all_profiles. rewrite Hp. apply Forall_app. split; [exact Hcan|].
    constructor; [|constructor].
    intros b Hb. cbn in Hb. injection Hb as <-.
    now apply format_ok_lower_canonical.
  - apply wallet_uniqueness_NoDup. now apply distinct_NoDup.
  - rewrite Hp. apply in_or_app. right. now left.
  - cbn. now rewrite Ha.
  - reflexivity.
  - reflexivity.
Qed.

Lemma registered_wallet_is_authorized_witness :
  verifyWalletAuthorization (session None)
    (fst (adminRegisterUserWithWallet (session (Some "admin-1")) court
            newcomer))
    "0X1111111111111111111111111111111111111111" "clerk"
  = {| WalletAuthResponse.isAuthorized := true;
       WalletAuthResponse.profileId := Some "p-new";
       WalletAuthResponse.fullName := Some "Clerk";
       WalletAuthResponse.roleCategory := Some "clerk";
       WalletAuthResponse.error := None |}.
Proof.
  apply (registered_wallet_is_authorized (session (Some "admin-1"))
           (session None) court newcomer
           "0X1111111111111111111111111111111111111111").
  - exact court_wallet_canonical.
  - reflexivity.
  - reflexivity.
  - reflexivity.
  - reflexivity.
Defined.

(* ------------------------------------------------------------------------- *)
(** ** The wallet update *)

Lemma update_profiles_fk (e : env) (w w' : world)
  (sel : profile -> bool) (set : profile -> profile) :
  update_profiles e w sel set = inr w' ->
  forallb (audit_row_ok (profiles w'))
    (flat_map (fun p => if sel p
                        then log_wallet_change (currentAuthUser e)
                               (db_now e) p (set p)
                        else []) (profiles w)) = true.
Proof.
  unfold update_profiles. intros H.
  destruct (updateError e); [discriminate|].
  destruct (distinct _); [|discriminate].
  destruct (forallb _ _) eqn:F; [|discriminate].
  injection H as <-. exact F.
Qed.

Lemma filter_nil_unselected {A : Type} (sel : A -> bool) (l : list A) :
  filter sel l = [] -> forall x, In x l -> sel x = false.
Proof.
  intros H x Hx. destruct (sel x) eqn:E; [|reflexivity].
  assert (Hin : In x (filter sel l)) by (apply filter_In; auto).
  rewrite H in Hin. contradiction.
Qed.

(** When one row is selected, the trigger's entries of the statement are
    those for that row. *)
Lemma flat_map_selected {B : Type} (sel : profile -> bool)
  (f : profile -> list B) (ps : list profile) (p : profile) :
  filter sel ps = [p] ->
  flat_map (fun q => if sel q then f q else []) ps = f p.
Proof.
  induction ps as [|x ps IH]; [discriminate|].
  cbn [filter flat_map]. destruct (sel x) eqn:E.
  - intros H. injection H as -> Hrest.
    rewrite (flat_map_unselected sel f ps (filter_nil_unselected _ _ Hrest)).
    apply app_nil_r.
  - intros H. cbn. now apply IH.
Qed.

(** What a successful wallet update consists of. *)
Lemma update_wallet_success (e : env) (w : world) (rq : WalletUpdateRequest.t) :
  success (snd (adminUpdateUserWallet e w rq)) = true ->
  exists uid prof w1,
    currentAuthUser e = Some uid
    /\ filter (fun p => String.eqb (id p) (WalletUpdateRequest.profileId rq))
         (profiles w) = [prof]
    /\ update_profiles e w
         (fun p => String.eqb (id p) (WalletUpdateRequest.profileId rq))
         (rebind (toLowerCase (WalletUpdateRequest.newWalletAddress rq))
            (now e)) = inr w1
    /\ fst (adminUpdateUserWallet e w rq)
       = snd (insert_audit e w1
                {| profile_id := WalletUpdateRequest.profileId rq;
                   action := wallet_changed;
                   old_value := or_null (wallet_address prof);
                   new_value :=
                     Some (toLowerCase
                             (WalletUpdateRequest.newWalletAddress rq));
                   changed_by := Some uid;
                   changed_at := db_now e |}).
Proof.
  unfold adminUpdateUserWallet.
  destruct (validate_admin_access e w _) as [res|uid] eqn:V.
  { apply validate_admin_access_inl in V as [msg ->]. discriminate. }
  apply validate_admin_access_inr in V as (Hs & _).
  destruct (maybeSingle (filter _ _)) as [prof|] eqn:M; [|discriminate].
  apply maybeSingle_Some in M.
  destruct (maybeSingle (filter _ _)); [discriminate|].
  destruct (update_profiles _ _ _ _) as [m|w1] eqn:U; [discriminate|].
  intros _. exists uid, prof, w1. auto.
Qed.

(** Extra: a wallet update that fails, for whatever reason, has changed
    nothing at all. *)
Theorem failed_update_changes_nothing
  (e : env) (w : world) (rq : WalletUpdateRequest.t) :
  success (snd (adminUpdateUserWallet e w rq)) = false ->
  fst (adminUpdateUserWallet e w rq) = w.
Proof.
  unfold adminUpdateUserWallet.
  destruct (validate_admin_access e w _) as [res|uid]; [reflexivity|].
  destruct (maybeSingle (filter _ _)) as [prof|]; [|reflexivity].
  destruct (maybeSingle (filter _ _)); [reflexivity|].
  destruct (update_profiles _ _ _ _) as [m|w1]; [reflexivity|].
  discriminate.
Qed.

Lemma failed_update_changes_nothing_witness :
  fst (adminUpdateUserWallet (session (Some "u-judge")) court
         new_wallet_for_advocate) = court.
Proof.
  apply (failed_update_changes_nothing (session (Some "u-judge")) court
           new_wallet_for_advocate).
  reflexivity.
Defined.

(** Extra: after a successful update with a well-formed address, on a table
    of canonical wallets, the new address is authorized for the profile's
    role, in whatever case it is presented: the update leaves the wallet
    verified. *)
Theorem rebound_wallet_is_authorized
  (e e' : env) (w : world) (rq : WalletUpdateRequest.t) (p : profile)
  (a : string) :
  all_profiles wallet_canonical w ->
  wallet_format_ok (WalletUpdateRequest.newWalletAddress rq) = true ->
  success (snd (adminUpdateUserWallet e w rq)) = true ->
  In p (profiles w) ->
  id p = WalletUpdateRequest.profileId rq ->
  rpcError e' = None ->
  toLowerCase a = toLowerCase (WalletUpdateRequest.newWalletAddress rq) ->
  verifyWalletAuthorization e' (fst (adminUpdateUserWallet e w rq)) a
    (role_text (role_category p))
  = {| WalletAuthResponse.isAuthorized := true;
       WalletAuthResponse.profileId := Some (id p);
       WalletAuthResponse.fullName := Some (full_name p);
       WalletAuthResponse.roleCategory := Some (role_text (role_category p));
       WalletAuthResponse.error := None |}.
Proof.
  intros Hcan Hok Hs Hin Hid Hrpc Ha.
  destruct (update_wallet_profiles e w rq) as [[_ Hf]|(Hp & _ & D)];
    [congruence|].
  apply (authorized_complete e' _ a _
           (rebind (toLowerCase (WalletUpdateRequest.newWalletAddress rq))
              (now e) p)).
  - assumption.
  - unfold all_profiles. rewrite Hp. apply Forall_update; [|exact Hcan].
    intros q _ b Hb. cbn in Hb. injection Hb as <-.
    now apply format_ok_lower_canonical.
  - apply wallet_uniqueness_NoDup. now apply distinct_NoDup.
  - rewrite Hp. apply in_map_iff. exists p. split; [|assumption].
    apply String.eqb_eq in Hid. now rewrite Hid.
  - cbn. now rewrite Ha.
  - reflexivity.
  - reflexivity.
Qed.

Lemma rebound_wallet_is_authorized_witness :
  verifyWalletAuthorization (session None)
    (fst (adminUpdateUserWallet (session (Some "admin-1")) court
            new_wallet_for_advocate))
    "0x2222222222222222222222222222222222222222" "lawyer"
  = {| WalletAuthResponse.isAuthorized := true;
       WalletAuthResponse.profileId := Some "p-adv";
       WalletAuthResponse.fullName := Some "Advocate";
       WalletAuthResponse.roleCategory := Some "lawyer";
       WalletAuthResponse.error := None |}.
Proof.
  apply (rebound_wallet_is_authorized (session (Some "admin-1"))
           (session None) court new_wallet_for_advocate advocate
           "0x2222222222222222222222222222222222222222").
  - exact court_wallet_canonical.
  - reflexivity.
  - reflexivity.
  - cbn. auto.
  - reflexivity.
  - reflexivity.
  - reflexivity.
Defined.

(** Extra: after a successful update to another address, on a table without
    duplicate wallets, the address the profile held before is held by no
    profile: a search for it finds nothing and it is authorized for no
    role. *)
Theorem old_wallet_is_released
  (e : env) (w : world) (rq : WalletUpdateRequest.t) (p : profile)
  (old a : string) :
  wallet_uniqueness w ->
  In p (profiles w) ->
  id p = WalletUpdateRequest.profileId rq ->
  wallet_address p = Some old ->
  old <> toLowerCase (WalletUpdateRequest.newWalletAddress rq) ->
  success (snd (adminUpdateUserWallet e w rq)) = true ->
  toLowerCase a = old ->
  adminSearchUserByWallet (fst (adminUpdateUserWallet e w rq)) a = None
  /\ forall e' r,
       WalletAuthResponse.isAuthorized
         (verifyWalletAuthorization e' (fst (adminUpdateUserWallet e w rq))
            a r) = false.
Proof.
  intros Hu Hin Hid Hold Hne Hs Ha.
  destruct (update_wallet_profiles e w rq) as [[_ Hf]|(Hp & _ & D)];
    [congruence|].
  assert (Hgone : forall q,
             In q (profiles (fst (adminUpdateUserWallet e w rq))) ->
             wallet_address q <> Some old).
  { intros q' Hq'. rewrite Hp in Hq'. apply in_map_iff in Hq' as (q & <- & Hq).
    destruct (String.eqb (id q) _) eqn:E.
    - cbn. congruence.
    - intros Hqold. apply String.eqb_neq in E.
      apply In_nth_error in Hin as [i Hi]. apply In_nth_error in Hq as [j Hj].
      assert (Hij : i <> j) by (intros ->; congruence).
      apply (Hu p q old); [exists i, j; auto | assumption | assumption]. }
  split.
  - unfold adminSearchUserByWallet. rewrite Ha. unfold wallet_is.
    rewrite filter_absent; [reflexivity|].
    intros Hc. apply in_column in Hc as (q & Hq & Hqo). exact (Hgone q Hq Hqo).
  - intros e' r.
    destruct (WalletAuthResponse.isAuthorized _) eqn:A; [|reflexivity].
    apply authorized_sound in A as (q & Hq & Hqw & _).
    rewrite Ha in Hqw. now elim (Hgone q Hq).
Qed.

Lemma old_wallet_is_released_witness :
  adminSearchUserByWallet
    (fst (adminUpdateUserWallet (session (Some "admin-1")) court
            new_wallet_for_advocate))
    "0xABCDEF0123456789ABCDEF0123456789ABCDEF01" = None
  /\ forall e' r,
       WalletAuthResponse.isAuthorized
         (verifyWalletAuthorization e'
            (fst (adminUpdateUserWallet (session (Some "admin-1")) court
                    new_wallet_for_advocate))
            "0xABCDEF0123456789ABCDEF0123456789ABCDEF01" r) = false.
Proof.
  apply (old_wallet_is_released (session (Some "admin-1")) court
           new_wallet_for_advocate advocate
           "0xabcdef0123456789abcdef0123456789abcdef01").
  - exact court_wallet_uniqueness.
  - cbn. auto.
  - reflexivity.
  - reflexivity.
  - discriminate.
  - reflexivity.
  - reflexivity.
Defined.

(* ------------------------------------------------------------------------- *)
(** ** What the operations append to the audit log *)

(** The log after a successful wallet update: the entries of the trigger
    for the one addressed row, then the entry of the service if its insert
    went through. *)
Lemma update_wallet_log (e : env) (w : world) (rq : WalletUpdateRequest.t)
  (p : profile) :
  success (snd (adminUpdateUserWallet e w rq)) = true ->
  In p (profiles w) ->
  id p = WalletUpdateRequest.profileId rq ->
  exists w1,
    wallet_audit_log w1
    = wallet_audit_log w
      ++ log_wallet_change (currentAuthUser e) (db_now e) p
           (rebind (toLowerCase (WalletUpdateRequest.newWalletAddress rq))
              (now e) p)
    /\ forallb (audit_row_ok (profiles w1))
         (log_wallet_change (currentAuthUser e) (db_now e) p
            (rebind (toLowerCase (WalletUpdateRequest.newWalletAddress rq))
               (now e) p)) = true
    /\ (forall i, has_id (profiles w1) i = has_id (profiles w) i)
    /\ wallet_audit_log (fst (adminUpdateUserWallet e w rq))
       = wallet_audit_log
           (snd (insert_audit e w1
                   {| profile_id := WalletUpdateRequest.profileId rq;
                      action := wallet_changed;
                      old_value := or_null (wallet_address p);
                      new_value :=
                        Some (toLowerCase
                                (WalletUpdateRequest.newWalletAddress rq));
                      changed_by := currentAuthUser e;
                      changed_at := db_now e |})).
Proof.
  intros Hs Hin Hid.
  destruct (update_wallet_success e w rq Hs)
    as (uid & prof & w1 & Hsess & Hsel & Hupd & Hout).
  assert (Hp : prof = p).
  { assert (Hf : In p (filter (fun q => String.eqb (id q)
                                          (WalletUpdateRequest.profileId rq))
                         (profiles w))).
    { apply filter_In. split; [assumption | now apply String.eqb_eq]. }
    rewrite Hsel in Hf. destruct Hf as [Hf|[]]. exact Hf. }
  subst prof. exists w1.
  pose proof (update_profiles_fk _ _ _ _ _ Hupd) as Hfk.
  apply update_profiles_inr in Hupd as (_ & Hps & _ & Hlog & _).
  cbv beta in Hfk, Hlog.
  rewrite (flat_map_selected _ _ _ _ Hsel) in Hlog, Hfk.
  repeat split.
  - exact Hlog.
  - exact Hfk.
  - intros i. rewrite Hps. now apply has_id_update.
  - rewrite Hout, Hsess. reflexivity.
Qed.

(** Extra: every successful update that changes the address of a profile
    appends, when the service's own insert is not refused, two wallet_changed
    entries with the new address as new value: the trigger's, then (after
    the wallet_verified entry the trigger adds for a wallet that was
    unverified) the service's. *)
Theorem rebind_is_logged_by_trigger_and_service
  (e : env) (w : world) (rq : WalletUpdateRequest.t) (p : profile) :
  success (snd (adminUpdateUserWallet e w rq)) = true ->
  In p (profiles w) ->
  id p = WalletUpdateRequest.profileId rq ->
  wallet_address p
  <> Some (toLowerCase (WalletUpdateRequest.newWalletAddress rq)) ->
  auditError e = None ->
  wallet_audit_log (fst (adminUpdateUserWallet e w rq))
  = wallet_audit_log w
    ++ [ {| profile_id := WalletUpdateRequest.profileId rq;
            action := wallet_changed;
            old_value := wallet_address p;
            new_value :=
              Some (toLowerCase (WalletUpdateRequest.newWalletAddress rq));
            changed_by := currentAuthUser e;
            changed_at := db_now e |} ]
    ++ (if is_wallet_verified p then []
        else [ {| profile_id := WalletUpdateRequest.profileId rq;
                  action := wallet_verified;
                  old_value := Some "false";
                  new_value := Some "true";
                  changed_by := currentAuthUser e;
                  changed_at := db_now e |} ])
    ++ [ {| profile_id := WalletUpdateRequest.profileId rq;
            action := wallet_changed;
            old_value := or_null (wallet_address p);
            new_value :=
              Some (toLowerCase (WalletUpdateRequest.newWalletAddress rq));
            changed_by := currentAuthUser e;
            changed_at := db_now e |} ].
Proof.
  intros Hs Hin Hid Hchg Haudit.
  destruct (update_wallet_log e w rq p Hs Hin Hid)
    as (w1 & Hlog & Hfk & Hids & ->).
  rewrite insert_audit_log, Haudit. cbn [andb].
  unfold log_wallet_change in Hlog, Hfk.
  cbn [id wallet_address is_wallet_verified rebind] in Hlog, Hfk.
  destruct (opt_string_eqb (wallet_address p) _) eqn:E.
  { apply opt_string_eqb_eq in E. contradiction. }
  cbn [app forallb] in Hfk. apply andb_true_iff in Hfk as [Hrow _].
  unfold audit_row_ok in *. cbn [profile_id changed_by] in *.
  rewrite Hid in Hrow, Hlog. rewrite Hrow, Hlog.
  destruct (is_wallet_verified p); cbn; rewrite <- ?app_assoc; reflexivity.
Qed.

Lemma rebind_is_logged_by_trigger_and_service_witness :
  wallet_audit_log
    (fst (adminUpdateUserWallet (session (Some "admin-1")) court
            new_wallet_for_advocate))
  = wallet_audit_log court
    ++ [ {| profile_id := "p-adv";
            action := wallet_changed;
            old_value := Some "0xabcdef0123456789abcdef0123456789abcdef01";
            new_value := Some "0x2222222222222222222222222222222222222222";
            changed_by := Some "admin-1";
            changed_at := "2024-02-01 10:00:00+00" |} ]
    ++ []
    ++ [ {| profile_id := "p-adv";
            action := wallet_changed;
            old_value := Some "0xabcdef0123456789abcdef0123456789abcdef01";
            new_value := Some "0x2222222222222222222222222222222222222222";
            changed_by := Some "admin-1";
            changed_at := "2024-02-01 10:00:00+00" |} ].
Proof.
  apply (rebind_is_logged_by_trigger_and_service (session (Some "admin-1"))
           court new_wallet_for_advocate advocate).
  - reflexivity.
  - cbn. auto.
  - reflexivity.
  - discriminate.
  - reflexivity.
Defined.

Lemma filter_none {A : Type} (f : A -> bool) (l : list A) :
  (forall x, In x l -> f x = false) -> filter f l = [].
Proof.
  intros H. induction l as [|x l IH]; [reflexivity|].
  cbn. rewrite (H x) by now left. apply IH. intros y Hy. apply H. now right.
Qed.

Lemma column_update_selected (g : profile -> option string)
  (sel : profile -> bool) (set : profile -> profile) (ps : list profile) :
  (forall q, In q ps -> sel q = true -> g (set q) = g q) ->
  column g (map (fun q => if sel q then set q else q) ps) = column g ps.
Proof.
  intros H. induction ps as [|x ps IH]; [reflexivity|].
  cbn [map]. rewrite !column_cons, IH by (intros q Hq; apply H; now right).
  destruct (sel x) eqn:E; [|reflexivity].
  now rewrite (H x) by (auto; now left).
Qed.

Lemma update_success_result (e : env) (w : world)
  (rq : WalletUpdateRequest.t) :
  success (snd (adminUpdateUserWallet e w rq)) = true ->
  snd (adminUpdateUserWallet e w rq) = succeeded None.
Proof.
  unfold adminUpdateUserWallet.
  destruct (validate_admin_access e w _) as [res|u] eqn:V.
  { apply validate_admin_access_inl in V as [msg ->]. discriminate. }
  destruct (maybeSingle (filter _ _)); [|discriminate].
  destruct (maybeSingle (filter _ _)); [discriminate|].
  destruct (update_profiles _ _ _ _); [discriminate | reflexivity].
Qed.

(** A wallet update to the address the one addressed profile already has is
    accepted, for a caller whose user id is the id of a profile. *)
Lemma same_address_is_accepted (e : env) (w : world)
  (rq : WalletUpdateRequest.t) (p : profile) (uid : string) :
  validate_admin_access e w "Unauthorized: Only admins can update wallets"
  = inr uid ->
  filter (fun q => String.eqb (id q) (WalletUpdateRequest.profileId rq))
    (profiles w) = [p] ->
  wallet_address p
  = Some (toLowerCase (WalletUpdateRequest.newWalletAddress rq)) ->
  wallet_uniqueness w ->
  updateError e = None ->
  has_id (profiles w) uid = true ->
  success (snd (adminUpdateUserWallet e w rq)) = true.
Proof.
  intros Hadmin Hsel Hsame Hu Hupd Huid.
  pose proof (validate_admin_access_inr _ _ _ _ Hadmin) as (Hsess & _).
  apply wallet_uniqueness_NoDup in Hu.
  assert (Hin : In p (profiles w) /\ id p = WalletUpdateRequest.profileId rq).
  { assert (H : In p (filter (fun q => String.eqb (id q)
                                         (WalletUpdateRequest.profileId rq))
                        (profiles w))) by (rewrite Hsel; now left).
    apply filter_In in H as [H1 H2]. apply String.eqb_eq in H2. auto. }
  destruct Hin as [Hin Hid].
  assert (Hsels : forall q, In q (profiles w) ->
            String.eqb (id q) (WalletUpdateRequest.profileId rq) = true ->
            q = p).
  { intros q Hq Hqid.
    assert (H : In q (filter (fun q => String.eqb (id q)
                                         (WalletUpdateRequest.profileId rq))
                        (profiles w))) by (apply filter_In; auto).
    rewrite Hsel in H. destruct H as [H|[]]. now symmetry. }
  unfold adminUpdateUserWallet. rewrite Hadmin, Hsel. cbn [maybeSingle].
  rewrite filter_none.
  2:{ intros q Hq.
      destruct (wallet_is _ q) eqn:Ew; [|reflexivity].
      destruct (String.eqb (id q) _) eqn:Ei; [reflexivity|]. exfalso.
      apply opt_string_eqb_eq in Ew.
      pose proof (filter_unique_row wallet_address _ p _ Hu Hin Hsame) as Hone.
      assert (H : In q (filter (fun q => opt_string_eqb (wallet_address q)
                                           (Some (toLowerCase
                                                    (WalletUpdateRequest.newWalletAddress rq))))
                          (profiles w))).
      { apply filter_In. split; [assumption | now apply opt_string_eqb_eq]. }
      rewrite Hone in H. destruct H as [<-|[]].
      apply String.eqb_neq in Ei. now apply Ei. }
  cbn [maybeSingle].
  destruct (update_profiles _ _ _ _) as [msg|w1] eqn:U; [|reflexivity].
  exfalso. unfold update_profiles in U. rewrite Hupd in U.
  unfold wallets in U. rewrite column_update_selected in U.
  2:{ intros q Hq Hqid. rewrite (Hsels q Hq Hqid). cbn. now rewrite Hsame. }
  fold (wallets (profiles w)) in U.
  rewrite (proj2 (distinct_NoDup _) Hu) in U. cbn [negb] in U.
  rewrite (flat_map_selected _ _ _ _ Hsel) in U.
  match type of U with
  | context [forallb ?f ?l] => assert (Hfk : forallb f l = true)
  end.
  { apply forallb_forall. intros a Ha.
    unfold log_wallet_change in Ha.
    cbn [id wallet_address is_wallet_verified rebind] in Ha.
    rewrite Hsame, (proj2 (opt_string_eqb_eq _ _) eq_refl) in Ha.
    cbn [app] in Ha.
    destruct (Bool.eqb _ _); [contradiction|].
    destruct Ha as [<-|[]].
    unfold audit_row_ok. cbn [profile_id changed_by]. rewrite Hsess.
    rewrite !has_id_update by reflexivity.
    now rewrite Huid, (has_id_In _ _ Hin). }
  rewrite Hfk in U. discriminate.
Qed.

(** Extra: an update to the address the one addressed profile already has,
    by a caller who passes the admin check and whose user id is the id of a
    profile, on a table without duplicate wallets and with a store that
    accepts the update and the service's audit insert, is accepted.  The
    profile keeps the address and is verified.  The trigger writes no
    wallet_changed entry for it (only wallet_verified if the wallet was
    unverified); the service writes a wallet_changed entry whose old and
    new value are the same address. *)
Theorem rebind_to_the_same_address
  (e : env) (w : world) (rq : WalletUpdateRequest.t) (p : profile)
  (uid : string) :
  validate_admin_access e w "Unauthorized: Only admins can update wallets"
  = inr uid ->
  filter (fun q => String.eqb (id q) (WalletUpdateRequest.profileId rq))
    (profiles w) = [p] ->
  wallet_address p
  = Some (toLowerCase (WalletUpdateRequest.newWalletAddress rq)) ->
  wallet_uniqueness w ->
  wallet_format_ok (WalletUpdateRequest.newWalletAddress rq) = true ->
  updateError e = None ->
  auditError e = None ->
  has_id (profiles w) uid = true ->
  snd (adminUpdateUserWallet e w rq) = succeeded None
  /\ (forall q, In q (profiles (fst (adminUpdateUserWallet e w rq))) ->
                id q = WalletUpdateRequest.profileId rq ->
                wallet_address q
                = Some (toLowerCase (WalletUpdateRequest.newWalletAddress rq))
                /\ is_wallet_verified q = true)
  /\ wallet_audit_log (fst (adminUpdateUserWallet e w rq))
     = wallet_audit_log w
       ++ (if is_wallet_verified p then []
           else [ {| profile_id := WalletUpdateRequest.profileId rq;
                     action := wallet_verified;
                     old_value := Some "false";
                     new_value := Some "true";
                     changed_by := Some uid;
                     changed_at := db_now e |} ])
       ++ [ {| profile_id := WalletUpdateRequest.profileId rq;
               action := wallet_changed;
               old_value :=
                 Some (toLowerCase (WalletUpdateRequest.newWalletAddress rq));
               new_value :=
                 Some (toLowerCase (WalletUpdateRequest.newWalletAddress rq));
               changed_by := Some uid;
               changed_at := db_now e |} ].
Proof.
  intros Hadmin Hsel Hsame Hu Hok Hupd Haudit Huid.
  pose proof (same_address_is_accepted e w rq p uid Hadmin Hsel Hsame Hu Hupd
                Huid) as Hs.
  pose proof (validate_admin_access_inr _ _ _ _ Hadmin) as (Hsess & _).
  assert (Hin : In p (profiles w) /\ id p = WalletUpdateRequest.profileId rq).
  { assert (H : In p (filter (fun q => String.eqb (id q)
                                         (WalletUpdateRequest.profileId rq))
                        (profiles w))) by (rewrite Hsel; now left).
    apply filter_In in H as [H1 H2]. apply String.eqb_eq in H2. auto. }
  destruct Hin as [Hin Hid].
  split; [|split].
  - now apply update_success_result.
  - intros q Hq Hqid.
    destruct (update_wallet_profiles e w rq) as [[_ Hf]|(Hp & _)];
      [congruence|].
    rewrite Hp in Hq. apply in_map_iff in Hq as (q0 & <- & _).
    destruct (String.eqb (id q0) _) eqn:E; [cbn; auto|].
    apply String.eqb_neq in E. now elim E.
  - destruct (update_wallet_log e w rq p Hs Hin Hid)
      as (w1 & Hlog & _ & Hids & ->).
    rewrite insert_audit_log, Haudit. cbn [andb].
    unfold audit_row_ok. cbn [profile_id changed_by].
    rewrite Hsess, !Hids, Huid, <- Hid, (has_id_In _ _ Hin). cbn [andb].
    rewrite Hlog. unfold log_wallet_change.
    cbn [id wallet_address is_wallet_verified rebind].
    rewrite Hsame, (proj2 (opt_string_eqb_eq _ _) eq_refl).
    cbn [or_null].
    rewrite (canonical_truthy _ (format_ok_lower_canonical _ Hok)).
    rewrite Hid, ?Hsess.
    destruct (is_wallet_verified p); cbn; rewrite <- ?app_assoc; reflexivity.
Qed.

Lemma rebind_to_the_same_address_witness :
  snd (adminUpdateUserWallet (session (Some "admin-1")) court
         {| WalletUpdateRequest.profileId := "p-adv";
            WalletUpdateRequest.newWalletAddress :=
              "0xABCDEF0123456789ABCDEF0123456789ABCDEF01";
            WalletUpdateRequest.reason := "Admin updated" |})
  = succeeded None
  /\ (forall q,
        In q (profiles
                (fst (adminUpdateUserWallet (session (Some "admin-1")) court
                        {| WalletUpdateRequest.profileId := "p-adv";
                           WalletUpdateRequest.newWalletAddress :=
                             "0xABCDEF0123456789ABCDEF0123456789ABCDEF01";
                           WalletUpdateRequest.reason := "Admin updated" |}))) ->
        id q = "p-adv" ->
        wallet_address q = Some "0xabcdef0123456789abcdef0123456789abcdef01"
        /\ is_wallet_verified q = true)
  /\ wallet_audit_log
       (fst (adminUpdateUserWallet (session (Some "admin-1")) court
               {| WalletUpdateRequest.profileId := "p-adv";
                  WalletUpdateRequest.newWalletAddress :=
                    "0xABCDEF0123456789ABCDEF0123456789ABCDEF01";
                  WalletUpdateRequest.reason := "Admin updated" |}))
     = wallet_audit_log court
       ++ []
       ++ [ {| profile_id := "p-adv";
               action := wallet_changed;
               old_value := Some "0xabcdef0123456789abcdef0123456789abcdef01";
               new_value := Some "0xabcdef0123456789abcdef0123456789abcdef01";
               changed_by := Some "admin-1";
               changed_at := "2024-02-01 10:00:00+00" |} ].
Proof.
  apply (rebind_to_the_same_address (session (Some "admin-1")) court
           {| WalletUpdateRequest.profileId := "p-adv";
              WalletUpdateRequest.newWalletAddress :=
                "0xABCDEF0123456789ABCDEF0123456789ABCDEF01";
              WalletUpdateRequest.reason := "Admin updated" |}
           advocate "admin-1").
  - reflexivity.
  - reflexivity.
  - reflexivity.
  - exact court_wallet_uniqueness.
  - reflexivity.
  - reflexivity.
  - reflexivity.
  - reflexivity.
Defined.

(* ------------------------------------------------------------------------- *)
(** ** The verification toggle *)

(** Extra: a successful toggle that changes the flag of the one profile
    with the given id appends exactly one entry to the audit log:
    wallet_verified or wallet_unverified, with the old and the new flag as
    text and the session's user as changed_by. *)
Theorem real_toggle_is_logged_once
  (e : env) (w : world) (i : string) (v : bool) (p : profile) :
  success (snd (adminVerifyWallet e w i v)) = true ->
  filter (fun q => String.eqb (id q) i) (profiles w) = [p] ->
  is_wallet_verified p = negb v ->
  wallet_audit_log (fst (adminVerifyWallet e w i v))
  = wallet_audit_log w
    ++ [ {| profile_id := i;
            action := if v then wallet_verified else wallet_unverified;
            old_value := Some (bool_text (negb v));
            new_value := Some (bool_text v);
            changed_by := currentAuthUser e;
            changed_at := db_now e |} ].
Proof.
  intros Hs Hsel Hflag.
  assert (Hid : id p = i).
  { assert (Hin : In p (filter (fun q => String.eqb (id q) i) (profiles w)))
      by (rewrite Hsel; now left).
    apply filter_In in Hin as [_ Hin]. now apply String.eqb_eq. }
  unfold adminVerifyWallet in *.
  destruct (update_profiles _ _ _ _) as [m|w1] eqn:U; [discriminate|].
  apply update_profiles_inr in U as (_ & _ & _ & Hlog & _).
  cbv beta in Hlog. rewrite (flat_map_selected _ _ _ _ Hsel) in Hlog.
  cbn [fst]. rewrite Hlog. f_equal.
  unfold log_wallet_change.
  cbn [id wallet_address is_wallet_verified set_verification].
  rewrite (proj2 (opt_string_eqb_eq _ _) eq_refl), Hflag, Hid.
  destruct v; reflexivity.
Qed.

Lemma real_toggle_is_logged_once_witness :
  wallet_audit_log
    (fst (adminVerifyWallet (session (Some "admin-1")) court "p-adv" false))
  = wallet_audit_log court
    ++ [ {| profile_id := "p-adv";
            action := wallet_unverified;
            old_value := Some "true";
            new_value := Some "false";
            changed_by := Some "admin-1";
            changed_at := "2024-02-01 10:00:00+00" |} ].
Proof.
  apply (real_toggle_is_logged_once (session (Some "admin-1")) court "p-adv"
           false advocate).
  - reflexivity.
  - reflexivity.
  - reflexivity.
Defined.

(** The effect of a successful toggle on the authorization of the
    profile's wallet. *)
Lemma toggle_then_authorize
  (e e' : env) (w : world) (i : string) (v : bool) (p : profile)
  (a : string) :
  all_profiles wallet_canonical w ->
  success (snd (adminVerifyWallet e w i v)) = true ->
  In p (profiles w) ->
  id p = i ->
  wallet_address p = Some (toLowerCase a) ->
  rpcError e' = None ->
  WalletAuthResponse.isAuthorized
    (verifyWalletAuthorization e' (fst (adminVerifyWallet e w i v)) a
       (role_text (role_category p))) = v
  /\ (v = false ->
      forall e'' r,
        WalletAuthResponse.isAuthorized
          (verifyWalletAuthorization e'' (fst (adminVerifyWallet e w i v)) a r)
        = false).
Proof.
  intros Hcan Hs Hin Hid Hw Hrpc.
  destruct (verify_wallet_profiles e w i v) as [[_ Hf]|(Hp & _ & D)];
    [congruence|].
  apply distinct_NoDup in D.
  assert (Hin' : In (set_verification v (now e) p)
                   (profiles (fst (adminVerifyWallet e w i v)))).
  { rewrite Hp. apply in_map_iff. exists p. split; [|assumption].
    apply String.eqb_eq in Hid. now rewrite Hid. }
  assert (Hoff : v = false ->
            forall e'' r,
              WalletAuthResponse.isAuthorized
                (verifyWalletAuthorization e''
                   (fst (adminVerifyWallet e w i v)) a r) = false).
  { intros -> e'' r.
    destruct (WalletAuthResponse.isAuthorized _) eqn:A; [|reflexivity].
    apply authorized_sound in A as (q & Hq & Hqw & _ & Hqv).
    pose proof (filter_unique_row wallet_address _ _ _ D Hin' Hw) as Hone.
    assert (Hqin : In q (filter (fun q => opt_string_eqb (wallet_address q)
                                            (Some (toLowerCase a)))
                           (profiles (fst (adminVerifyWallet e w i false))))).
    { apply filter_In. split; [assumption | now apply opt_string_eqb_eq]. }
    rewrite Hone in Hqin. destruct Hqin as [<-|[]]. discriminate Hqv. }
  split; [|exact Hoff].
  destruct v; [|now apply Hoff].
  rewrite (authorized_complete e' _ a _ (set_verification true (now e) p));
    try reflexivity; try assumption.
  - unfold all_profiles. rewrite Hp. apply Forall_update; [|exact Hcan].
    intros q Hq b Hb. exact (Hq b Hb).
  - now apply wallet_uniqueness_NoDup.
Qed.

(** Extra: authorization follows the verification flag.  After a
    successful toggle to [v] of a profile, on a table of canonical wallets,
    the profile's wallet is authorized for the profile's role exactly when
    [v] is true; after a toggle to false it is authorized for no role. *)
Theorem authorization_follows_verification
  (e e' : env) (w : world) (i : string) (v : bool) (p : profile)
  (a : string) :
  all_profiles wallet_canonical w ->
  success (snd (adminVerifyWallet e w i v)) = true ->
  In p (profiles w) ->
  id p = i ->
  wallet_address p = Some (toLowerCase a) ->
  rpcError e' = None ->
  WalletAuthResponse.isAuthorized
    (verifyWalletAuthorization e' (fst (adminVerifyWallet e w i v)) a
       (role_text (role_category p))) = v
  /\ (v = false ->
      forall e'' r,
        WalletAuthResponse.isAuthorized
          (verifyWalletAuthorization e'' (fst (adminVerifyWallet e w i v)) a r)
        = false).
Proof. apply toggle_then_authorize. Qed.

Lemma authorization_follows_verification_witness :
  WalletAuthResponse.isAuthorized
    (verifyWalletAuthorization (session None)
       (fst (adminVerifyWallet (session (Some "admin-1")) court "p-adv" false))
       "0xABCDEF0123456789ABCDEF0123456789ABCDEF01"
       (role_text (role_category advocate))) = false
  /\ (false = false ->
      forall e'' r,
        WalletAuthResponse.isAuthorized
          (verifyWalletAuthorization e''
             (fst (adminVerifyWallet (session (Some "admin-1")) court "p-adv"
                     false))
             "0xABCDEF0123456789ABCDEF0123456789ABCDEF01" r)
        = false).
Proof.
  apply (authorization_follows_verification (session (Some "admin-1"))
           (session None) court "p-adv" false advocate
           "0xABCDEF0123456789ABCDEF0123456789ABCDEF01").
  - exact court_wallet_canonical.
  - reflexivity.
  - cbn. auto.
  - reflexivity.
  - reflexivity.
  - reflexivity.
Defined.

Lemma noop_toggle_logs_nothing_witness :
  wallet_audit_log
    (fst (adminVerifyWallet (session (Some "u-adv")) court "p-judge" true))
  = wallet_audit_log court.
Proof.
  apply (noop_toggle_logs_nothing (session (Some "u-adv")) court "p-judge"
           true).
  intros p [<-|[<-|[<-|[]]]] H; try discriminate H. reflexivity.
Defined.

Lemma verify_unknown_id_reports_success_witness :
  snd (adminVerifyWallet (session (Some "admin-1")) court "no-such-profile"
         true) = succeeded None
  /\ profiles
       (fst (adminVerifyWallet (session (Some "admin-1")) court
               "no-such-profile" true)) = profiles court
  /\ wallet_audit_log
       (fst (adminVerifyWallet (session (Some "admin-1")) court
               "no-such-profile" true)) = wallet_audit_log court.
Proof.
  apply (verify_unknown_id_reports_success (session (Some "admin-1")) court
           "no-such-profile" true).
  - reflexivity.
  - reflexivity.
  - reflexivity.
Defined.

Lemma handleRegisterUser_stores_normalized_witness :
  exists p,
    In p (profiles
            (fst (handleRegisterUser (session (Some "admin-1")) court
                    newcomer_form)))
    /\ id p = "p-new"
    /\ wallet_address p
       = normalize "0x1111111111111111111111111111111111111ABC".
Proof.
  apply (handleRegisterUser_stores_normalized (session (Some "admin-1")) court
           newcomer_form).
  reflexivity.
Defined.

Lemma handleUpdateWallet_stores_normalized_witness :
  snd (handleUpdateWallet (session (Some "admin-1")) court
         {| updateForm.profileId := "p-adv";
            updateForm.newWalletAddress :=
              "0x2222222222222222222222222222222222222ABC";
            updateForm.reason := "" |}) = toast_success
  /\ forall p,
       In p (profiles
               (fst (handleUpdateWallet (session (Some "admin-1")) court
                       {| updateForm.profileId := "p-adv";
                          updateForm.newWalletAddress :=
                            "0x2222222222222222222222222222222222222ABC";
                          updateForm.reason := "" |}))) ->
       id p = "p-adv" ->
       wallet_address p
       = normalize "0x2222222222222222222222222222222222222ABC".
Proof.
  split; [reflexivity|].
  apply (handleUpdateWallet_stores_normalized (session (Some "admin-1")) court
           {| updateForm.profileId := "p-adv";
              updateForm.newWalletAddress :=
                "0x2222222222222222222222222222222222222ABC";
              updateForm.reason := "" |}).
  reflexivity.
Defined.

(* ------------------------------------------------------------------------- *)
(** ** The free-standing audit insert *)

(** Extra: [logWalletAction] returns true exactly when it has appended its
    entry, which names nobody as changed_by whoever is signed in and holds
    null for an empty old or new value; when it returns false nothing has
    changed, and for an id that no profile has it returns false. *)
Theorem logWalletAction_outcome
  (e : env) (w : world) (i : string) (act : audit_action)
  (oldValue newValue : option string) :
  (snd (logWalletAction e w i act oldValue newValue) = true ->
   profiles (fst (logWalletAction e w i act oldValue newValue)) = profiles w
   /\ wallet_audit_log (fst (logWalletAction e w i act oldValue newValue))
      = wallet_audit_log w
        ++ [ {| profile_id := i;
                action := act;
                old_value := or_null oldValue;
                new_value := or_null newValue;
                changed_by := None;
                changed_at := db_now e |} ])
  /\ (snd (logWalletAction e w i act oldValue newValue) = false ->
      fst (logWalletAction e w i act oldValue newValue) = w)
  /\ (has_id (profiles w) i = false ->
      snd (logWalletAction e w i act oldValue newValue) = false)
  /\ (has_id (profiles w) i = true -> auditError e = None ->
      snd (logWalletAction e w i act oldValue newValue) = true).
Proof.
  unfold logWalletAction, insert_audit, audit_row_ok.
  cbn [profile_id changed_by].
  destruct (auditError e); cbn.
  - repeat split; try discriminate; auto.
  - rewrite andb_true_r.
    destruct (has_id (profiles w) i); cbn; repeat split;
      try discriminate; auto.
Qed.

(* ------------------------------------------------------------------------- *)
(** ** The page in front of the console *)

(** Extra: the page shows the console to a signed-in profile exactly when
    its role is judiciary.  Whoever gets to the console that way, signed in
    as the one profile of its user id, passes the admin check of the
    registration and of the wallet update.  A profile with role admin passes
    that check as well, but the page denies it access. *)
Theorem page_and_service_checks (p : profile) :
  (AdminWalletPage (Some p) = Console <-> role_category p = judiciary)
  /\ (forall e w denied_,
        AdminWalletPage (Some p) = Console ->
        currentAuthUser e = Some (user_id p) ->
        truthy (user_id p) = true ->
        filter (fun q => String.eqb (user_id q) (user_id p)) (profiles w)
        = [p] ->
        validate_admin_access e w denied_ = inr (user_id p))
  /\ (role_category p = admin ->
      AdminWalletPage (Some p) = AccessDenied
      /\ forall e w denied_,
           currentAuthUser e = Some (user_id p) ->
           truthy (user_id p) = true ->
           filter (fun q => String.eqb (user_id q) (user_id p)) (profiles w)
           = [p] ->
           validate_admin_access e w denied_ = inr (user_id p)).
Proof.
  split; [|split].
  - cbn. destruct (role_category p); split; congruence.
  - intros e w denied_ Hpage Hs Ht Hsel.
    unfold validate_admin_access. rewrite Hs, Ht, Hsel. cbn in *.
    destruct (role_category p); try discriminate; reflexivity.
  - intros Hadmin. split; [cbn; now rewrite Hadmin|].
    intros e w denied_ Hs Ht Hsel.
    unfold validate_admin_access. rewrite Hs, Ht, Hsel. cbn.
    now rewrite Hadmin.
Qed.

Lemma page_and_service_checks_witness :
  AdminWalletPage (Some judge) = Console
  /\ validate_admin_access (session (Some "u-judge")) court
       "Unauthorized: Only admins can register users" = inr "u-judge"
  /\ AdminWalletPage (Some registrar) = AccessDenied
  /\ validate_admin_access (session (Some "admin-1")) court
       "Unauthorized: Only admins can register users" = inr "admin-1".
Proof.
  split; [apply (proj2 (proj1 (page_and_service_checks judge)));
          reflexivity|].
  split; [apply (proj1 (proj2 (page_and_service_checks judge)));
          reflexivity|].
  split; [apply (proj2 (proj2 (page_and_service_checks registrar)));
          reflexivity|].
  apply (proj2 (proj2 (page_and_service_checks registrar)));
    reflexivity.
Defined.

(* ------------------------------------------------------------------------- *)
(** ** Whose identity the authorization query gives away *)

Lemma like_percent (t : string) : like_match "%" t = true.
Proof.
  cbn. induction t as [|c t IH]; [reflexivity|].
  cbn. exact IH.
Qed.

(** Extra: for an address without the characters [%], [_] and backslash,
    whatever the table holds, the identity in the answer of the
    authorization query (id, name and role, returned also when the wallet is
    not authorized) is that of a profile whose stored wallet is the
    presented address up to the case of its letters. *)
Theorem identity_is_of_the_presented_wallet
  (e : env) (w : world) (a r pid : string) :
  forall_chars plain (toLowerCase a) = true ->
  WalletAuthResponse.profileId (verifyWalletAuthorization e w a r)
  = Some pid ->
  exists p s,
    In p (profiles w)
    /\ id p = pid
    /\ wallet_address p = Some s
    /\ toLowerCase s = toLowerCase a
    /\ WalletAuthResponse.fullName (verifyWalletAuthorization e w a r)
       = Some (full_name p)
    /\ WalletAuthResponse.roleCategory (verifyWalletAuthorization e w a r)
       = Some (role_text (role_category p)).
Proof.
  intros Hplain. unfold verifyWalletAuthorization.
  destruct (negb (truthy a) || negb (truthy r)); [discriminate|].
  destruct (rpcError e); [discriminate|].
  unfold verify_wallet_authorization.
  destruct (filter _ (profiles w)) as [|p rest] eqn:F; [discriminate|].
  cbn. intros H. injection H as <-.
  assert (Hin : In p (p :: rest)) by now left.
  rewrite <- F in Hin. apply filter_In in Hin as [Hin Hmatch].
  destruct (wallet_address p) as [s|] eqn:Hs; [|discriminate].
  exists p, s. repeat split; auto.
  unfold ilike in Hmatch.
  rewrite toLowerCase_idem, (like_match_plain _ Hplain) in Hmatch.
  apply String.eqb_eq in Hmatch. congruence.
Qed.

Lemma identity_is_of_the_presented_wallet_witness :
  exists p s,
    In p (profiles court)
    /\ id p = "p-adv"
    /\ wallet_address p = Some s
    /\ toLowerCase s
       = toLowerCase "0xABCDEF0123456789ABCDEF0123456789ABCDEF01"
    /\ WalletAuthResponse.fullName
         (verifyWalletAuthorization (session None) court
            "0xABCDEF0123456789ABCDEF0123456789ABCDEF01" "clerk")
       = Some (full_name p)
    /\ WalletAuthResponse.roleCategory
         (verifyWalletAuthorization (session None) court
            "0xABCDEF0123456789ABCDEF0123456789ABCDEF01" "clerk")
       = Some (role_text (role_category p)).
Proof.
  apply (identity_is_of_the_presented_wallet (session None) court
           "0xABCDEF0123456789ABCDEF0123456789ABCDEF01" "clerk" "p-adv").
  - reflexivity.
  - reflexivity.
Defined.

(** Extra: the address is passed to ILIKE as a pattern.  For the address
    [%] and any non-empty role, whenever some profile has a wallet, the
    answer of the authorization query carries the id, the name and the role
    of a profile that has a wallet, whichever of them the query returns. *)
Theorem percent_names_a_wallet_holder (e : env) (w : world) (r : string) :
  rpcError e = None ->
  truthy r = true ->
  (exists q, In q (profiles w) /\ wallet_address q <> None) ->
  exists p,
    In p (profiles w)
    /\ wallet_address p <> None
    /\ WalletAuthResponse.profileId (verifyWalletAuthorization e w "%" r)
       = Some (id p)
    /\ WalletAuthResponse.fullName (verifyWalletAuthorization e w "%" r)
       = Some (full_name p)
    /\ WalletAuthResponse.roleCategory (verifyWalletAuthorization e w "%" r)
       = Some (role_text (role_category p)).
Proof.
  intros Hrpc Hr (q & Hq & Hqw). unfold verifyWalletAuthorization.
  rewrite Hr, Hrpc. cbn [truthy negb orb].
  unfold verify_wallet_authorization.
  rewrite (filter_ext _
             (fun q => match wallet_address q with
                       | Some _ => true
                       | None => false
                       end)).
  2:{ intros x. destruct (wallet_address x) as [s|]; [|reflexivity].
      unfold ilike. apply like_percent. }
  destruct (filter _ (profiles w)) as [|p rest] eqn:F.
  - exfalso.
    assert (H : In q (filter (fun q => match wallet_address q with
                                       | Some _ => true
                                       | None => false
                                       end) (profiles w))).
    { apply filter_In. split; [assumption|].
      destruct (wallet_address q); [reflexivity | contradiction]. }
    rewrite F in H. contradiction.
  - assert (H : In p (p :: rest)) by now left.
    rewrite <- F in H. apply filter_In in H as [Hin Hw].
    exists p. cbn. repeat split; auto.
    intros Hnone. rewrite Hnone in Hw. discriminate.
Qed.

Lemma percent_names_a_wallet_holder_witness :
  exists p,
    In p (profiles court)
    /\ wallet_address p <> None
    /\ WalletAuthResponse.profileId
         (verifyWalletAuthorization (session None) court "%" "lawyer")
       = Some (id p)
    /\ WalletAuthResponse.fullName
         (verifyWalletAuthorization (session None) court "%" "lawyer")
       = Some (full_name p)
    /\ WalletAuthResponse.roleCategory
         (verifyWalletAuthorization (session None) court "%" "lawyer")
       = Some (role_text (role_category p)).
Proof.
  apply (percent_names_a_wallet_holder (session None) court "lawyer").
  - reflexivity.
  - reflexivity.
  - exists advocate. split; [cbn; auto | discriminate].
Defined.

(* ------------------------------------------------------------------------- *)
(** ** The case service *)

Lemma createCase_inr (e : case_env) (cs : list cases.row) (data : NewCase.t)
  (c : CaseFile.t) :
  snd (createCase e cs data) = inr c ->
  truthy (NewCase.caseNumber data) = true
  /\ truthy (NewCase.title data) = true
  /\ truthy (or_empty (NewCase.courtName data)) = true
  /\ fst (createCase e cs data) = cs ++ [new_case_row e data]
  /\ c = to_case_file (new_case_row e data).
Proof.
  unfold createCase.
  destruct (truthy (NewCase.caseNumber data)); [|discriminate].
  destruct (truthy (NewCase.title data)); [|discriminate].
  destruct (truthy (or_empty (NewCase.courtName data))); [|discriminate].
  cbn [negb orb].
  destruct (insertError e); [discriminate|].
  cbn. intros H. injection H as <-. auto.
Qed.

Lemma filter_id_fresh (cs : list cases.row) (i : string) :
  (forall x, In x cs -> cases.id x <> i) ->
  filter (fun c => String.eqb (cases.id c) i) cs = [].
Proof.
  intros H. induction cs as [|x cs IH]; [reflexivity|].
  cbn. destruct (String.eqb (cases.id x) i) eqn:E.
  - apply String.eqb_eq in E. exfalso. apply (H x); [now left | exact E].
  - apply IH. intros y Hy. apply H. now right.
Qed.

(** Extra: a case that [createCase] has returned can be read back: provided
    the generated id is non-empty and new to the table, [getCaseById] on the
    id of the returned case gives that same case. *)
Theorem created_case_is_retrievable
  (e e' : case_env) (cs : list cases.row) (data : NewCase.t)
  (c : CaseFile.t) :
  snd (createCase e cs data) = inr c ->
  (forall x, In x cs -> cases.id x <> new_case_id e) ->
  truthy (new_case_id e) = true ->
  selectError e' = None ->
  getCaseById e' (fst (createCase e cs data)) (CaseFile.id c)
  = inr (Some c).
Proof.
  intros Hc Hfresh Hid Hsel.
  apply createCase_inr in Hc as (_ & _ & _ & -> & ->).
  unfold getCaseById. cbn [CaseFile.id to_case_file cases.id new_case_row].
  rewrite Hid, Hsel. cbn [negb].
  rewrite filter_app, (filter_id_fresh _ _ Hfresh).
  cbn. rewrite String.eqb_refl. reflexivity.
Qed.

Lemma created_case_is_retrievable_witness :
  getCaseById clerk_desk (fst (createCase clerk_desk docket land_dispute))
    "case-2"
  = inr (Some
           {| CaseFile.id := "case-2";
              CaseFile.caseNumber := "CV-2024-017";
              CaseFile.title := "Mehta v. Shah";
              CaseFile.description := "Boundary of a plot";
              CaseFile.caseType := "civil";
              CaseFile.courtName := Some "High Court";
              CaseFile.partyA := "Mehta";
              CaseFile.partyB := "";
              CaseFile.status := "open";
              CaseFile.evidenceCount := 0;
              CaseFile.createdAt := "2024-02-01 10:00:00+00";
              CaseFile.updatedAt := "2024-02-01 10:00:00+00" |}).
Proof.
  apply (created_case_is_retrievable clerk_desk clerk_desk docket land_dispute
           (to_case_file (new_case_row clerk_desk land_dispute))).
  - reflexivity.
  - intros x [<-|[]]. discriminate.
  - reflexivity.
  - reflexivity.
Defined.

(** Extra: what [createCase] returns and stores.  The returned case has the
    submitted number, title and court, all three non-empty; its type is the
    submitted one if that is civil or criminal and civil otherwise; a missing
    description or party comes back as the empty string.  It is shown as
    open with no evidence, while the row appended to the table has status
    pending and the case number as its unique identifier. *)
Theorem created_case_fields
  (e : case_env) (cs : list cases.row) (data : NewCase.t) (c : CaseFile.t) :
  snd (createCase e cs data) = inr c ->
  (CaseFile.caseNumber c = NewCase.caseNumber data
   /\ CaseFile.title c = NewCase.title data
   /\ CaseFile.courtName c = NewCase.courtName data
   /\ truthy (CaseFile.caseNumber c) = true
   /\ truthy (CaseFile.title c) = true
   /\ truthy (or_empty (CaseFile.courtName c)) = true)
  /\ (CaseFile.caseType c
      = if String.eqb (NewCase.caseType data) "criminal"
        then "criminal" else "civil")
  /\ (CaseFile.description c = or_empty (or_null (NewCase.description data))
      /\ CaseFile.partyA c = or_empty (NewCase.partyA data)
      /\ CaseFile.partyB c = or_empty (NewCase.partyB data))
  /\ (CaseFile.status c = "open" /\ CaseFile.evidenceCount c = 0)
  /\ exists stored,
       fst (createCase e cs data) = cs ++ [stored]
       /\ cases.status stored = "pending"
       /\ cases.unique_identifier stored = NewCase.caseNumber data
       /\ cases.id stored = CaseFile.id c.
Proof.
  intros Hc.
  apply createCase_inr in Hc as (Hn & Ht & Hcourt & Hfst & ->).
  cbn [to_case_file new_case_row CaseFile.caseNumber CaseFile.title
       CaseFile.courtName CaseFile.caseType CaseFile.description
       CaseFile.partyA CaseFile.partyB CaseFile.status
       CaseFile.evidenceCount CaseFile.id cases.id cases.case_number
       cases.title cases.court_name cases.case_type cases.description
       cases.party_a_name cases.party_b_name].
  assert (Hsame : or_null (or_null (NewCase.courtName data))
                  = NewCase.courtName data).
  { destruct (NewCase.courtName data) as [s|]; [|discriminate].
    cbn in *. now rewrite Hcourt; cbn; rewrite Hcourt. }
  repeat split; auto.
  - now rewrite Hsame.
  - destruct (String.eqb (NewCase.caseType data) "criminal") eqn:Ecr.
    + apply String.eqb_eq in Ecr. rewrite Ecr. reflexivity.
    + destruct (String.eqb (NewCase.caseType data) "civil") eqn:Eci;
        [apply String.eqb_eq in Eci; now rewrite Eci | reflexivity].
  - exists (new_case_row e data). auto.
Qed.

Lemma created_case_fields_witness :
  (CaseFile.caseNumber (to_case_file (new_case_row clerk_desk land_dispute))
   = NewCase.caseNumber land_dispute
   /\ CaseFile.title (to_case_file (new_case_row clerk_desk land_dispute))
      = NewCase.title land_dispute
   /\ CaseFile.courtName (to_case_file (new_case_row clerk_desk land_dispute))
      = NewCase.courtName land_dispute
   /\ truthy
        (CaseFile.caseNumber
           (to_case_file (new_case_row clerk_desk land_dispute))) = true
   /\ truthy
        (CaseFile.title (to_case_file (new_case_row clerk_desk land_dispute)))
      = true
   /\ truthy
        (or_empty
           (CaseFile.courtName
              (to_case_file (new_case_row clerk_desk land_dispute))))
      = true)
  /\ (CaseFile.caseType (to_case_file (new_case_row clerk_desk land_dispute))
      = if String.eqb (NewCase.caseType land_dispute) "criminal"
        then "criminal" else "civil")
  /\ (CaseFile.description
        (to_case_file (new_case_row clerk_desk land_dispute))
      = or_empty (or_null (NewCase.description land_dispute))
      /\ CaseFile.partyA (to_case_file (new_case_row clerk_desk land_dispute))
         = or_empty (NewCase.partyA land_dispute)
      /\ CaseFile.partyB (to_case_file (new_case_row clerk_desk land_dispute))
         = or_empty (NewCase.partyB land_dispute))
  /\ (CaseFile.status (to_case_file (new_case_row clerk_desk land_dispute))
      = "open"
      /\ CaseFile.evidenceCount
           (to_case_file (new_case_row clerk_desk land_dispute)) = 0)
  /\ exists stored,
       fst (createCase clerk_desk docket land_dispute) = docket ++ [stored]
       /\ cases.status stored = "pending"
       /\ cases.unique_identifier stored = NewCase.caseNumber land_dispute
       /\ cases.id stored
          = CaseFile.id (to_case_file (new_case_row clerk_desk land_dispute)).
Proof.
  apply (created_case_fields clerk_desk docket land_dispute).
  reflexivity.
Defined.

(** Extra: [createCase] stores nothing unless it returns a case: a case
    without number, title or court is refused with "Missing required case
    fields" before the store is asked, and whenever an error is thrown the
    table is what it was. *)
Theorem refused_case_is_not_stored
  (e : case_env) (cs : list cases.row) (data : NewCase.t) :
  (truthy (NewCase.caseNumber data) = false
   \/ truthy (NewCase.title data) = false
   \/ truthy (or_empty (NewCase.courtName data)) = false ->
   createCase e cs data = (cs, inl "Missing required case fields"))
  /\ (forall msg, snd (createCase e cs data) = inl msg ->
                  fst (createCase e cs data) = cs).
Proof.
  unfold createCase. split.
  - intros [H|[H|H]]; rewrite H; cbn; rewrite ?orb_true_r; reflexivity.
  - intros msg.
    destruct (negb (truthy (NewCase.caseNumber data))
              || negb (truthy (NewCase.title data))
              || negb (truthy (or_empty (NewCase.courtName data))));
      [reflexivity|].
    destruct (insertError e); [reflexivity | discriminate].
Qed.

Lemma filter_out_then_in (cs : list cases.row) (i : string) :
  filter (fun c => String.eqb (cases.id c) i)
    (filter (fun c => negb (String.eqb (cases.id c) i)) cs) = [].
Proof.
  apply filter_id_fresh. intros x Hx. apply filter_In in Hx as [_ Hx].
  apply negb_true_iff in Hx. now apply String.eqb_neq.
Qed.

(** Extra: when the store accepts the statement, [deleteCase] returns true
    and removes the rows with the given id and no other; [getCaseById] then
    finds no case with that id.  For an id no case has it returns true as
    well, and the table is unchanged. *)
Theorem deleted_case_is_gone
  (e e' : case_env) (cs : list cases.row) (i : string) :
  deleteError e = None ->
  snd (deleteCase e cs i) = inr true
  /\ (forall x, In x (fst (deleteCase e cs i))
                <-> In x cs /\ cases.id x <> i)
  /\ (truthy i = true ->
      getCaseById e' (fst (deleteCase e cs i)) i = inr None)
  /\ ((forall x, In x cs -> cases.id x <> i) ->
      fst (deleteCase e cs i) = cs).
Proof.
  intros Hd. unfold deleteCase. rewrite Hd. cbn [fst snd].
  split; [reflexivity|]. split; [|split].
  - intros x. rewrite filter_In, negb_true_iff, String.eqb_neq. reflexivity.
  - intros Hi. unfold getCaseById. rewrite Hi. cbn [negb].
    destruct (selectError e'); [reflexivity|].
    now rewrite filter_out_then_in.
  - intros Hnone. induction cs as [|x cs IH]; [reflexivity|].
    cbn. destruct (String.eqb (cases.id x) i) eqn:E.
    + apply String.eqb_eq in E. exfalso. apply (Hnone x); [now left | exact E].
    + cbn. f_equal. apply IH. intros y Hy. apply Hnone. now right.
Qed.

Lemma deleted_case_is_gone_witness :
  snd (deleteCase clerk_desk docket "case-1") = inr true
  /\ (forall x, In x (fst (deleteCase clerk_desk docket "case-1"))
                <-> In x docket /\ cases.id x <> "case-1")
  /\ (truthy "case-1" = true ->
      getCaseById clerk_desk (fst (deleteCase clerk_desk docket "case-1"))
        "case-1" = inr None)
  /\ ((forall x, In x docket -> cases.id x <> "case-1") ->
      fst (deleteCase clerk_desk docket "case-1") = docket).
Proof.
  apply (deleted_case_is_gone clerk_desk clerk_desk docket "case-1").
  reflexivity.
Defined.

(* ------------------------------------------------------------------------- *)
(** ** The verification dialog and the footprint of a registration *)

Lemma handleToggleVerification_success (e : env) (w : world)
  (d : verifyDialog.t) :
  snd (handleToggleVerification e w d) = toast_success ->
  success (snd (adminVerifyWallet e w (verifyDialog.userId d)
                  (negb (verifyDialog.currentStatus d)))) = true.
Proof.
  unfold handleToggleVerification.
  destruct (adminVerifyWallet e w _ _) as [w' r]. cbn [fst snd].
  destruct (success r); [reflexivity | discriminate].
Qed.

(** Extra: the verification dialog does what it announces.  Confirmed for a
    profile shown as verified, with success, it leaves the profile's wallet
    authorized for no role ("Unverifying will prevent this user from logging
    in"); confirmed for a profile shown as unverified, on a table of
    canonical wallets, it leaves the wallet authorized for the profile's
    role. *)
Theorem dialog_switches_authorization
  (e e' : env) (w : world) (d : verifyDialog.t) (p : profile) (a : string) :
  all_profiles wallet_canonical w ->
  snd (handleToggleVerification e w d) = toast_success ->
  In p (profiles w) ->
  id p = verifyDialog.userId d ->
  wallet_address p = Some (toLowerCase a) ->
  rpcError e' = None ->
  (verifyDialog.currentStatus d = true ->
   forall e'' r,
     WalletAuthResponse.isAuthorized
       (verifyWalletAuthorization e'' (fst (handleToggleVerification e w d))
          a r) = false)
  /\ (verifyDialog.currentStatus d = false ->
      WalletAuthResponse.isAuthorized
        (verifyWalletAuthorization e' (fst (handleToggleVerification e w d)) a
           (role_text (role_category p))) = true).
Proof.
  intros Hcan Hs Hin Hid Hw Hrpc.
  apply handleToggleVerification_success in Hs.
  rewrite handleToggleVerification_fst.
  destruct (toggle_then_authorize e e' w _ _ p a Hcan Hs Hin Hid Hw Hrpc)
    as [Hrole Hoff].
  split.
  - intros Hshown. rewrite Hshown in *. now apply Hoff.
  - intros Hshown. rewrite Hshown in *. exact Hrole.
Qed.

Lemma dialog_switches_authorization_witness :
  (verifyDialog.currentStatus
     {| verifyDialog.userId := "p-adv"; verifyDialog.currentStatus := true |}
   = true ->
   forall e'' r,
     WalletAuthResponse.isAuthorized
       (verifyWalletAuthorization e''
          (fst (handleToggleVerification (session (Some "admin-1")) court
                  {| verifyDialog.userId := "p-adv";
                     verifyDialog.currentStatus := true |}))
          "0xABCDEF0123456789ABCDEF0123456789ABCDEF01" r) = false)
  /\ (verifyDialog.currentStatus
        {| verifyDialog.userId := "p-adv";
           verifyDialog.currentStatus := true |} = false ->
      WalletAuthResponse.isAuthorized
        (verifyWalletAuthorization (session None)
           (fst (handleToggleVerification (session (Some "admin-1")) court
                   {| verifyDialog.userId := "p-adv";
                      verifyDialog.currentStatus := true |}))
           "0xABCDEF0123456789ABCDEF0123456789ABCDEF01"
           (role_text (role_category advocate))) = true).
Proof.
  apply (dialog_switches_authorization (session (Some "admin-1"))
           (session None) court
           {| verifyDialog.userId := "p-adv";
              verifyDialog.currentStatus := true |}
           advocate "0xABCDEF0123456789ABCDEF0123456789ABCDEF01").
  - exact court_wallet_canonical.
  - reflexivity.
  - cbn. auto.
  - reflexivity.
  - reflexivity.
  - reflexivity.
Defined.

(** Extra: a successful registration leaves exactly this behind: one new
    profile at the end of the table, bound to one new identity at the
    identity provider with the same email, one call to the provider, and at
    most one audit entry, of kind wallet_added. *)
Theorem successful_registration_footprint
  (e : env) (w : world) (r : UserRegistration.t) :
  success (snd (adminRegisterUserWithWallet e w r)) = true ->
  profiles (fst (adminRegisterUserWithWallet e w r))
  = profiles w ++ [registered_profile e r]
  /\ auth_users (fst (adminRegisterUserWithWallet e w r))
     = auth_users w
       ++ [ {| auth_id := user_id (registered_profile e r);
               auth_email := email (registered_profile e r) |} ]
  /\ auth_calls (fst (adminRegisterUserWithWallet e w r))
     = auth_calls w ++ [createUser (UserRegistration.email r)]
  /\ (wallet_audit_log (fst (adminRegisterUserWithWallet e w r))
      = wallet_audit_log w
      \/ exists entry,
           wallet_audit_log (fst (adminRegisterUserWithWallet e w r))
           = wallet_audit_log w ++ [entry]
           /\ action entry = wallet_added
           /\ profile_id entry = id (registered_profile e r)
           /\ new_value entry = wallet_address (registered_profile e r)).
Proof.
  intros Hs.
  assert (Hlog := register_audit_log e w r).
  unfold adminRegisterUserWithWallet in *.
  destruct (validate_admin_access e w _) as [res|uid] eqn:V.
  { apply validate_admin_access_inl in V as [msg ->]. discriminate. }
  destruct (registration_conflict w r) as [res|] eqn:C.
  { apply registration_conflict_failure in C as [msg ->]. discriminate. }
  unfold auth_createUser in *.
  destruct (authError e); [discriminate|].
  cbn [profiles set_auth] in *.
  destruct (insert_profile e _ _) as [m|ps'] eqn:I; [discriminate|].
  apply insert_profile_inr in I as (-> & _).
  cbn [fst snd] in *.
  rewrite insert_audit_profiles.
  destruct (insert_audit_auth e
              (set_profiles
                 (set_auth w
                    (auth_users w
                     ++ [ {| auth_id := new_user_id e;
                             auth_email := UserRegistration.email r |} ])
                    (auth_calls w ++ [createUser (UserRegistration.email r)]))
                 (profiles w ++ [registered_profile e r]))
              {| profile_id := id (registered_profile e r);
                 action := wallet_added;
                 old_value := None;
                 new_value :=
                   Some (toLowerCase (UserRegistration.walletAddress r));
                 changed_by := Some uid;
                 changed_at := db_now e |}) as [Hu Hc].
  rewrite Hu, Hc. cbn.
  repeat split.
  destruct Hlog as [Hlog|(_ & _ & Hlog)]; [now left|].
  right. eexists. split; [exact Hlog|]. cbn. auto.
Qed.

Lemma successful_registration_footprint_witness :
  profiles
    (fst (adminRegisterUserWithWallet (session (Some "admin-1")) court
            newcomer))
  = profiles court ++ [registered_profile (session (Some "admin-1")) newcomer]
  /\ auth_users
       (fst (adminRegisterUserWithWallet (session (Some "admin-1")) court
               newcomer))
     = auth_users court
       ++ [ {| auth_id :=
                 user_id (registered_profile (session (Some "admin-1"))
                            newcomer);
               auth_email :=
                 email (registered_profile (session (Some "admin-1"))
                          newcomer) |} ]
  /\ auth_calls
       (fst (adminRegisterUserWithWallet (session (Some "admin-1")) court
               newcomer))
     = auth_calls court ++ [createUser (UserRegistration.email newcomer)]
  /\ (wallet_audit_log
        (fst (adminRegisterUserWithWallet (session (Some "admin-1")) court
                newcomer))
      = wallet_audit_log court
      \/ exists entry,
           wallet_audit_log
             (fst (adminRegisterUserWithWallet (session (Some "admin-1"))
                     court newcomer))
           = wallet_audit_log court ++ [entry]
           /\ action entry = wallet_added
           /\ profile_id entry
              = id (registered_profile (session (Some "admin-1")) newcomer)
           /\ new_value entry
              = wallet_address
                  (registered_profile (session (Some "admin-1")) newcomer)).
Proof.
  apply (successful_registration_footprint (session (Some "admin-1")) court
           newcomer).
  reflexivity.
Defined.

(* ------------------------------------------------------------------------- *)
(** ** The service called directly *)

(** The registrar of the court, the newcomer, and an audit insert that fails
    with a message. *)
Lemma register_succeeds_without_audit_entry_witness :
  (forall outcome,
      snd (adminRegisterUserWithWallet
             (with_auditError (session (Some "admin-1")) outcome) court
             newcomer)
      = succeeded (Some (new_profile_id (session (Some "admin-1"))))
      /\ profiles
           (fst (adminRegisterUserWithWallet
                   (with_auditError (session (Some "admin-1")) outcome) court
                   newcomer))
         = profiles court
           ++ [registered_profile (session (Some "admin-1")) newcomer])
  /\ wallet_audit_log
       (fst (adminRegisterUserWithWallet
               (with_auditError (session (Some "admin-1"))
                  (Some "audit insert failed")) court newcomer))
     = wallet_audit_log court.
Proof.
  apply (register_succeeds_without_audit_entry
           (session (Some "admin-1")) court newcomer "admin-1"
           "audit insert failed"
           (profiles court
            ++ [registered_profile (session (Some "admin-1")) newcomer])).
  - reflexivity.
  - reflexivity.
  - reflexivity.
  - reflexivity.
Defined.

(** [C1], as stated, fails.  The registrar calls the service with the
    address [0x\a] for a clerk; the call succeeds and stores the address as
    it is.  The state is one the service reaches from the court, no wallet is
    held twice, and a verified clerk profile holds exactly the lower-cased
    input.  The query passes the address to ILIKE as a pattern, in which the
    backslash makes the next character literal: the pattern stands for the
    text [0xa], no row matches it (so the order of the rows plays no part),
    and the answer is authorized = false. *)
Lemma authorization_refuses_a_granted_wallet :
  reachable court court_with_escaped
  /\ wallet_uniqueness court_with_escaped
  /\ granted court_with_escaped "0x\a" "clerk"
  /\ verify_wallet_authorization (profiles court_with_escaped)
       (toLowerCase "0x\a") "clerk" = []
  /\ WalletAuthResponse.isAuthorized
       (verifyWalletAuthorization (session None) court_with_escaped
          "0x\a" "clerk") = false
  /\ ~ (WalletAuthResponse.isAuthorized
          (verifyWalletAuthorization (session None) court_with_escaped
             "0x\a" "clerk") = true
        <-> granted court_with_escaped "0x\a" "clerk").
Proof.
  assert (G : granted court_with_escaped "0x\a" "clerk").
  { exists (registered_profile (session (Some "admin-1")) escaped_clerk).
    repeat split; try reflexivity.
    vm_compute. auto. }
  repeat split.
  - apply reach_perform, reach_start.
  - apply wallet_uniqueness_NoDup, distinct_NoDup. reflexivity.
  - exact G.
  - intros [_ H]. specialize (H G). vm_compute in H. discriminate.
Qed.

(** [C7], as stated, fails.  The registrar calls the service with the
    address [Not-A-Wallet]; the service tests no format, lower-cases the
    address and inserts the profile.  The call reports success, the state is
    one the service reaches from the court (whose wallets are all canonical),
    and it holds a profile whose wallet is [not-a-wallet]. *)
Lemma service_stores_a_malformed_wallet :
  all_profiles wallet_canonical court
  /\ reachable court court_with_malformed
  /\ wallet_format_ok "Not-A-Wallet" = false
  /\ snd (perform (session (Some "admin-1")) court (register malformed_clerk))
     = succeeded (Some "p-new")
  /\ In (registered_profile (session (Some "admin-1")) malformed_clerk)
       (profiles court_with_malformed)
  /\ wallet_address
       (registered_profile (session (Some "admin-1")) malformed_clerk)
     = Some "not-a-wallet"
  /\ canonical "not-a-wallet" = false
  /\ ~ all_profiles wallet_canonical court_with_malformed.
Proof.
  assert (Hin : In (registered_profile (session (Some "admin-1"))
                      malformed_clerk)
                  (profiles court_with_malformed)).
  { vm_compute. auto. }
  repeat split.
  - exact court_wallet_canonical.
  - apply reach_perform, reach_start.
  - exact Hin.
  - intros H. unfold all_profiles in H. rewrite Forall_forall in H.
    specialize (H _ Hin "not-a-wallet" eq_refl). vm_compute in H.
    discriminate.
Qed.
